(** * Modular Telegram bot: the content-graph engine of [telegram_bot.py]

    A shallow embedding of the page / button / action store of
    [TelegramBotEditor], of its per-user editor sessions, of the free-text and
    callback handlers that mutate the store, and of the Markdown escaping and
    template layer, followed by the properties the design document states
    about them.

    Conventions.
    - A Python [str] is a [string]; a character is a code point below 256
      (an [ascii]), and the character classes below are Python's on that
      range.  Text constants of the source that hold emoji are kept as the
      bytes of the literal; no modelled operation looks inside them.
    - A Python [dict] whose iteration order the code relies on (the pages and
      actions tables) is an association list in insertion order; the users
      table and the session table, which are only looked up and updated by
      key, are [gmap]s.
    - [datetime.now()] is an argument of every function that reads the clock;
      an instant is a number of microseconds.  The age of a session is
      compared with the timeout as the source does it, through the [float]
      that [total_seconds()] returns.
    - The transport ([reply_text], [edit_message_text]) is an output value
      returned next to the new state. *)

From Stdlib Require Import ZArith Ascii String Lia.
From stdpp Require Import base option list gmap strings pretty.

Local Open Scope Z_scope.

(** ** Python string primitives *)

Module PyStr.

Definition ord (c : ascii) : N := N_of_ascii c.

Definition char_eqb (a b : ascii) : bool := bool_decide (a = b).

(** [str.isspace] on one character. *)
Definition isspace (c : ascii) : bool :=
  let n := ord c in
  ((9 <=? n) && (n <=? 13) || (28 <=? n) && (n <=? 32)
   || (n =? 133) || (n =? 160))%N.

(** [str.isalnum] on one character. *)
Definition within (lo hi : N) (c : ascii) : bool :=
  ((lo <=? ord c) && (ord c <=? hi))%N.

Definition isalnum_char (c : ascii) : bool :=
  (within 48 57 c || within 65 90 c || within 97 122 c || within 170 170 c
   || within 178 179 c || within 181 181 c || within 185 186 c
   || within 188 190 c || within 192 214 c || within 216 246 c
   || within 248 255 c)%N.

Fixpoint all_chars (p : ascii -> bool) (s : string) : bool :=
  match s with
  | EmptyString => true
  | String c r => p c && all_chars p r
  end.

(** [s.isalnum()]: every character is alphanumeric and there is one. *)
Definition isalnum (s : string) : bool :=
  match s with
  | EmptyString => false
  | _ => all_chars isalnum_char s
  end.

(** [sub in s] for strings. *)
Fixpoint str_in (sub s : string) : bool :=
  match s with
  | EmptyString => String.prefix sub EmptyString
  | String _ r => String.prefix sub s || str_in sub r
  end.

Definition startswith (s p : string) : bool := String.prefix p s.

Fixpoint drop (n : nat) (s : string) : string :=
  match n, s with
  | O, _ => s
  | S _, EmptyString => EmptyString
  | S k, String _ r => drop k r
  end.

(** [s[:n]]. *)
Fixpoint take (n : nat) (s : string) : string :=
  match n, s with
  | O, _ => EmptyString
  | S _, EmptyString => EmptyString
  | S k, String c r => String c (take k r)
  end.

Fixpoint filter_chars (p : ascii -> bool) (s : string) : string :=
  match s with
  | EmptyString => EmptyString
  | String c r => if p c then String c (filter_chars p r)
                  else filter_chars p r
  end.

(** [s.replace(old, new)] for a non-empty [old]: a left-to-right scan for
    non-overlapping occurrences.  [skip] counts the characters of a matched
    occurrence that are still to be dropped. *)
Fixpoint replace_go (old new : string) (skip : nat) (s : string) : string :=
  match s with
  | EmptyString => EmptyString
  | String c r =>
      match skip with
      | S k => replace_go old new k r
      | O => if String.prefix old s
             then new +:+ replace_go old new (String.length old - 1) r
             else String c (replace_go old new O r)
      end
  end.

(** With an empty [old] Python puts [new] before every character and at the
    end. *)
Fixpoint intersperse_new (new s : string) : string :=
  match s with
  | EmptyString => new
  | String c r => new +:+ String c (intersperse_new new r)
  end.

Definition replace (old new s : string) : string :=
  match old with
  | EmptyString => intersperse_new new s
  | _ => replace_go old new O s
  end.

Fixpoint lstrip_by (p : ascii -> bool) (s : string) : string :=
  match s with
  | EmptyString => EmptyString
  | String c r => if p c then lstrip_by p r else s
  end.

Fixpoint rstrip_by (p : ascii -> bool) (s : string) : string :=
  match s with
  | EmptyString => EmptyString
  | String c r =>
      match rstrip_by p r with
      | EmptyString => if p c then EmptyString else String c EmptyString
      | r' => String c r'
      end
  end.

(** [s.strip()]. *)
Definition strip (s : string) : string :=
  rstrip_by isspace (lstrip_by isspace s).

(** [s.split(sep, maxsplit)] for a one-character separator. *)
Fixpoint split (sep : ascii) (maxsplit : nat) (s : string) : list string :=
  match s with
  | EmptyString => [EmptyString]
  | String c r =>
      match maxsplit with
      | S k =>
          if char_eqb c sep then EmptyString :: split sep k r
          else match split sep maxsplit r with
               | p :: ps => String c p :: ps
               | [] => [String c EmptyString]
               end
      | O => [s]
      end
  end.

(** [str(n)] for an [int]. *)
Definition str_of_int (n : Z) : string := pretty n.

(** [int(s)] for a [str]: surrounding blanks are dropped, then an optional
    sign and decimal digits, where single underscores may separate digits.
    [None] stands for [ValueError]. *)
Definition int_blank (c : ascii) : bool :=
  let n := ord c in
  ((9 <=? n) && (n <=? 13) || (n =? 32) || (n =? 133) || (n =? 160))%N.

Definition digit_val (c : ascii) : option Z :=
  let n := ord c in
  if ((48 <=? n) && (n <=? 57))%N then Some (Z.of_N n - 48) else None.

(** Digits after the first one: [acc] is the value read so far and
    [after_us] says that the previous character was an underscore. *)
Fixpoint int_digits (acc : Z) (after_us : bool) (s : string) : option Z :=
  match s with
  | EmptyString => if after_us then None else Some acc
  | String c r =>
      match digit_val c with
      | Some d => int_digits (10 * acc + d) false r
      | None =>
          if char_eqb c "_" && negb after_us then int_digits acc true r
          else None
      end
  end.

Definition int_unsigned (s : string) : option Z :=
  match s with
  | EmptyString => None
  | String c r =>
      match digit_val c with
      | Some d => int_digits d false r
      | None => None
      end
  end.

Definition int_of_str (s : string) : option Z :=
  match rstrip_by int_blank (lstrip_by int_blank s) with
  | EmptyString => None
  | String c r =>
      if char_eqb c "+" then int_unsigned r
      else if char_eqb c "-" then Z.opp <$> int_unsigned r
      else int_unsigned (String c r)
  end.

End PyStr.

(** ** Python dictionaries in insertion order *)

Module Dict.
Section dict.
Context {V : Type}.

(** [d.get(k)] *)
Fixpoint get (k : string) (d : list (string * V)) : option V :=
  match d with
  | [] => None
  | (k', v) :: r => if decide (k = k') then Some v else get k r
  end.

(** [k in d] *)
Definition mem (k : string) (d : list (string * V)) : bool :=
  match get k d with Some _ => true | None => false end.

(** [d[k] = v]: an existing key keeps its place, a new one goes last. *)
Fixpoint set (k : string) (v : V) (d : list (string * V))
  : list (string * V) :=
  match d with
  | [] => [(k, v)]
  | (k', v') :: r =>
      if decide (k = k') then (k, v) :: r else (k', v') :: set k v r
  end.

(** The keys of a dictionary are pairwise distinct. *)
Definition wf (d : list (string * V)) : Prop := NoDup d.*1.
End dict.
End Dict.

(** ** Data model *)

Module Button.
Record t := {
  id : option string;          (* absent on legacy buttons *)
  text : string;
  action : string;
  created_at : option string;
  updated_at : option string
}.
End Button.

(** A page.  A page without a ['buttons'] key is read as one with no buttons
    by every function below ([page.get('buttons', [])]). *)
Module Page.
Record t := {
  title : string;
  content : string;
  buttons : list Button.t;
  created_at : string;
  updated_at : option string
}.

Definition with_buttons (bs : list Button.t) (p : t) : t :=
  {| title := title p; content := content p; buttons := bs;
     created_at := created_at p; updated_at := updated_at p |}.
End Page.

Module Action.
Record t := {
  type : option string;        (* read with default 'message' *)
  content : string;
  url : option string;
  text : option string;
  created_at : string;
  updated_at : option string
}.
End Action.

Record Settings := {
  welcome_message : option string;
  main_menu : option string
}.

(** [self.database]; each top-level table may be missing from a loaded file
    (the reserved top-level ['buttons'] table is never read). *)
Record Database := {
  pages : option (list (string * Page.t));
  actions : option (list (string * Action.t));
  settings : option Settings
}.

(** What [save_database] writes. *)
Record DatabaseFile := {
  file_database : Database;
  file_admin_users : gset Z;
  file_last_updated : string
}.

(** A session of [self.user_states]; [timestamp] is an instant in
    microseconds. *)
Record Session := {
  state : string;
  timestamp : Z;
  data : gmap string string
}.

(** The fields of [self] that the graph and session code reads and writes. *)
Record Bot := {
  database : Database;
  admin_users : gset Z;
  editor_mode : gmap Z bool;
  button_counter : Z;
  user_states : gmap Z Session;
  database_file : option DatabaseFile
}.

(** A record of [users_database['users']]. *)
Record User := {
  username : option string;
  first_name : option string;
  last_name : option string;
  role : string;
  registered_at : string;
  last_seen : string;
  total_interactions : Z;
  pages_visited : list string;
  buttons_clicked : list string
}.

(** [self.users_database] and the file [save_users_database] writes. *)
Record UsersDatabase := {
  users : gmap string User;
  roles : gmap string (list string);
  last_updated : string
}.

Record UsersStore := {
  users_database : UsersDatabase;
  users_file : option UsersDatabase
}.

(** Values kept in [context.user_data]. *)
Inductive PyVal :=
| PStr (s : string)
| PInt (n : Z)
| PBool (b : bool).

Definition py_str (v : PyVal) : string :=
  match v with
  | PStr s => s
  | PInt n => PyStr.str_of_int n
  | PBool true => "True"
  | PBool false => "False"
  end.

Definition truthy (v : PyVal) : bool :=
  match v with
  | PStr EmptyString => false
  | PStr _ => true
  | PInt n => negb (n =? 0)
  | PBool b => b
  end.

(** The fields of a [datetime]. *)
Record DateTime := {
  year : Z; month : Z; day : Z; hour : Z; minute : Z; second : Z
}.

Inductive ParseMode := MARKDOWN | MARKDOWN_V2 | HTML.

Record InlineKeyboardButton := {
  label : string;
  callback_data : string
}.

(** What a handler asks of its collaborators, in call order. *)
Inductive Effect :=
| reply_text (text : string)
    (reply_markup : option (list (list InlineKeyboardButton)))
    (parse_mode : option ParseMode)
| edit_message_text (text : string)
    (reply_markup : option (list (list InlineKeyboardButton)))
    (parse_mode : option ParseMode)
| analytics_command
| users_command.

(** The part of an [Update] the handlers read.  A text message has
    [update.message] and no [update.callback_query], a button press the
    reverse; every handler is registered for one of the two kinds, and what it
    sends straight through [update.message] or [update.callback_query] is
    modelled for that kind. *)
Record Update := {
  effective_user : Z;
  callback_query : bool     (* a button press rather than a text message *)
}.

Inductive Exc :=
| KeyError (key : string)
| UnboundLocalError (name : string).

#[global] Instance Button_eq_dec : EqDecision Button.t.
Proof. solve_decision. Defined.

(** ** State updates *)

Definition with_database (db : Database) (bot : Bot) : Bot :=
  {| database := db; admin_users := admin_users bot;
     editor_mode := editor_mode bot; button_counter := button_counter bot;
     user_states := user_states bot; database_file := database_file bot |}.

Definition with_button_counter (n : Z) (bot : Bot) : Bot :=
  {| database := database bot; admin_users := admin_users bot;
     editor_mode := editor_mode bot; button_counter := n;
     user_states := user_states bot; database_file := database_file bot |}.

Definition with_sessions (us : gmap Z Session) (em : gmap Z bool) (bot : Bot)
  : Bot :=
  {| database := database bot; admin_users := admin_users bot;
     editor_mode := em; button_counter := button_counter bot;
     user_states := us; database_file := database_file bot |}.

Definition with_pages (ps : list (string * Page.t)) (db : Database)
  : Database :=
  {| pages := Some ps; actions := actions db; settings := settings db |}.

(** [self.database.get('pages', {})] *)
Definition get_pages (db : Database) : list (string * Page.t) :=
  default [] (pages db).

(** [self.database.get('actions', {})] *)
Definition get_actions (db : Database) : list (string * Action.t) :=
  default [] (actions db).

(** [self.database.get('settings', {}).get('main_menu', 'main')] *)
Definition get_main_menu (db : Database) : string :=
  default "main" (settings db ≫= main_menu).

(** [save_database]: the store, the admin set and the time of the write go to
    the file.  [now] is [datetime.now().isoformat()] at the write; the write
    itself is taken to succeed. *)
Definition save_database (now : string) (bot : Bot) : Bot :=
  {| database := database bot; admin_users := admin_users bot;
     editor_mode := editor_mode bot; button_counter := button_counter bot;
     user_states := user_states bot;
     database_file :=
       Some {| file_database := database bot;
               file_admin_users := admin_users bot;
               file_last_updated := now |} |}.

(** ** Button identifiers *)

(** The inner loop of [_initialize_button_counter] over one page. *)
Definition max_button_id (max_id : Z) (bs : list Button.t) : Z :=
  fold_left
    (fun m b =>
       match Button.id b with
       | Some i =>
           match PyStr.int_of_str i with
           | Some n => Z.max m n
           | None => m                       (* ValueError: pass *)
           end
       | None => m
       end)
    bs max_id.

Definition _initialize_button_counter (bot : Bot) : Bot :=
  let max_id :=
    fold_left (fun m kp => max_button_id m (Page.buttons kp.2))
              (get_pages (database bot)) 0 in
  with_button_counter (max_id + 1) bot.

Definition _generate_button_id (bot : Bot) : string * Bot :=
  ("btn_" +:+ PyStr.str_of_int (button_counter bot),
   with_button_counter (button_counter bot + 1) bot).

(** [__init__] once the files are read: [db] is the loaded graph and
    [admins] the set that [_sync_admin_users] derives from the roles of the
    users store and writes back with the graph; the counter starts at 0 and is
    then initialised from the graph. *)
Definition startup (db : Database) (admins : gset Z) (now_saved : string)
  : Bot :=
  _initialize_button_counter
    (save_database now_saved
       {| database := db; admin_users := admins; editor_mode := ∅;
          button_counter := 0; user_states := ∅; database_file := None |}).

(** The first button of a list whose ['id'] is [bid]. *)
Fixpoint find_button (bid : string) (bs : list Button.t) : option Button.t :=
  match bs with
  | [] => None
  | b :: r => if decide (Button.id b = Some bid) then Some b
              else find_button bid r
  end.

Fixpoint find_button_in_pages (bid : string) (ps : list (string * Page.t))
  : option (string * Button.t) :=
  match ps with
  | [] => None
  | (page_id, page_data) :: r =>
      match find_button bid (Page.buttons page_data) with
      | Some b => Some (page_id, b)
      | None => find_button_in_pages bid r
      end
  end.

Definition _find_button_by_id (bot : Bot) (bid : string)
  : option (string * Button.t) :=
  find_button_in_pages bid (get_pages (database bot)).

(** ** Sessions *)

Definition _set_user_state (user_id : Z) (st : string)
  (dat : gmap string string) (now : Z) (bot : Bot) : Bot :=
  with_sessions
    (<[user_id := {| state := st; timestamp := now; data := dat |}]>
       (user_states bot))
    (editor_mode bot) bot.

Definition _get_user_state (bot : Bot) (user_id : Z) : string :=
  match user_states bot !! user_id with
  | Some s => state s
  | None => "waiting"
  end.

Definition _clear_user_state (user_id : Z) (bot : Bot) : Bot :=
  with_sessions (delete user_id (user_states bot)) (editor_mode bot) bot.

(** A [float] as mantissa and binary exponent: the number
    [mant * 2 ^ expo]. *)
Record Double := { mant : Z; expo : Z }.

(** The integer nearest to [n / d], the even one of two at the same
    distance. *)
Definition nearest_even (n d : Z) : Z :=
  let q := n / d in
  let r := n mod d in
  if 2 * r <? d then q
  else if d <? 2 * r then q + 1
  else if Z.even q then q else q + 1.

(** Numerator and denominator of [n / (d * 2 ^ e)]. *)
Definition scaled_num (n e : Z) : Z := if 0 <=? e then n else n * 2 ^ (- e).
Definition scaled_den (d e : Z) : Z := if 0 <=? e then d * 2 ^ e else d.

(** [n / d] on positive [int]s: the quotient rounded to the nearest number
    with a mantissa of 53 bits.  The exponent is the one at which the
    integer part of the scaled quotient has 53 bits.  (No quotient of the
    program is large or small enough to leave the normal range of a
    [float].) *)
Definition true_divide_pos (n d : Z) : Double :=
  let e0 := Z.log2 n - Z.log2 d - 53 in
  let e :=
    if scaled_num n e0 / scaled_den d e0 <? 2 ^ 53 then e0 else e0 + 1 in
  {| mant := nearest_even (scaled_num n e) (scaled_den d e); expo := e |}.

(** [n / d] on [int]s, for a positive [d]. *)
Definition true_divide (n d : Z) : Double :=
  if n =? 0 then {| mant := 0; expo := 0 |}
  else if 0 <? n then true_divide_pos n d
  else let x := true_divide_pos (- n) d in
       {| mant := - mant x; expo := expo x |}.

(** [x > k] for a [float] and an [int]: Python compares the two numbers
    exactly. *)
Definition double_gt_int (x : Double) (k : Z) : bool :=
  if 0 <=? expo x then k <? mant x * 2 ^ expo x
  else k * 2 ^ (- expo x) <? mant x.

(** [timedelta.total_seconds()]: the microseconds of the difference divided
    by [10**6]. *)
Definition total_seconds (microseconds : Z) : Double :=
  true_divide microseconds 1000000.

(** [(now - timestamp).total_seconds() > timeout_minutes * 60], on instants
    counted in microseconds. *)
Definition is_expired (now timeout_minutes : Z) (s : Session) : bool :=
  double_gt_int (total_seconds (now - timestamp s)) (timeout_minutes * 60).

Definition _cleanup_expired_states (now timeout_minutes : Z) (bot : Bot)
  : Bot :=
  let gone (u : Z) : bool :=
    match user_states bot !! u with
    | Some s => is_expired now timeout_minutes s
    | None => false
    end in
  with_sessions
    (filter (fun kv => gone kv.1 = false) (user_states bot))
    (filter (fun kv => gone kv.1 = false) (editor_mode bot))
    bot.

Definition _is_state_valid (bot : Bot) (user_id : Z) (expected_state : string)
  : bool :=
  match user_states bot !! user_id with
  | None => false
  | Some s => bool_decide (state s = expected_state)
  end.

(** ** Validation and sanitising *)

Definition _validate_page_id (page_id : string) : bool :=
  match page_id with
  | EmptyString => false
  | _ => PyStr.isalnum
           (PyStr.replace "-" EmptyString
              (PyStr.replace "_" EmptyString page_id))
  end.

Definition _validate_button_text (text : string) : bool * string :=
  match text with
  | EmptyString => (false, "Testo pulsante non valido")
  | _ =>
      if (String.length (PyStr.strip text) =? 0)%nat
      then (false, "Testo pulsante vuoto")
      else if (64 <? String.length text)%nat
      then (false, "Testo pulsante troppo lungo (max 64 caratteri)")
      else (true, EmptyString)
  end.

Definition _validate_action (action : string) : bool * string :=
  match action with
  | EmptyString => (false, "Azione non valida")
  | _ =>
      if (String.length (PyStr.strip action) =? 0)%nat
      then (false, "Azione vuota")
      else if (128 <? String.length action)%nat
      then (false, "Azione troppo lunga (max 128 caratteri)")
      else (true, EmptyString)
  end.

Definition _validate_content (content : string) (max_length : nat)
  : bool * string :=
  match content with
  | EmptyString => (false, "Contenuto non valido")
  | _ =>
      if (String.length (PyStr.strip content) =? 0)%nat
      then (false, "Contenuto vuoto")
      else if (max_length <? String.length content)%nat
      then (false, "Contenuto troppo lungo (max "
                     +:+ pretty max_length +:+ " caratteri)")
      else (true, EmptyString)
  end.

Definition _sanitize_input (text : string) : string :=
  PyStr.take 4096
    (PyStr.filter_chars
       (fun c => (32 <=? PyStr.ord c)%N
                 || PyStr.char_eqb c "010" || PyStr.char_eqb c "009")
       text).

(** ** Replies *)

(** [update.callback_query.edit_message_text] on a button press,
    [update.message.reply_text] on a text message. *)
Definition answer (update : Update) (text : string)
  (mode : option ParseMode) : Effect :=
  if callback_query update then edit_message_text text None mode
  else reply_text text None mode.

Definition _handle_validation_error (update : Update) (error_message : string)
  : list Effect :=
  [answer update ("❌ " +:+ error_message) None].

Definition _handle_general_error (update : Update) : list Effect :=
  [answer update "❌ Si è verificato un errore. Riprova più tardi." None].

Definition msg_bad_page_format : string :=
  "Formato non valido. Usa: ID_PAGINA|Titolo|Contenuto".
Definition msg_bad_page_id : string :=
  "ID pagina non valido. Usa solo lettere, numeri, underscore e trattini.".
Definition msg_duplicate_page : string :=
  "Una pagina con questo ID esiste già.".

(** ** The page editor *)

(** [start_create_page] *)
Definition start_create_page (bot : Bot) (update : Update) (now : Z)
  : Bot * list Effect :=
  (_set_user_state (effective_user update) "creating_page" ∅ now bot,
   [edit_message_text
      ("📄 **Crea Nuova Pagina**" +:+ "

" +:+ "Invia il contenuto della pagina nel formato:
`ID_PAGINA|Titolo|Contenuto`

Esempio: `about|Chi Siamo|Siamo un team di sviluppatori...`")
      None (Some MARKDOWN)]).

(** [create_page_from_text].  [now_created] and [now_saved] are the two clock
    readings of the success path.  Indexing a missing ['pages'] table raises
    [KeyError], which the handler's [except] turns into the general error
    reply.  The confirmation goes through [update.message], which a button
    press does not have: there the page is stored, the session cleared, and
    the failure of the reply answered with the general error. *)
Definition create_page_from_text (bot : Bot) (update : Update) (text : string)
  (now_created now_saved : string) : Bot * list Effect :=
  let user_id := effective_user update in
  let text := _sanitize_input text in
  match PyStr.split "|" 2 text with
  | [page_id; title; content] =>
      if negb (_validate_page_id (PyStr.strip page_id))
      then (bot, _handle_validation_error update msg_bad_page_id)
      else
        let '(is_valid_title, title_error) :=
          _validate_content (PyStr.strip title) 100 in
        if negb is_valid_title
        then (bot, _handle_validation_error update
                     ("Titolo non valido: " +:+ title_error))
        else
          let '(is_valid_content, content_error) :=
            _validate_content (PyStr.strip content) 4096 in
          if negb is_valid_content
          then (bot, _handle_validation_error update
                       ("Contenuto non valido: " +:+ content_error))
          else if Dict.mem (PyStr.strip page_id) (get_pages (database bot))
          then (bot, _handle_validation_error update msg_duplicate_page)
          else
            match pages (database bot) with
            | None => (bot, _handle_general_error update)
            | Some ps =>
                let page :=
                  {| Page.title := PyStr.strip title;
                     Page.content := PyStr.strip content;
                     Page.buttons := [];
                     Page.created_at := now_created;
                     Page.updated_at := None |} in
                let bot :=
                  with_database
                    (with_pages (Dict.set (PyStr.strip page_id) page ps)
                                (database bot)) bot in
                let bot := save_database now_saved bot in
                let bot := _clear_user_state user_id bot in
                (bot,
                 if callback_query update
                 then _handle_general_error update
                 else
                   [reply_text
                      ("✅ Pagina '" +:+ PyStr.strip title
                       +:+ "' creata con successo!
ID: `" +:+ PyStr.strip page_id +:+ "`")
                      None (Some MARKDOWN)])
            end
  | _ => (bot, _handle_validation_error update msg_bad_page_format)
  end.

(** ** The button editor *)

(** [list.remove(x)]: drops the first element equal to [x]; [None] stands for
    the [ValueError] raised when there is none. *)
Fixpoint list_remove (x : Button.t) (l : list Button.t)
  : option (list Button.t) :=
  match l with
  | [] => None
  | y :: r => if decide (y = x) then Some r
              else cons y <$> list_remove x r
  end.

(** [create_button_from_text]; [ctx] is [context.user_data]. *)
Definition create_button_from_text (bot : Bot) (ctx : gmap string PyVal)
  (update : Update) (text : string) (now_created now_saved : string)
  : Bot * gmap string PyVal * list Effect :=
  let user_id := effective_user update in
  let key := "adding_button_" +:+ PyStr.str_of_int user_id in
  let text := _sanitize_input text in
  match PyStr.split "|" 1 text with
  | [button_text; action] =>
      let target :=
        match ctx !! key with
        | Some v =>
            if truthy v then
              match pages (database bot) with
              | None => inl (KeyError "pages")
              | Some ps =>
                  match v with
                  | PStr page_id =>
                      match Dict.get page_id ps with
                      | Some page => inr (Some (page_id, page, ps))
                      | None => inr None
                      end
                  | _ => inr None
                  end
              end
            else inr None
        | None => inr None
        end in
      match target with
      | inl _ => (bot, ctx, _handle_general_error update)
      | inr None =>
          (bot, ctx, _handle_validation_error update "Pagina non trovata.")
      | inr (Some (page_id, page, ps)) =>
          let '(is_valid_text, text_error) :=
            _validate_button_text (PyStr.strip button_text) in
          if negb is_valid_text
          then (bot, ctx, _handle_validation_error update
                            ("Testo pulsante non valido: " +:+ text_error))
          else
            let '(is_valid_action, action_error) :=
              _validate_action (PyStr.strip action) in
            if negb is_valid_action
            then (bot, ctx, _handle_validation_error update
                              ("Azione non valida: " +:+ action_error))
            else if existsb
                      (fun b => bool_decide
                         (PyStr.strip (Button.text b)
                          = PyStr.strip button_text))
                      (Page.buttons page)
            then (bot, ctx, _handle_validation_error update
                   "Un pulsante con questo testo esiste già in questa pagina.")
            else
              let '(new_id, bot) := _generate_button_id bot in
              let button :=
                {| Button.id := Some new_id;
                   Button.text := PyStr.strip button_text;
                   Button.action := PyStr.strip action;
                   Button.created_at := Some now_created;
                   Button.updated_at := None |} in
              let page :=
                Page.with_buttons (Page.buttons page ++ [button]) page in
              let bot :=
                with_database
                  (with_pages (Dict.set page_id page ps) (database bot))
                  bot in
              let bot := save_database now_saved bot in
              let bot := _clear_user_state user_id bot in
              (bot, delete key ctx,
               [reply_text
                  ("✅ Pulsante '" +:+ PyStr.strip button_text
                   +:+ "' aggiunto con successo!")
                  None (Some MARKDOWN)])
      end
  | _ =>
      (bot, ctx,
       _handle_validation_error update
         "Formato non valido. Usa: TESTO_PULSANTE|AZIONE")
  end.

(** [delete_button].  After a successful search the page and the button are
    there, so the two error branches answer as the handler's [except] would
    and are never taken on a well-formed table. *)
Definition delete_button (bot : Bot) (bid : string) (now_saved : string)
  : Bot * list Effect :=
  match _find_button_by_id bot bid with
  | None => (bot, [edit_message_text "❌ Pulsante non trovato." None None])
  | Some (page_id, button) =>
      match Dict.get page_id (get_pages (database bot)) with
      | None =>
          (bot, [edit_message_text ("❌ Errore: '" +:+ page_id +:+ "'")
                   None None])
      | Some page =>
          match list_remove button (Page.buttons page) with
          | None =>
              (bot, [edit_message_text
                       "❌ Errore: list.remove(x): x not in list" None None])
          | Some bs =>
              let bot :=
                with_database
                  (with_pages
                     (Dict.set page_id (Page.with_buttons bs page)
                               (get_pages (database bot)))
                     (database bot)) bot in
              (save_database now_saved bot,
               [edit_message_text
                  ("✅ Pulsante '" +:+ Button.text button
                   +:+ "' eliminato con successo!") None None])
          end
      end
  end.

(** [start_edit_button], on the button press that the callback handler
    passes on.  [now] is the clock reading of [_set_user_state]. *)
Definition start_edit_button (bot : Bot) (ctx : gmap string PyVal)
  (update : Update) (button_id : string) (now : Z)
  : Bot * gmap string PyVal * list Effect :=
  let user_id := effective_user update in
  match _find_button_by_id bot button_id with
  | None =>
      (bot, ctx, [edit_message_text "❌ Pulsante non trovato." None None])
  | Some (page_id, button) =>
      let ctx :=
        <["editing_button_" +:+ PyStr.str_of_int user_id
          := PStr button_id]> ctx in
      let bot :=
        _set_user_state user_id "editing_button"
          {[ "button_id" := button_id ]} now bot in
      (bot, ctx,
       [edit_message_text
          ("✏️ **Modifica Pulsante**

**Pulsante attuale:** " +:+ Button.text button +:+ " → "
           +:+ Button.action button +:+ "
**ID:** " +:+ button_id +:+ "

Invia il nuovo pulsante nel formato:
`NUOVO_TESTO|NUOVA_AZIONE`")
          None (Some MARKDOWN)])
  end.

(** ** Users *)

(** [save_users_database]: stamps the store and writes it. *)
Definition save_users_database (now : string) (st : UsersStore) : UsersStore :=
  let db := {| users := users (users_database st);
               roles := roles (users_database st);
               last_updated := now |} in
  {| users_database := db; users_file := Some db |}.

(** [register_user]; the three clock readings are those of
    ['registered_at'], of ['last_seen'] and of the write. *)
Definition register_user (st : UsersStore) (user_id : Z)
  (username first_name last_name : option string) (role : string)
  (now_registered now_seen now_saved : string) : UsersStore :=
  let key := PyStr.str_of_int user_id in
  match users (users_database st) !! key with
  | Some _ => st
  | None =>
      let record :=
        {| username := username; first_name := first_name;
           last_name := last_name; role := role;
           registered_at := now_registered; last_seen := now_seen;
           total_interactions := 0; pages_visited := [];
           buttons_clicked := [] |} in
      save_users_database now_saved
        {| users_database :=
             {| users := <[key := record]> (users (users_database st));
                roles := roles (users_database st);
                last_updated := last_updated (users_database st) |};
           users_file := users_file st |}
  end.

(** ** Free text in editor mode *)

(** The handlers [handle_editor_message] can hand the text to. *)
Module Handler.
Inductive t :=
| search_user
| create_page_from_text
| edit_page_from_text
| create_button_from_text
| edit_button_from_text
| create_action_from_text
| edit_action_from_text
| edit_welcome_from_text
| add_admin_from_text.
End Handler.

(** How [handle_editor_message] ends: it answers itself or calls a handler. *)
Inductive Routed :=
| Answered (effects : list Effect)
| Calls (h : Handler.t).

Definition handler_of_state (st : string) : Routed :=
  if decide (st = "creating_page") then Calls Handler.create_page_from_text
  else if decide (st = "editing_page") then Calls Handler.edit_page_from_text
  else if decide (st = "creating_button")
  then Calls Handler.create_button_from_text
  else if decide (st = "editing_button")
  then Calls Handler.edit_button_from_text
  else if decide (st = "creating_action")
  then Calls Handler.create_action_from_text
  else if decide (st = "editing_action")
  then Calls Handler.edit_action_from_text
  else if decide (st = "editing_welcome")
  then Calls Handler.edit_welcome_from_text
  else if decide (st = "adding_admin") then Calls Handler.add_admin_from_text
  else Answered [reply_text "Usa i pulsanti dell'editor per navigare."
                   None None].

(** [handle_editor_message]: the sweep of expired sessions, the user-search
    shortcut, the validity check and the choice of the handler.  [now] is the
    instant of the sweep. *)
Definition handle_editor_message (bot : Bot) (ctx : gmap string PyVal)
  (update : Update) (now : Z) : Bot * Routed :=
  let user_id := effective_user update in
  let bot := _cleanup_expired_states now 30 bot in
  if from_option truthy false
       (ctx !! ("searching_user_" +:+ PyStr.str_of_int user_id))
  then (bot, Calls Handler.search_user)
  else
    let st := _get_user_state bot user_id in
    if negb (_is_state_valid bot user_id st)
    then (_clear_user_state user_id bot,
          Answered
            [reply_text
               "❌ Stato non valido. Usa i pulsanti dell'editor per navigare."
               None None])
    else (bot, handler_of_state st).

(** ** Markdown escaping and templates *)

Definition backslash : ascii := "\".

Definition char_str (c : ascii) : string := String c EmptyString.

(** One round of the escaping loops: [char] is escaped everywhere unless the
    text already holds an escaped [char]. *)
Definition escape_char (text : string) (char : ascii) : string :=
  if PyStr.str_in (char_str char) text
     && negb (PyStr.str_in (String backslash (char_str char)) text)
  then PyStr.replace (char_str char) (String backslash (char_str char)) text
  else text.

Definition escape_chars : list ascii :=
  ["_"; "*"; "["; "]"; "("; ")"; "~"; "`"; ">"; "#"; "+"; "-"; "="; "|";
   "{"; "}"; "."; "!"]%char.

Definition _escape_markdown (text : string) : string :=
  match text with
  | EmptyString => text
  | _ => fold_left escape_char escape_chars text
  end.

Definition problem_chars : list ascii := ["*"; "_"; "`"; "["; "]"]%char.

Definition _format_markdown_safe (text : string) (parse_mode : ParseMode)
  : string :=
  match text with
  | EmptyString => text
  | _ =>
      match parse_mode with
      | MARKDOWN_V2 => _escape_markdown text
      | MARKDOWN => fold_left escape_char problem_chars text
      | HTML => text
      end
  end.

Definition newline : string := String "010" EmptyString.

Definition _create_safe_markdown_text (title content : string) : string :=
  let safe_title := _format_markdown_safe title MARKDOWN in
  let safe_content := _format_markdown_safe content MARKDOWN in
  "**" +:+ safe_title +:+ "**" +:+ newline +:+ newline +:+ safe_content.

(** [%02d] *)
Definition pad2 (n : Z) : string :=
  if n <? 10 then "0" +:+ pretty n else pretty n.

(** [strftime('%Y-%m-%d %H:%M:%S')] (for a year of four digits). *)
Definition strftime (t : DateTime) : string :=
  pretty (year t) +:+ "-" +:+ pad2 (month t) +:+ "-" +:+ pad2 (day t)
  +:+ " " +:+ pad2 (hour t) +:+ ":" +:+ pad2 (minute t)
  +:+ ":" +:+ pad2 (second t).

Definition _process_message_content (content : string)
  (ctx : gmap string PyVal) (now : DateTime) : string :=
  let user_id := default (PStr "Unknown") (ctx !! "user_id") in
  let content := PyStr.replace "{user_id}" (py_str user_id) content in
  let content := PyStr.replace "{timestamp}" (strftime now) content in
  _escape_markdown content.

(** ** Showing a page *)

Definition default_page (now : string) : Page.t :=
  {| Page.title := "Menu Principale";
     Page.content := "Benvenuto! Usa /editor per configurare il bot.";
     Page.buttons := [];
     Page.created_at := now;
     Page.updated_at := None |}.

(** [_create_default_page]: [self.database['pages']['main'] = ...] raises
    [KeyError] when the table is missing. *)
Definition _create_default_page (bot : Bot) (now_created now_saved : string)
  : Exc + (Page.t * Bot) :=
  match pages (database bot) with
  | None => inl (KeyError "pages")
  | Some ps =>
      let page := default_page now_created in
      let bot :=
        with_database (with_pages (Dict.set "main" page ps) (database bot))
                      bot in
      inr (page, save_database now_saved bot)
  end.

Definition _get_valid_page (bot : Bot) (page_id : string)
  (now_created now_saved : string) : Exc + (Page.t * Bot) :=
  match Dict.get page_id (get_pages (database bot)) with
  | Some page => inr (page, bot)
  | None =>
      match Dict.get (get_main_menu (database bot))
                     (get_pages (database bot)) with
      | Some page => inr (page, bot)
      | None => _create_default_page bot now_created now_saved
      end
  end.

Definition _format_page_content (page : Page.t) : string :=
  _create_safe_markdown_text (Page.title page) (Page.content page).

Definition back_button : InlineKeyboardButton :=
  {| label := "🔙 Indietro"; callback_data := "back_to_main" |}.

Definition _create_page_keyboard (bot : Bot) (page : Page.t)
  (page_id : string) : list (list InlineKeyboardButton) :=
  let keyboard :=
    fold_left
      (fun keyboard button =>
         keyboard ++ [[ {| label := Button.text button;
                           callback_data := Button.action button |} ]])
      (Page.buttons page) [] in
  if decide (page_id = get_main_menu (database bot)) then keyboard
  else keyboard ++ [[back_button]].

Definition _send_page_message (update : Update) (content : string)
  (reply_markup : option (list (list InlineKeyboardButton))) : list Effect :=
  if callback_query update
  then [edit_message_text content reply_markup (Some MARKDOWN)]
  else [reply_text content reply_markup (Some MARKDOWN)].

(** [_handle_page_error] answers through [update.callback_query]; on a text
    message that attribute is [None] and the failure is swallowed. *)
Definition _handle_page_error (update : Update) : list Effect :=
  if callback_query update
  then [edit_message_text "❌ Errore nel caricamento della pagina. Riprova."
          (Some [[ {| label := "🔄 Riprova";
                      callback_data := "back_to_main" |} ]])
          None]
  else [].

(** [show_page], without its call to [update_user_activity], which writes
    only the user and analytics stores. *)
Definition show_page (bot : Bot) (update : Update) (page_id : string)
  (now_created now_saved : string) : Bot * list Effect :=
  match _get_valid_page bot page_id now_created now_saved with
  | inl _ => (bot, _handle_page_error update)
  | inr (page, bot) =>
      let content := _format_page_content page in
      let keyboard := _create_page_keyboard bot page page_id in
      let reply_markup :=
        match keyboard with [] => None | _ => Some keyboard end in
      (bot, _send_page_message update content reply_markup)
  end.

(** ** Custom actions *)

Definition link_text (action_data : Action.t) (url : string) : string :=
  "🔗 [" +:+ default "Apri Link" (Action.text action_data)
  +:+ "](" +:+ url +:+ ")".

(** [_execute_standard_action], called once [action] is known to be a key of
    the actions table.  The final [else] of the source belongs to the chain
    over the action type, where [command] has not been assigned. *)
Definition _execute_standard_action (bot : Bot) (ctx : gmap string PyVal)
  (update : Update) (action : string) (now : DateTime)
  (now_created now_saved : string) : Exc + (Bot * list Effect) :=
  match Dict.get action (get_actions (database bot)) with
  | None => inl (KeyError action)
  | Some action_data =>
      let action_type := default "message" (Action.type action_data) in
      if decide (action_type = "message") then
        let content :=
          _process_message_content (Action.content action_data) ctx now in
        inr (bot, [edit_message_text content None (Some MARKDOWN)])
      else if decide (action_type = "page") then
        inr (show_page bot update (Action.content action_data)
                       now_created now_saved)
      else if decide (action_type = "url") then
        let url :=
          default (Action.content action_data) (Action.url action_data) in
        inr (bot, [edit_message_text (link_text action_data url) None
                     (Some MARKDOWN)])
      else if decide (action_type = "command") then
        let command := Action.content action_data in
        if decide (command = "show_analytics")
        then inr (bot, [analytics_command])
        else if decide (command = "show_users")
        then inr (bot, [users_command])
        else inr (bot, [])
      else inl (UnboundLocalError "command")
  end.

Definition _execute_action_with_params (bot : Bot) (ctx : gmap string PyVal)
  (update : Update) (action_name params : string) (now : DateTime)
  (now_created now_saved : string) : Exc + (Bot * list Effect) :=
  match Dict.get action_name (get_actions (database bot)) with
  | None => inl (KeyError action_name)
  | Some action_data =>
      let action_type := default "message" (Action.type action_data) in
      if decide (action_type = "message") then
        let content :=
          PyStr.replace "{param}" params (Action.content action_data) in
        let content := _process_message_content content ctx now in
        inr (bot, [edit_message_text content None (Some MARKDOWN)])
      else if decide (action_type = "page") then
        inr (show_page bot update params now_created now_saved)
      else if decide (action_type = "url") then
        let base_url :=
          default (Action.content action_data) (Action.url action_data) in
        inr (bot, [edit_message_text
                     (link_text action_data (base_url +:+ params)) None
                     (Some MARKDOWN)])
      else inr (bot, [])
  end.

(** [handle_custom_action], without its click tracking (user and analytics
    stores only).  Any exception of the two executors ends in the error
    reply. *)
Definition handle_custom_action (bot : Bot) (ctx : gmap string PyVal)
  (update : Update) (action : string) (now : DateTime)
  (now_created now_saved : string) : Bot * list Effect :=
  let failed :=
    (bot, [edit_message_text "❌ Errore nell'esecuzione dell'azione."
             None None]) in
  let standard :=
    if Dict.mem action (get_actions (database bot)) then
      match _execute_standard_action bot ctx update action now
              now_created now_saved with
      | inr r => r
      | inl _ => failed
      end
    else if PyStr.startswith action "page_" then
      show_page bot update (PyStr.replace "page_" EmptyString action)
                now_created now_saved
    else if decide (action = "back_to_main") then
      show_page bot update (get_main_menu (database bot))
                now_created now_saved
    else (bot, [edit_message_text "❌ Azione non trovata." None None]) in
  if PyStr.str_in ":" action then
    match PyStr.split ":" 1 action with
    | action_name :: action_params :: _ =>
        if Dict.mem action_name (get_actions (database bot)) then
          match _execute_action_with_params bot ctx update action_name
                  action_params now now_created now_saved with
          | inr r => r
          | inl _ => failed
          end
        else standard
    | _ => standard
    end
  else standard.

(** ** Notions used in the statements *)

(** One round of the escaping loop when it fires: a backslash goes before
    every [c]. *)
Definition esc (c : ascii) (s : string) : string :=
  PyStr.replace_go (char_str c) (String backslash (char_str c)) O s.

(** [c] is settled in [s] when [c] does not occur in [s] or an escaped [c]
    does; a round of the loop for [c] then leaves [s] as it is. *)
Definition settled (c : ascii) (s : string) : Prop :=
  PyStr.str_in (char_str c) s = true ->
  PyStr.str_in (String backslash (char_str c)) s = true.

(** An ASCII decimal digit. *)
Definition is_digit (c : ascii) : bool :=
  match PyStr.digit_val c with Some _ => true | None => false end.

(** The numeric suffix of a button identifier of the form [btn_N]. *)
Definition button_suffix (bid : string) : option Z :=
  if PyStr.startswith bid "btn_" then PyStr.int_of_str (PyStr.drop 4 bid)
  else None.

(** [n] successive calls of [_generate_button_id]. *)
Fixpoint generate_button_ids (n : nat) (bot : Bot) : list string * Bot :=
  match n with
  | O => ([], bot)
  | S k =>
      let '(i, bot) := _generate_button_id bot in
      let '(ids, bot) := generate_button_ids k bot in
      (i :: ids, bot)
  end.

(** A button as [create_button_from_text] stores it, with identifier
    [btn_k]. *)
Definition stored_button (k : Z) : Button.t :=
  {| Button.id := Some ("btn_" +:+ PyStr.str_of_int k);
     Button.text := "Pulsante " +:+ PyStr.str_of_int k;
     Button.action := "back_to_main";
     Button.created_at := Some "2024-01-01T00:00:00";
     Button.updated_at := None |}.

(** A persisted graph: the main page carries the buttons [btn_k] for the
    [k] of [ks]. *)
Definition persisted_graph (ks : list Z) : Database :=
  {| pages :=
       Some [("main",
              {| Page.title := "Menu";
                 Page.content := "Benvenuto";
                 Page.buttons := stored_button <$> ks;
                 Page.created_at := "2024-01-01T00:00:00";
                 Page.updated_at := None |})];
     actions := Some [];
     settings := Some {| welcome_message := None;
                         main_menu := Some "main" |} |}.

(** The key of the context a state is entered with, read off the calls of
    [_set_user_state] in the source: the three editing flows and the button
    creation flow carry the identifier of their target, the other states
    carry nothing. *)
Definition context_key (st : string) : option string :=
  if decide (st = "editing_page") then Some "page_id"
  else if decide (st = "creating_button") then Some "page_id"
  else if decide (st = "editing_button") then Some "button_id"
  else if decide (st = "editing_action") then Some "action_id"
  else None.

(** The entity that the context names under [key] exists in the graph. *)
Definition target_exists (bot : Bot) (key id : string) : bool :=
  if decide (key = "page_id") then Dict.mem id (get_pages (database bot))
  else if decide (key = "button_id")
  then bool_decide (is_Some (_find_button_by_id bot id))
  else Dict.mem id (get_actions (database bot)).

(** The stored context of a session fits its declared state: it holds the
    identifier the state works on, and the identifier names a page, a
    button or an action of the graph; a state without a target has an empty
    context. *)
Definition context_matches (bot : Bot) (s : Session) : bool :=
  match context_key (state s) with
  | Some k =>
      match data s !! k with
      | Some id => target_exists bot k id
      | None => false
      end
  | None => bool_decide (data s = ∅)
  end.

(** A user search is pending for the user: the flag that
    [start_user_search] sets in the per-user context is there and true. *)
Definition search_pending (ctx : gmap string PyVal) (user_id : Z) : bool :=
  match ctx !! ("searching_user_" +:+ PyStr.str_of_int user_id) with
  | Some v => truthy v
  | None => false
  end.

Definition msg_invalid_state : Effect :=
  reply_text "❌ Stato non valido. Usa i pulsanti dell'editor per navigare."
    None None.

(** The rows of a keyboard that come from the buttons of a page. *)
Definition button_rows (bs : list Button.t)
  : list (list InlineKeyboardButton) :=
  (fun b => [ {| label := Button.text b;
                 callback_data := Button.action b |} ]) <$> bs.

(** A bot over the database [db], with no session open. *)
Definition bot_of (db : Database) : Bot :=
  {| database := db; admin_users := ∅; editor_mode := ∅;
     button_counter := 1; user_states := ∅; database_file := None |}.

(** A database with the given pages and actions and the default settings. *)
Definition db_of (ps : list (string * Page.t)) (acts : list (string * Action.t))
  : Database :=
  {| pages := Some ps; actions := Some acts;
     settings := Some {| welcome_message :=
                           Some "Benvenuto! Usa i pulsanti per navigare.";
                         main_menu := Some "main" |} |}.

Definition message_action (content : string) : Action.t :=
  {| Action.type := Some "message"; Action.content := content;
     Action.url := None; Action.text := None;
     Action.created_at := "2024-01-01T00:00:00";
     Action.updated_at := None |}.

Definition command_action (command : string) : Action.t :=
  {| Action.type := Some "command"; Action.content := command;
     Action.url := None; Action.text := None;
     Action.created_at := "2024-01-01T00:00:00";
     Action.updated_at := None |}.

Definition noon : DateTime :=
  {| year := 2024; month := 3; day := 5;
     hour := 12; minute := 0; second := 9 |}.

(** The data of the scenarios. *)

Definition button_press : Update :=
  {| effective_user := 42; callback_query := true |}.

Definition text_message : Update :=
  {| effective_user := 42; callback_query := false |}.

Definition roundtrip_page : Page.t :=
  {| Page.title := "T"; Page.content := "C";
     Page.buttons :=
       [ {| Button.id := Some "btn_1"; Button.text := "A";
            Button.action := "back_to_main";
            Button.created_at := None; Button.updated_at := None |} ];
     Page.created_at := "t0"; Page.updated_at := None |}.

Definition roundtrip_bot : Bot :=
  bot_of (db_of [("main", default_page "t0"); ("about", roundtrip_page)] []).

Definition fresh_bot : Bot :=
  bot_of (db_of [("main", default_page "t0")] []).

Definition known_user : User :=
  {| username := Some "ada"; first_name := Some "Ada"; last_name := None;
     role := "admin"; registered_at := "t0"; last_seen := "t5";
     total_interactions := 12; pages_visited := ["main"];
     buttons_clicked := ["A"] |}.

Definition one_user_store : UsersStore :=
  {| users_database :=
       {| users := {[ "42" := known_user ]}; roles := ∅;
          last_updated := "t5" |};
     users_file := None |}.

Definition contact_bot : Bot :=
  bot_of (db_of [("main", default_page "t0")]
                [("contact", message_action "Ciao {user_id}")]).

Definition command_bot (command : string) : Bot :=
  bot_of (db_of [("main", default_page "t0")]
                [("cmd", command_action command)]).

Definition two_page_bot : Bot :=
  bot_of
    (db_of
       [("main",
         {| Page.title := "Menu"; Page.content := "Benvenuto";
            Page.buttons := [stored_button 1; stored_button 2];
            Page.created_at := "t0"; Page.updated_at := None |});
        ("about",
         {| Page.title := "Chi Siamo"; Page.content := "Testo";
            Page.buttons := [stored_button 3];
            Page.created_at := "t0"; Page.updated_at := None |})]
       []).

(** A run of the editor on the graph of two pages: user 42, in editor mode,
    presses "edit" on the button [btn_3] at instant 0 and then, on the
    keyboard of the page, "delete" on the same button. *)
Definition editor_bot : Bot := with_sessions ∅ {[ 42 := true ]} two_page_bot.

Definition editing_bot : Bot :=
  (start_edit_button editor_bot ∅ button_press "btn_3" 0).1.1.

Definition editing_button_ctx : gmap string PyVal :=
  (start_edit_button editor_bot ∅ button_press "btn_3" 0).1.2.

Definition orphaned_bot : Bot := (delete_button editing_bot "btn_3" "t1").1.


(** ** Routing a button press *)

(** What a callback handler calls for a token, with the argument it cuts out
    of the token.  [unrecognized] is the handler's own "not recognised"
    answer, [user_not_found] its answer to the details of an unknown user,
    and [nothing] the case where no branch body runs. *)
Module Call.
Inductive t :=
(* handle_admin_callback *)
| editor_command
| analytics_command
| users_command
| show_settings
| show_stats
| manage_users
| admin_command
| start_edit_welcome
| start_add_admin
(* handle_analytics_callback *)
| show_detailed_analytics
(* handle_users_callback *)
| show_users_list
| start_user_search
| users_page_prev
| users_page_next
| show_user_details (user_id_str : string) (user_data : User)
| user_not_found
| start_change_role (user_id_str : string)
| show_user_activity (user_id_str : string)
| change_user_role (user_id_str new_role : string)
| nothing
(* handle_editor_callback *)
| start_create_page
| start_edit_page
| manage_buttons
| manage_actions
| set_main_menu
| editor_exit
| start_edit_specific_page (page_id : string)
| manage_page_buttons (page_id : string)
| set_main_menu_page (page_id : string)
| start_add_button (page_id : string)
| start_edit_button (button_id : string)
| delete_button (button_id : string)
| start_edit_action (action_id : string)
| delete_action (action_id : string)
| start_create_action
| list_actions
(* navigation and custom actions *)
| show_page (page_id : string)
| handle_custom_action (action : string)
| unrecognized (message : string).
End Call.

(** [data.replace(prefix, '')] *)
Definition without (prefix data : string) : string :=
  PyStr.replace prefix EmptyString data.

Definition handle_admin_callback (data : string) : Call.t :=
  if decide (data = "admin_editor") then Call.editor_command
  else if decide (data = "admin_analytics") then Call.analytics_command
  else if decide (data = "admin_users_manage") then Call.users_command
  else if decide (data = "admin_settings") then Call.show_settings
  else if decide (data = "admin_stats") then Call.show_stats
  else if decide (data = "admin_users") then Call.manage_users
  else if decide (data = "admin_back") then Call.admin_command
  else if decide (data = "edit_welcome") then Call.start_edit_welcome
  else if decide (data = "add_admin") then Call.start_add_admin
  else Call.unrecognized "❌ Callback admin non riconosciuto.".

Definition handle_analytics_callback (data : string) : Call.t :=
  if decide (data = "analytics_detailed") then Call.show_detailed_analytics
  else if decide (data = "analytics_base") then Call.analytics_command
  else Call.unrecognized "❌ Callback analytics non riconosciuto.".

Definition handle_users_callback (st : UsersStore) (data : string)
  : Call.t :=
  if decide (data = "users_list") then Call.show_users_list
  else if decide (data = "users_search") then Call.start_user_search
  else if decide (data = "users_manage") then Call.users_command
  else if decide (data = "users_page_prev") then Call.users_page_prev
  else if decide (data = "users_page_next") then Call.users_page_next
  else if PyStr.startswith data "user_details_"
  then let user_id_str := without "user_details_" data in
       match users (users_database st) !! user_id_str with
       | Some user_data => Call.show_user_details user_id_str user_data
       | None => Call.user_not_found
       end
  else if PyStr.startswith data "change_role_"
  then Call.start_change_role (without "change_role_" data)
  else if PyStr.startswith data "user_activity_"
  then Call.show_user_activity (without "user_activity_" data)
  else if PyStr.startswith data "set_role_"
  then match PyStr.split "_" 1 (without "set_role_" data) with
       | [user_id_str; new_role] => Call.change_user_role user_id_str new_role
       | _ => Call.nothing
       end
  else Call.unrecognized "❌ Callback utenti non riconosciuto.".

Definition handle_editor_callback (data : string) : Call.t :=
  if decide (data = "editor_create_page") then Call.start_create_page
  else if decide (data = "editor_edit_page") then Call.start_edit_page
  else if decide (data = "editor_buttons") then Call.manage_buttons
  else if decide (data = "editor_actions") then Call.manage_actions
  else if decide (data = "editor_main_menu") then Call.set_main_menu
  else if decide (data = "editor_exit") then Call.editor_exit
  else if PyStr.startswith data "edit_page_"
  then Call.start_edit_specific_page (without "edit_page_" data)
  else if PyStr.startswith data "manage_buttons_"
  then Call.manage_page_buttons (without "manage_buttons_" data)
  else if PyStr.startswith data "set_main_"
  then Call.set_main_menu_page (without "set_main_" data)
  else if PyStr.startswith data "add_button_"
  then Call.start_add_button (without "add_button_" data)
  else if PyStr.startswith data "edit_button_"
  then Call.start_edit_button (without "edit_button_" data)
  else if PyStr.startswith data "delete_button_"
  then Call.delete_button (without "delete_button_" data)
  else if PyStr.startswith data "edit_action_"
  then Call.start_edit_action (without "edit_action_" data)
  else if PyStr.startswith data "delete_action_"
  then Call.delete_action (without "delete_action_" data)
  else if decide (data = "create_action") then Call.start_create_action
  else if decide (data = "list_actions") then Call.list_actions
  else if decide (data = "admin_back") then Call.admin_command
  else Call.unrecognized
         ("❌ Callback non riconosciuto: " +:+ data +:+ "

Usa i pulsanti dell'editor per navigare.").

Definition handle_navigation_callback (data : string) : Call.t :=
  if PyStr.startswith data "page_"
  then Call.show_page (without "page_" data)
  else if decide (data = "back_to_main") then Call.show_page "main"
  else Call.handle_custom_action data.

(** The prefixes that send a token to the editor handler. *)
Definition editor_prefixes : list string :=
  ["editor_"; "edit_"; "manage_"; "add_"; "delete_"; "create_"; "list_";
   "set_"; "user_"; "change_"].

(** [handle_callback]: the dispatch on the token, up to the call made by the
    sub-handler it picks. *)
Definition handle_callback (st : UsersStore) (data : string) : Call.t :=
  if PyStr.startswith data "admin_" then handle_admin_callback data
  else if PyStr.startswith data "analytics_"
  then handle_analytics_callback data
  else if PyStr.startswith data "users_" then handle_users_callback st data
  else if existsb (PyStr.startswith data) editor_prefixes
          || bool_decide (data = "admin_back")
  then handle_editor_callback data
  else if PyStr.startswith data "page_" || bool_decide (data = "back_to_main")
  then handle_navigation_callback data
  else Call.handle_custom_action data.


(** ** Roles and the admin set *)

Definition get_user_role (st : UsersStore) (user_id : Z) : string :=
  match users (users_database st) !! PyStr.str_of_int user_id with
  | Some u => role u
  | None => "user"
  end.

Definition with_role (r : string) (u : User) : User :=
  {| username := username u; first_name := first_name u;
     last_name := last_name u; role := r;
     registered_at := registered_at u; last_seen := last_seen u;
     total_interactions := total_interactions u;
     pages_visited := pages_visited u;
     buttons_clicked := buttons_clicked u |}.

Definition with_admin_users (admins : gset Z) (bot : Bot) : Bot :=
  {| database := database bot; admin_users := admins;
     editor_mode := editor_mode bot; button_counter := button_counter bot;
     user_states := user_states bot; database_file := database_file bot |}.

(** The keys of the users whose role is [admin]. *)
Definition admin_keys (us : gmap string User) : list string :=
  (filter (fun kv => role kv.2 = "admin") (map_to_list us)).*1.

(** [_sync_admin_users]: the admin set becomes the set of [int(key)] over the
    users whose role is [admin], and the main store is written.  [None]
    stands for the [ValueError] of [int] on a key that is no numeral; it is
    raised before the set is assigned. *)
Definition _sync_admin_users (st : UsersStore) (now_saved : string)
  (bot : Bot) : option Bot :=
  ids ← mapM PyStr.int_of_str (admin_keys (users (users_database st)));
  Some (save_database now_saved (with_admin_users (list_to_set ids) bot)).

(** [set_user_role]: for a known user the role is stored and the users store
    written, then the admin set is synchronised; the second component is
    [None] when that synchronisation raises. *)
Definition set_user_role (st : UsersStore) (bot : Bot) (user_id : Z)
  (new_role : string) (now_users_saved now_saved : string)
  : UsersStore * option Bot :=
  let key := PyStr.str_of_int user_id in
  match users (users_database st) !! key with
  | None => (st, Some bot)
  | Some u =>
      let st :=
        save_users_database now_users_saved
          {| users_database :=
               {| users := <[key := with_role new_role u]>
                             (users (users_database st));
                  roles := roles (users_database st);
                  last_updated := last_updated (users_database st) |};
             users_file := users_file st |} in
      (st, _sync_admin_users st now_saved bot)
  end.

Definition has_permission (st : UsersStore) (user_id : Z)
  (permission : string) : bool :=
  let r := get_user_role st user_id in
  if decide (r = "admin") then true
  else match roles (users_database st) !! r with
       | Some permissions =>
           bool_decide ("all" ∈ permissions)
           || bool_decide (permission ∈ permissions)
       | None => false
       end.

Definition is_admin (st : UsersStore) (bot : Bot) (user_id : Z) : bool :=
  bool_decide (user_id ∈ admin_users bot)
  || bool_decide (get_user_role st user_id = "admin").

(** ** Activity tracking *)

(** The two counter tables of [self.analytics_database] the trackers
    write. *)
Record Analytics := {
  page_views : gmap string Z;
  button_clicks : gmap string Z
}.

(** The bounded history of both trackers: a new entry goes last and, past
    [cap] entries, the oldest is dropped; a known entry changes nothing. *)
Definition remember (cap : nat) (x : string) (seen : list string)
  : list string :=
  if bool_decide (x ∈ seen) then seen
  else let seen := seen ++ [x] in
       if (cap <? length seen)%nat then tail seen else seen.

(** [counters[k] += 1], from 0 for a new key. *)
Definition bump (k : string) (counters : gmap string Z) : gmap string Z :=
  <[k := default 0 (counters !! k) + 1]> counters.

Definition with_pages_visited (l : list string) (u : User) : User :=
  {| username := username u; first_name := first_name u;
     last_name := last_name u; role := role u;
     registered_at := registered_at u; last_seen := last_seen u;
     total_interactions := total_interactions u;
     pages_visited := l; buttons_clicked := buttons_clicked u |}.

Definition with_buttons_clicked (l : list string) (u : User) : User :=
  {| username := username u; first_name := first_name u;
     last_name := last_name u; role := role u;
     registered_at := registered_at u; last_seen := last_seen u;
     total_interactions := total_interactions u;
     pages_visited := pages_visited u; buttons_clicked := l |}.

(** [_track_page_view]; [page_id] is [data.get('page_id')]. *)
Definition _track_page_view (user : User) (an : Analytics)
  (page_id : option string) : User * Analytics :=
  match page_id with
  | None | Some EmptyString => (user, an)
  | Some page_id =>
      (with_pages_visited (remember 50 page_id (pages_visited user)) user,
       {| page_views := bump page_id (page_views an);
          button_clicks := button_clicks an |})
  end.

(** [_track_button_click]; [button_text] is the ['button_text'] entry of
    [data], read with the default ['unknown']. *)
Definition _track_button_click (user : User) (an : Analytics)
  (button_text : option string) : User * Analytics :=
  match default "unknown" button_text with
  | EmptyString => (user, an)
  | button_text =>
      (with_buttons_clicked
         (remember 100 button_text (buttons_clicked user)) user,
       {| page_views := page_views an;
          button_clicks := bump button_text (button_clicks an) |})
  end.


(** ** Editing pages, buttons and actions *)

Definition with_title_content (title content : string)
  (updated : string) (p : Page.t) : Page.t :=
  {| Page.title := title; Page.content := content;
     Page.buttons := Page.buttons p; Page.created_at := Page.created_at p;
     Page.updated_at := Some updated |}.

(** The answer of the editing handlers to an exception [e]:
    [f"❌ Errore nella modifica: {e}"], where a [KeyError] prints its key in
    quotes. *)
Definition msg_edit_key_error (key : string) : Effect :=
  reply_text ("❌ Errore nella modifica: '" +:+ key +:+ "'") None None.

(** [edit_page_from_text]; the target page is read from
    [context.user_data], not from the session. *)
Definition edit_page_from_text (bot : Bot) (ctx : gmap string PyVal)
  (update : Update) (text : string) (now_updated now_saved : string)
  : Bot * gmap string PyVal * list Effect :=
  let user_id := effective_user update in
  let key := "editing_page_" +:+ PyStr.str_of_int user_id in
  let not_found :=
    (bot, ctx, [reply_text "❌ Pagina non trovata." None None]) in
  match PyStr.split "|" 1 text with
  | [title; content] =>
      match ctx !! key with
      | Some v =>
          if truthy v then
            match pages (database bot) with
            | None => (bot, ctx, [msg_edit_key_error "pages"])
            | Some ps =>
                match v with
                | PStr page_id =>
                    match Dict.get page_id ps with
                    | Some page =>
                        let page :=
                          with_title_content (PyStr.strip title)
                            (PyStr.strip content) now_updated page in
                        let bot :=
                          with_database
                            (with_pages (Dict.set page_id page ps)
                                        (database bot)) bot in
                        let bot := save_database now_saved bot in
                        let bot := _clear_user_state user_id bot in
                        (bot, delete key ctx,
                         [reply_text
                            ("✅ Pagina '" +:+ title
                             +:+ "' aggiornata con successo!")
                            None (Some MARKDOWN)])
                    | None => not_found
                    end
                | _ => not_found
                end
            end
          else not_found
      | None => not_found
      end
  | _ =>
      (bot, ctx,
       [reply_text "❌ Formato non valido. Usa: `NUOVO_TITOLO|NUOVO_CONTENUTO`"
          None (Some MARKDOWN)])
  end.

Definition with_text_action (text action : string) (updated : string)
  (b : Button.t) : Button.t :=
  {| Button.id := Button.id b; Button.text := text;
     Button.action := action; Button.created_at := Button.created_at b;
     Button.updated_at := Some updated |}.

(** The button that [_find_button_by_id] returns is changed where it
    stands: the first button with the identifier, in the first page that
    has one. *)
Fixpoint alter_button (bid : string) (f : Button.t -> Button.t)
  (bs : list Button.t) : list Button.t :=
  match bs with
  | [] => []
  | b :: r => if decide (Button.id b = Some bid) then f b :: r
              else b :: alter_button bid f r
  end.

Fixpoint alter_button_in_pages (bid : string) (f : Button.t -> Button.t)
  (ps : list (string * Page.t)) : list (string * Page.t) :=
  match ps with
  | [] => []
  | (page_id, page_data) :: r =>
      match find_button bid (Page.buttons page_data) with
      | Some _ =>
          (page_id,
           Page.with_buttons (alter_button bid f (Page.buttons page_data))
                             page_data) :: r
      | None => (page_id, page_data) :: alter_button_in_pages bid f r
      end
  end.

(** [edit_button_from_text] *)
Definition edit_button_from_text (bot : Bot) (ctx : gmap string PyVal)
  (update : Update) (text : string) (now_updated now_saved : string)
  : Bot * gmap string PyVal * list Effect :=
  let user_id := effective_user update in
  let key := "editing_button_" +:+ PyStr.str_of_int user_id in
  match PyStr.split "|" 1 text with
  | [button_text; action] =>
      match ctx !! key with
      | Some v =>
          if truthy v then
            match (match v with
                   | PStr bid => (fun found => (bid, found))
                                   <$> _find_button_by_id bot bid
                   | _ => None
                   end) with
            | None =>
                (bot, ctx, [reply_text "❌ Pulsante non trovato." None None])
            | Some (bid, _) =>
                let change :=
                  with_text_action (PyStr.strip button_text)
                    (PyStr.strip action) now_updated in
                let bot :=
                  with_database
                    (with_pages
                       (alter_button_in_pages bid change
                          (get_pages (database bot)))
                       (database bot)) bot in
                let bot := save_database now_saved bot in
                let bot := _clear_user_state user_id bot in
                (bot, delete key ctx,
                 [reply_text "✅ Pulsante aggiornato con successo!"
                    None (Some MARKDOWN)])
            end
          else
            (bot, ctx,
             [reply_text "❌ Informazioni pulsante non trovate." None None])
      | None =>
          (bot, ctx,
           [reply_text "❌ Informazioni pulsante non trovate." None None])
      end
  | _ =>
      (bot, ctx,
       [reply_text "❌ Formato non valido. Usa: `NUOVO_TESTO|NUOVA_AZIONE`"
          None (Some MARKDOWN)])
  end.

Definition with_actions (acts : list (string * Action.t)) (db : Database)
  : Database :=
  {| pages := pages db; actions := Some acts; settings := settings db |}.

Definition action_types : list string := ["message"; "page"; "url"; "command"].

(** [create_action_from_text] *)
Definition create_action_from_text (bot : Bot) (update : Update)
  (text : string) (now_created now_saved : string) : Bot * list Effect :=
  let user_id := effective_user update in
  match PyStr.split "|" 2 text with
  | [action_id; action_type; content] =>
      if negb (bool_decide (action_type ∈ action_types))
      then (bot,
            [reply_text
               "❌ Tipo non valido. Usa: message, page, url, o command"
               None (Some MARKDOWN)])
      else
        let action :=
          {| Action.type := Some (PyStr.strip action_type);
             Action.content := PyStr.strip content;
             Action.url :=
               if decide (action_type = "url")
               then Some (PyStr.strip content) else None;
             Action.text := None;
             Action.created_at := now_created;
             Action.updated_at := None |} in
        match actions (database bot) with
        | None =>
            (bot, [reply_text "❌ Errore nella creazione: 'actions'"
                     None None])
        | Some acts =>
            let bot :=
              with_database
                (with_actions (Dict.set (PyStr.strip action_id) action acts)
                              (database bot)) bot in
            let bot := save_database now_saved bot in
            let bot := _clear_user_state user_id bot in
            (bot,
             [reply_text ("✅ Azione '" +:+ action_id
                          +:+ "' creata con successo!")
                None (Some MARKDOWN)])
        end
  | _ =>
      (bot,
       [reply_text "❌ Formato non valido. Usa: `ID_AZIONE|TIPO|CONTENUTO`"
          None (Some MARKDOWN)])
  end.

(** [del d[k]] for a key that is present. *)
Fixpoint dict_del {V : Type} (k : string) (d : list (string * V))
  : list (string * V) :=
  match d with
  | [] => []
  | (k', v) :: r => if decide (k = k') then r else (k', v) :: dict_del k r
  end.

(** [delete_action] *)
Definition delete_action (bot : Bot) (action_id : string)
  (now_saved : string) : Bot * list Effect :=
  if negb (Dict.mem action_id (get_actions (database bot)))
  then (bot, [edit_message_text "❌ Azione non trovata." None None])
  else
    let bot :=
      with_database
        (with_actions (dict_del action_id (get_actions (database bot)))
                      (database bot)) bot in
    (save_database now_saved bot,
     [edit_message_text
        ("✅ Azione '" +:+ action_id +:+ "' eliminata con successo!")
        None None]).

Definition with_settings (s : Settings) (db : Database) : Database :=
  {| pages := pages db; actions := actions db; settings := Some s |}.

(** [set_main_menu_page]; indexing a missing ['pages'] or ['settings'] table
    raises [KeyError] to the caller. *)
Definition set_main_menu_page (bot : Bot) (page_id : string)
  (now_saved : string) : Exc + (Bot * list Effect) :=
  match pages (database bot) with
  | None => inl (KeyError "pages")
  | Some ps =>
      match Dict.get page_id ps with
      | None =>
          inr (bot, [edit_message_text "❌ Pagina non trovata." None None])
      | Some page =>
          match settings (database bot) with
          | None => inl (KeyError "settings")
          | Some s =>
              let s := {| welcome_message := welcome_message s;
                          main_menu := Some page_id |} in
              let bot := with_database (with_settings s (database bot)) bot in
              inr (save_database now_saved bot,
                   [edit_message_text
                      ("✅ Menu principale impostato su: **"
                       +:+ Page.title page +:+ "**")
                      None (Some MARKDOWN)])
          end
      end
  end.


(** ** Further notions used in the statements *)

(** A character that is no control character of the ASCII range: its code is
    32 or more, or it is a newline or a tab. *)
Definition is_kept (c : ascii) : bool :=
  (32 <=? PyStr.ord c)%N || PyStr.char_eqb c "010" || PyStr.char_eqb c "009".

(** The characters of a page identifier. *)
Definition is_id_char (c : ascii) : bool :=
  PyStr.isalnum_char c || PyStr.char_eqb c "_" || PyStr.char_eqb c "-".

Fixpoint any_char (p : ascii -> bool) (s : string) : bool :=
  match s with
  | EmptyString => false
  | String c r => p c || any_char p r
  end.

Fixpoint count_char (c : ascii) (s : string) : nat :=
  match s with
  | EmptyString => O
  | String a r => (if PyStr.char_eqb a c then 1 else 0) + count_char c r
  end.

(** The text without its backslashes. *)
Definition visible (s : string) : string :=
  PyStr.filter_chars (fun c => negb (PyStr.char_eqb c backslash)) s.

(** [y] is [x] made safe for Markdown: [y] is [x] with backslashes added and
    nothing else, each of the five characters [*], [_], [`], [[] and []]
    that occurs in [y] has an escaped occurrence there, and an [x] in which
    that is already so is left as it is. *)
Definition markdown_safe (x y : string) : Prop :=
  visible y = visible x
  /\ Forall (fun c => settled c y) ["*"; "_"; "`"; "["; "]"]%char
  /\ (Forall (fun c => settled c x) ["*"; "_"; "`"; "["; "]"]%char -> y = x).

(** The message that shows a page: an edit of the pressed message on a
    button press, a reply on a text message, in Markdown mode. *)
Definition page_message (update : Update) (text : string)
  (keyboard : list (list InlineKeyboardButton)) : list Effect :=
  [(if callback_query update then edit_message_text else reply_text)
     text (match keyboard with [] => None | _ => Some keyboard end)
     (Some MARKDOWN)].

(** The row that leads back to the main menu. *)
Definition back_row : list InlineKeyboardButton :=
  [ {| label := "🔙 Indietro"; callback_data := "back_to_main" |} ].

(** Every identifier of the form [btn_n] carried by a button of the graph has
    [n] below the counter. *)
Definition ids_below_counter (bot : Bot) : Prop :=
  forall kp b n,
    kp ∈ get_pages (database bot) ->
    b ∈ Page.buttons kp.2 ->
    Button.id b = Some ("btn_" +:+ PyStr.str_of_int n) ->
    n < button_counter bot.

(** The keys of the users store are the decimal numerals of user
    identifiers, as [register_user] writes them. *)
Definition numeral_keys (us : gmap string User) : Prop :=
  forall k u, us !! k = Some u -> exists n, 0 <= n /\ k = PyStr.str_of_int n.

(** The token families of the keyboards the editor builds, with the call each
    one stands for. *)
Definition token_families : list (string * (string -> Call.t)) :=
  [("edit_page_", Call.start_edit_specific_page);
   ("manage_buttons_", Call.manage_page_buttons);
   ("set_main_", Call.set_main_menu_page);
   ("add_button_", Call.start_add_button);
   ("edit_button_", Call.start_edit_button);
   ("delete_button_", Call.delete_button);
   ("edit_action_", Call.start_edit_action);
   ("delete_action_", Call.delete_action);
   ("page_", Call.show_page)].


(** Counters with one page viewed three times and one button clicked
    twice. *)
Definition sample_analytics : Analytics :=
  {| page_views := {[ "main" := 3 ]}; button_clicks := {[ "A" := 2 ]} |}.

(** The per-user context of user 42 while the page ['about'] and the button
    ['btn_3'] are being edited. *)
Definition editing_ctx : gmap string PyVal :=
  {[ "editing_page_42" := PStr "about"; "editing_button_42" := PStr "btn_3" ]}.

(** The action that [create_action_from_text] builds from accepted
    fields. *)
Definition built_action (action_type content now_created : string)
  : Action.t :=
  {| Action.type := Some action_type;
     Action.content := PyStr.strip content;
     Action.url :=
       if decide (action_type = "url") then Some (PyStr.strip content)
       else None;
     Action.text := None;
     Action.created_at := now_created;
     Action.updated_at := None |}.

(** The graph of two pages in a run whose counter has passed its three
    buttons. *)
Definition counted_bot : Bot := with_button_counter 4 two_page_bot.

(** A graph without pages, and what resolving a page makes of it. *)
Definition empty_bot : Bot := bot_of (db_of [] []).

Definition healed_bot : Bot :=
  save_database "t2"
    (with_database (with_pages [("main", default_page "t1")] (db_of [] []))
                   empty_bot).

(** * Properties *)

(** ** The string primitives on examples *)

Example py_split_3 :
  PyStr.split "|" 2 "a|b|c|d" = ["a"; "b"; "c|d"]
  /\ PyStr.split "|" 2 "a|b" = ["a"; "b"]
  /\ PyStr.split "|" 1 "|" = [EmptyString; EmptyString].
Proof. repeat split. Qed.

Example py_replace_ex :
  PyStr.replace "aa" "b" "aaa" = "ba"
  /\ PyStr.replace "{x}" "12" "a{x}b{x}" = "a12b12".
Proof. split; reflexivity. Qed.

Example py_int_ex :
  PyStr.int_of_str " 12 " = Some 12
  /\ PyStr.int_of_str "1_000" = Some 1000
  /\ PyStr.int_of_str "-1_0" = Some (-10)
  /\ PyStr.int_of_str "1__0" = None
  /\ PyStr.int_of_str "btn_1" = None
  /\ PyStr.str_of_int 10 = "10".
Proof. repeat split; reflexivity. Qed.

(** ** Escaping *)

Section escaping.

Implicit Types (s r : string) (a b c d : ascii).

Lemma replace_one_char c new s :
  PyStr.replace (char_str c) new s = PyStr.replace_go (char_str c) new O s.
Proof. reflexivity. Qed.

Lemma esc_cons c a r :
  esc c (String a r)
  = if ascii_dec c a then String backslash (String c (esc c r))
    else String a (esc c r).
Proof.
  unfold esc; simpl. destruct (ascii_dec c a); [destruct r|]; reflexivity.
Qed.

Lemma str_in_cons sub a r :
  PyStr.str_in sub (String a r)
  = String.prefix sub (String a r) || PyStr.str_in sub r.
Proof. reflexivity. Qed.

Lemma str_in_weaken sub a r :
  PyStr.str_in sub r = true -> PyStr.str_in sub (String a r) = true.
Proof. intros H. rewrite str_in_cons, H. apply orb_true_r. Qed.

Lemma has_char_cons c a r :
  PyStr.str_in (char_str c) (String a r)
  = (if ascii_dec c a then true else PyStr.str_in (char_str c) r).
Proof.
  rewrite str_in_cons. simpl. destruct (ascii_dec c a); [|reflexivity].
  destruct r; reflexivity.
Qed.

Lemma has_char_esc c d s :
  d <> backslash ->
  PyStr.str_in (char_str d) (esc c s) = PyStr.str_in (char_str d) s.
Proof.
  intros Hd. induction s as [|a r IH]; [reflexivity|].
  rewrite esc_cons. destruct (ascii_dec c a) as [->|Hca].
  - rewrite !has_char_cons. destruct (ascii_dec d backslash); [contradiction|].
    destruct (ascii_dec d a); [reflexivity|]. exact IH.
  - rewrite !has_char_cons. destruct (ascii_dec d a); [reflexivity|]. exact IH.
Qed.

Lemma prefix_pair_inv b c a r :
  String.prefix (String b (char_str c)) (String a r) = true ->
  a = b /\ exists r', r = String c r'.
Proof.
  simpl. destruct (ascii_dec b a) as [->|]; [|discriminate].
  destruct r as [|a' r']; simpl; [discriminate|].
  destruct (ascii_dec c a') as [->|]; [|discriminate]. eauto.
Qed.

Lemma prefix_pair b c r :
  String.prefix (String b (char_str c)) (String b (String c r)) = true.
Proof.
  simpl. destruct (ascii_dec b b); [|done].
  destruct (ascii_dec c c); [|done]. by destruct r.
Qed.

Lemma has_esc_esc c d s :
  c <> backslash ->
  PyStr.str_in (String backslash (char_str d)) s = true ->
  PyStr.str_in (String backslash (char_str d)) (esc c s) = true.
Proof.
  intros Hc. induction s as [|a r IH]; [done|].
  rewrite str_in_cons. intros [Hp|Hr]%orb_true_iff.
  - apply prefix_pair_inv in Hp as [-> [r' ->]].
    rewrite esc_cons. destruct (ascii_dec c backslash); [contradiction|].
    rewrite esc_cons. destruct (ascii_dec c d) as [->|].
    + apply str_in_weaken. rewrite str_in_cons, prefix_pair. done.
    + rewrite str_in_cons, prefix_pair. done.
  - rewrite esc_cons. destruct (ascii_dec c a).
    + do 2 apply str_in_weaken. auto.
    + apply str_in_weaken. auto.
Qed.

Lemma esc_has_esc c s :
  PyStr.str_in (char_str c) s = true ->
  PyStr.str_in (String backslash (char_str c)) (esc c s) = true.
Proof.
  induction s as [|a r IH]; [done|].
  rewrite has_char_cons, esc_cons. destruct (ascii_dec c a) as [->|].
  - intros _. rewrite str_in_cons, prefix_pair. done.
  - intros H. apply str_in_weaken. auto.
Qed.

Lemma escape_char_unfold s c :
  escape_char s c
  = if PyStr.str_in (char_str c) s
       && negb (PyStr.str_in (String backslash (char_str c)) s)
    then esc c s else s.
Proof. reflexivity. Qed.

Lemma escape_char_settles s c : settled c (escape_char s c).
Proof.
  rewrite escape_char_unfold. unfold settled.
  destruct (PyStr.str_in (char_str c) s) eqn:Hin; simpl.
  - destruct (PyStr.str_in (String backslash (char_str c)) s) eqn:He; simpl.
    + done.
    + intros _. by apply esc_has_esc.
  - intros H. congruence.
Qed.

Lemma escape_char_keeps s c d :
  c <> backslash -> d <> backslash ->
  settled d s -> settled d (escape_char s c).
Proof.
  intros Hc Hd Hs. rewrite escape_char_unfold.
  destruct (_ && _); [|done].
  unfold settled. rewrite has_char_esc by done.
  intros H. apply has_esc_esc; auto.
Qed.

Lemma escape_char_fixed s c : settled c s -> escape_char s c = s.
Proof.
  intros Hs. rewrite escape_char_unfold.
  destruct (PyStr.str_in (char_str c) s) eqn:Hin; [|done].
  rewrite Hs by done. done.
Qed.

Lemma fold_escape_keeps l s d :
  Forall (fun c => c <> backslash) l -> d <> backslash ->
  settled d s -> settled d (fold_left escape_char l s).
Proof.
  intros Hl Hd. revert s. induction Hl as [|c l Hc Hl IH]; intros s Hs.
  - done.
  - simpl. apply IH. by apply escape_char_keeps.
Qed.

Lemma fold_escape_settles l s :
  Forall (fun c => c <> backslash) l ->
  Forall (fun c => settled c (fold_left escape_char l s)) l.
Proof.
  intros Hl. revert s. induction Hl as [|c l Hc Hl IH]; intros s.
  - constructor.
  - simpl. constructor.
    + apply fold_escape_keeps; [done..|]. apply escape_char_settles.
    + apply IH.
Qed.

Lemma fold_escape_fixed l s :
  Forall (fun c => settled c s) l -> fold_left escape_char l s = s.
Proof.
  induction 1 as [|c l Hc Hl IH]; [done|].
  simpl. rewrite escape_char_fixed by done. exact IH.
Qed.

Lemma fold_escape_idempotent l s :
  Forall (fun c => c <> backslash) l ->
  fold_left escape_char l (fold_left escape_char l s)
  = fold_left escape_char l s.
Proof. intros Hl. apply fold_escape_fixed, fold_escape_settles, Hl. Qed.

Lemma escape_chars_plain : Forall (fun c => c <> backslash) escape_chars.
Proof. unfold escape_chars. repeat constructor; discriminate. Qed.

End escaping.

(** C6. The escaping routine is idempotent: escaping an already escaped text
    changes nothing, whatever characters the text holds. *)
Theorem escape_markdown_idempotent (x : string) :
  _escape_markdown (_escape_markdown x) = _escape_markdown x.
Proof.
  destruct x as [|a r]; [reflexivity|].
  unfold _escape_markdown at 2 3.
  unfold _escape_markdown.
  destruct (fold_left escape_char escape_chars (String a r)) eqn:E;
    [reflexivity|].
  rewrite <- E. apply fold_escape_idempotent, escape_chars_plain.
Qed.

(** ** Dictionaries *)

Section dict_lemmas.

Context {V : Type}.
Implicit Types (k : string) (v : V) (d : list (string * V)).

Lemma dict_get_set_eq k v d : Dict.get k (Dict.set k v d) = Some v.
Proof.
  induction d as [|[k' v'] r IH]; simpl.
  - by rewrite decide_True.
  - destruct (decide (k = k')) as [->|Hne]; simpl.
    + by rewrite decide_True.
    + by rewrite decide_False.
Qed.

Lemma dict_get_set_ne k k' v d :
  k <> k' -> Dict.get k' (Dict.set k v d) = Dict.get k' d.
Proof.
  intros Hne. induction d as [|[k0 v0] r IH]; simpl.
  - rewrite decide_False; [done|congruence].
  - destruct (decide (k = k0)) as [->|]; simpl.
    + rewrite !decide_False; [done|congruence..].
    + destruct (decide (k' = k0)); [done|exact IH].
Qed.

Lemma dict_mem_true k d : Dict.mem k d = true <-> is_Some (Dict.get k d).
Proof.
  unfold Dict.mem. destruct (Dict.get k d); split; done.
Qed.

Lemma dict_mem_false k d : Dict.mem k d = false <-> Dict.get k d = None.
Proof. unfold Dict.mem. by destruct (Dict.get k d). Qed.

Lemma dict_get_some_key k v d : Dict.get k d = Some v -> k ∈ d.*1.
Proof.
  induction d as [|[k' v'] r IH]; simpl; [done|].
  destruct (decide (k = k')) as [->|]; intros H.
  - apply list_elem_of_here.
  - apply list_elem_of_further. auto.
Qed.

(** Overwriting an existing key keeps the order of the keys. *)
Lemma dict_set_keys k v v' d :
  Dict.get k d = Some v' -> (Dict.set k v d).*1 = d.*1.
Proof.
  induction d as [|[k' v0] r IH]; simpl; [done|].
  destruct (decide (k = k')) as [->|]; [done|].
  intros H. rewrite !fmap_cons. f_equal. auto.
Qed.

End dict_lemmas.

(** ** Deleting a button *)

Lemma find_button_split bid bs b :
  find_button bid bs = Some b ->
  exists before after,
    bs = before ++ b :: after
    /\ Button.id b = Some bid
    /\ Forall (fun x => Button.id x <> Some bid) before.
Proof.
  induction bs as [|x r IH]; simpl; [done|].
  destruct (decide (Button.id x = Some bid)) as [Hx|Hx].
  - intros [= ->]. by exists [], r.
  - intros (before & after & -> & Hb & Hbefore)%IH.
    exists (x :: before), after. repeat split; [done|].
    by constructor.
Qed.

Lemma list_remove_split b before after :
  Forall (fun x => x <> b) before ->
  list_remove b (before ++ b :: after) = Some (before ++ after).
Proof.
  induction 1 as [|x r Hx Hr IH]; simpl.
  - by rewrite decide_True.
  - rewrite decide_False by done. by rewrite IH.
Qed.

(** With distinct page keys, the page the scan reports is the page stored
    under the reported key. *)
Lemma find_button_in_pages_get bid ps page_id b :
  Dict.wf ps ->
  find_button_in_pages bid ps = Some (page_id, b) ->
  exists page,
    Dict.get page_id ps = Some page
    /\ find_button bid (Page.buttons page) = Some b.
Proof.
  unfold Dict.wf. induction ps as [|[k p] r IH]; simpl; [done|].
  intros [Hk Hr]%NoDup_cons.
  destruct (find_button bid (Page.buttons p)) as [b'|] eqn:Hfind.
  - intros [= -> ->]. exists p. by rewrite decide_True.
  - intros Hrest. destruct (IH Hr Hrest) as (page & Hget & Hb).
    exists page. split; [|done].
    rewrite decide_False; [done|].
    intros ->. apply Hk. by eapply dict_get_some_key.
Qed.

(** C9. Deleting a button by its identifier takes exactly that button out of
    the list of the page that owns it: the buttons before and after it stay,
    in order, and every other page is left as it was. *)
Theorem delete_button_frame (bot : Bot) (bid now_saved : string)
  (page_id : string) (b : Button.t) :
  Dict.wf (get_pages (database bot)) ->
  _find_button_by_id bot bid = Some (page_id, b) ->
  exists page before after,
    Dict.get page_id (get_pages (database bot)) = Some page
    /\ Page.buttons page = before ++ b :: after
    /\ Button.id b = Some bid
    /\ Forall (fun x => Button.id x <> Some bid) before
    /\ let bot' := (delete_button bot bid now_saved).1 in
       Dict.get page_id (get_pages (database bot'))
         = Some (Page.with_buttons (before ++ after) page)
       /\ (forall q, q <> page_id ->
             Dict.get q (get_pages (database bot'))
             = Dict.get q (get_pages (database bot)))
       /\ (get_pages (database bot')).*1 = (get_pages (database bot)).*1.
Proof.
  intros Hwf Hfind.
  destruct (find_button_in_pages_get _ _ _ _ Hwf Hfind) as (page & Hget & Hb).
  destruct (find_button_split _ _ _ Hb)
    as (before & after & Hbs & Hid & Hbefore).
  exists page, before, after. repeat split; try done.
  all: unfold delete_button; rewrite Hfind, Hget, Hbs.
  all: rewrite list_remove_split
         by (eapply Forall_impl; [exact Hbefore|]; intros x Hx ->; done).
  all: simpl.
  - apply dict_get_set_eq.
  - intros q Hq. apply dict_get_set_ne. congruence.
  - eapply dict_set_keys, Hget.
Qed.

Lemma delete_button_frame_witness :
  exists page before after,
    Dict.get "main" (get_pages (database two_page_bot)) = Some page
    /\ Page.buttons page = before ++ stored_button 2 :: after
    /\ Button.id (stored_button 2) = Some "btn_2"
    /\ Forall (fun x => Button.id x <> Some "btn_2") before
    /\ let bot' := (delete_button two_page_bot "btn_2" "t1").1 in
       Dict.get "main" (get_pages (database bot'))
         = Some (Page.with_buttons (before ++ after) page)
       /\ (forall q, q <> "main" ->
             Dict.get q (get_pages (database bot'))
             = Dict.get q (get_pages (database two_page_bot)))
       /\ (get_pages (database bot')).*1
          = (get_pages (database two_page_bot)).*1.
Proof.
  apply (delete_button_frame two_page_bot "btn_2" "t1" "main"
           (stored_button 2)).
  - unfold Dict.wf. simpl. apply (bool_decide_unpack _). reflexivity.
  - reflexivity.
Defined.

Example delete_button_example :
  (get_pages (database (delete_button two_page_bot "btn_2" "t1").1))
  = [("main",
      {| Page.title := "Menu"; Page.content := "Benvenuto";
         Page.buttons := [stored_button 1];
         Page.created_at := "t0"; Page.updated_at := None |});
     ("about",
      {| Page.title := "Chi Siamo"; Page.content := "Testo";
         Page.buttons := [stored_button 3];
         Page.created_at := "t0"; Page.updated_at := None |})].
Proof. reflexivity. Qed.

(** ** Resolving a page *)

(** C5, as stated, fails on the title: on an empty graph the synthesized page
    is titled "Menu Principale". *)
Lemma default_page_title_counterexample :
  exists bot',
    _get_valid_page (bot_of (db_of [] [])) "home" "t1" "t2"
    = inr (default_page "t1", bot')
    /\ Page.title (default_page "t1") <> "Main Menu".
Proof. eexists. split; [reflexivity|discriminate]. Qed.

(** C5, amended. [_get_valid_page] returns the named page when it exists;
    otherwise the configured main-menu page when that exists; otherwise, on a
    graph that has a pages table, it synthesizes a page titled
    "Menu Principale" with no buttons, stores it under the key [main],
    writes the store to its file and returns that page; the other pages are
    left as they were. *)
Theorem get_valid_page_resolves (bot : Bot)
  (page_id now_created now_saved : string) (ps : list (string * Page.t)) :
  pages (database bot) = Some ps ->
  let main := get_main_menu (database bot) in
  let result := _get_valid_page bot page_id now_created now_saved in
  (forall page, Dict.get page_id ps = Some page -> result = inr (page, bot))
  /\ (forall page,
        Dict.get page_id ps = None -> Dict.get main ps = Some page ->
        result = inr (page, bot))
  /\ (Dict.get page_id ps = None -> Dict.get main ps = None ->
      exists bot',
        result = inr (default_page now_created, bot')
        /\ Page.title (default_page now_created) = "Menu Principale"
        /\ Page.buttons (default_page now_created) = []
        /\ Dict.get "main" (get_pages (database bot'))
           = Some (default_page now_created)
        /\ (forall k, k <> "main" ->
              Dict.get k (get_pages (database bot')) = Dict.get k ps)
        /\ database_file bot'
           = Some {| file_database := database bot';
                     file_admin_users := admin_users bot';
                     file_last_updated := now_saved |}).
Proof.
  intros Hps main result. subst main result.
  unfold _get_valid_page, get_pages. rewrite Hps. simpl.
  split; [|split].
  - by intros page ->.
  - by intros page -> ->.
  - intros -> ->. unfold _create_default_page. rewrite Hps.
    eexists. split; [reflexivity|]. simpl. repeat split.
    + apply dict_get_set_eq.
    + intros k Hk. by apply dict_get_set_ne.
Qed.

Lemma get_valid_page_resolves_witness :
  exists bot',
    _get_valid_page (bot_of (db_of [] [])) "home" "t1" "t2"
    = inr (default_page "t1", bot')
    /\ Page.title (default_page "t1") = "Menu Principale"
    /\ Page.buttons (default_page "t1") = []
    /\ Dict.get "main" (get_pages (database bot')) = Some (default_page "t1")
    /\ (forall k, k <> "main" ->
          Dict.get k (get_pages (database bot')) = Dict.get k [])
    /\ database_file bot'
       = Some {| file_database := database bot';
                 file_admin_users := admin_users bot';
                 file_last_updated := "t2" |}.
Proof.
  destruct (get_valid_page_resolves (bot_of (db_of [] [])) "home" "t1" "t2" []
              eq_refl) as (_ & _ & H).
  exact (H eq_refl eq_refl).
Defined.

(** A graph without a pages table is not healed: the store cannot be
    indexed. *)
Lemma get_valid_page_without_table (bot : Bot) (page_id nc ns : string) :
  pages (database bot) = None ->
  _get_valid_page bot page_id nc ns = inl (KeyError "pages").
Proof.
  intros H. unfold _get_valid_page, _create_default_page, get_pages.
  by rewrite H.
Qed.

(** ** Creating a page *)

Lemma split_zero sep s : PyStr.split sep 0 s = [s].
Proof. by destruct s. Qed.

(** A field free of the separator is cut off at the first separator. *)
Lemma split_field sep k field rest :
  PyStr.str_in (char_str sep) field = false ->
  PyStr.split sep (S k) (field +:+ String sep rest)
  = field :: PyStr.split sep k rest.
Proof.
  induction field as [|a f IH]; intros Hf.
  - simpl. unfold PyStr.char_eqb. by rewrite bool_decide_eq_true_2.
  - rewrite has_char_cons in Hf. destruct (ascii_dec sep a); [done|].
    change (String a f +:+ String sep rest)
      with (String a (f +:+ String sep rest)).
    cbn [PyStr.split]. unfold PyStr.char_eqb.
    rewrite bool_decide_eq_false_2 by congruence.
    by rewrite IH.
Qed.

(** Free text of the form [ID|Title|Content] is cut into its three fields. *)
Lemma split_page_form page_id title content :
  PyStr.str_in "|" page_id = false ->
  PyStr.str_in "|" title = false ->
  PyStr.split "|" 2 (page_id +:+ "|" +:+ title +:+ "|" +:+ content)
  = [page_id; title; content].
Proof.
  intros Hid Htitle.
  change ("|" +:+ title +:+ "|" +:+ content)
    with (String "|" (title +:+ String "|" content)).
  rewrite (split_field "|" 1 page_id) by exact Hid.
  rewrite (split_field "|" 0 title) by exact Htitle.
  by rewrite split_zero.
Qed.


(** The same through the editor: the first text of the flow creates the page
    and closes the session, so the same text sent again is answered as an
    invalid state; once the flow is opened again it is refused as a
    duplicate.  The graph is the same after both. *)
Example create_page_flow :
  let bot1 := (start_create_page fresh_bot button_press 0).1 in
  let bot2 :=
    (create_page_from_text bot1 text_message "about|Chi Siamo|Testo"
       "t1" "t2").1 in
  let bot3 := (start_create_page bot2 button_press 2000).1 in
  handle_editor_message bot1 ∅ text_message 1000
  = (bot1, Calls Handler.create_page_from_text)
  /\ handle_editor_message bot2 ∅ text_message 2000
     = (bot2, Answered [msg_invalid_state])
  /\ handle_editor_message bot3 ∅ text_message 3000
     = (bot3, Calls Handler.create_page_from_text)
  /\ create_page_from_text bot3 text_message "about|Chi Siamo|Testo"
       "t3" "t4"
     = (bot3, _handle_validation_error text_message msg_duplicate_page)
  /\ database bot3 = database bot2.
Proof. repeat split; reflexivity. Qed.

(** ** Rendering a page *)

Lemma prefix_app sub post : String.prefix sub (sub +:+ post) = true.
Proof.
  induction sub as [|a r IH]; simpl.
  - by destruct post.
  - destruct (ascii_dec a a); [exact IH|done].
Qed.

Lemma str_in_prefix sub s :
  String.prefix sub s = true -> PyStr.str_in sub s = true.
Proof.
  intros H. destruct s; [exact H|]. rewrite str_in_cons, H. done.
Qed.

Lemma str_in_here sub post : PyStr.str_in sub (sub +:+ post) = true.
Proof. apply str_in_prefix, prefix_app. Qed.

Lemma str_in_self s : PyStr.str_in s s = true.
Proof.
  apply str_in_prefix. induction s as [|a r IH]; [done|].
  simpl. by destruct (ascii_dec a a).
Qed.

Lemma str_in_after sub pre s :
  PyStr.str_in sub s = true -> PyStr.str_in sub (pre +:+ s) = true.
Proof.
  intros H. induction pre as [|a r IH]; [exact H|].
  simpl. rewrite IH. apply orb_true_r.
Qed.

Lemma keyboard_rows (bs : list Button.t) acc :
  fold_left
    (fun keyboard button =>
       keyboard ++ [[ {| label := Button.text button;
                         callback_data := Button.action button |} ]])
    bs acc
  = acc ++ button_rows bs.
Proof.
  revert acc. induction bs as [|b r IH]; intros acc; simpl.
  - by rewrite app_nil_r.
  - rewrite IH. unfold button_rows. by rewrite <- app_assoc.
Qed.

(** When the requested page is missing, the page shown is the main menu, but
    the Back row is decided on the requested identifier. *)
Lemma show_page_fallback_has_back_row :
  show_page fresh_bot button_press "missing" "t1" "t2"
  = (fresh_bot,
     [edit_message_text (_format_page_content (default_page "t0"))
        (Some [[back_button]]) (Some MARKDOWN)]).
Proof. reflexivity. Qed.

(** ** Registering a user *)

(** C10. [register_user] does nothing for a user who is already in the users
    store: the whole store, and so the stored record with its role, its
    timestamps, its counters and its lists, is what it was. *)
Theorem register_user_known (st : UsersStore) (user_id : Z)
  (username first_name last_name : option string) (role : string)
  (now_registered now_seen now_saved : string) (known : User) :
  users (users_database st) !! PyStr.str_of_int user_id = Some known ->
  register_user st user_id username first_name last_name role
    now_registered now_seen now_saved = st.
Proof. intros H. unfold register_user. by rewrite H. Qed.

Lemma register_user_known_witness :
  register_user one_user_store 42 (Some "ada") (Some "Ada") None "user"
    "t6" "t7" "t8"
  = one_user_store.
Proof.
  exact (register_user_known one_user_store 42 (Some "ada") (Some "Ada")
           None "user" "t6" "t7" "t8" known_user eq_refl).
Defined.

(** A record is created only for an identifier that is not yet a key: it
    carries the given role and fresh counters, and the records of the other
    users stay. *)
Lemma register_user_new (st : UsersStore) (user_id : Z)
  (username first_name last_name : option string) (role : string)
  (now_registered now_seen now_saved : string) :
  users (users_database st) !! PyStr.str_of_int user_id = None ->
  let st' := register_user st user_id username first_name last_name role
               now_registered now_seen now_saved in
  users (users_database st')
  = <[ PyStr.str_of_int user_id :=
         {| username := username; first_name := first_name;
            last_name := last_name; role := role;
            registered_at := now_registered; last_seen := now_seen;
            total_interactions := 0; pages_visited := [];
            buttons_clicked := [] |} ]> (users (users_database st))
  /\ users_file st' = Some (users_database st')
  /\ forall other : Z,
       other <> user_id ->
       users (users_database st') !! PyStr.str_of_int other
       = users (users_database st) !! PyStr.str_of_int other.
Proof.
  intros H st'. subst st'. unfold register_user. rewrite H. simpl.
  repeat split. intros other Hother. apply lookup_insert_ne.
  unfold PyStr.str_of_int. intros Heq. apply Hother. symmetry.
  by apply (inj pretty).
Qed.

(** If [register_user] changes the store, the user was not known. *)
Lemma register_user_changes_only_new (st : UsersStore) (user_id : Z)
  (username first_name last_name : option string) (role : string)
  (now_registered now_seen now_saved : string) :
  register_user st user_id username first_name last_name role
    now_registered now_seen now_saved <> st ->
  users (users_database st) !! PyStr.str_of_int user_id = None.
Proof.
  intros Hne. destruct (users (users_database st) !! _) as [r|] eqn:E; [|done].
  exfalso. apply Hne. unfold register_user. by rewrite E.
Qed.

(** ** Free text and sessions *)

(** C3, as stated, fails.  User 42 opens the editing of the button [btn_3]
    and then deletes that button: the session declares [editing_button] and
    its context names a button that is not in the graph.  The next text is
    not refused: it goes to the button editing handler, which answers that
    the button is not found, and the session is still there afterwards. *)
Lemma stale_context_counterexample :
  let s := {| state := "editing_button"; timestamp := 0;
              data := {[ "button_id" := "btn_3" ]} |} in
  user_states editing_bot !! 42 = Some s
  /\ context_matches editing_bot s = true
  /\ user_states orphaned_bot !! 42 = Some s
  /\ _find_button_by_id orphaned_bot "btn_3" = None
  /\ context_matches orphaned_bot s = false
  /\ handle_editor_message orphaned_bot editing_button_ctx text_message 1000
     = (orphaned_bot, Calls Handler.edit_button_from_text)
  /\ edit_button_from_text orphaned_bot editing_button_ctx text_message
       "Nuovo|page_about" "t2" "t3"
     = (orphaned_bot, editing_button_ctx,
        [reply_text "❌ Pulsante non trovato." None None]).
Proof. by vm_compute. Qed.

Lemma is_state_valid_own_state (bot : Bot) (user_id : Z) :
  _is_state_valid bot user_id (_get_user_state bot user_id)
  = bool_decide (is_Some (user_states bot !! user_id)).
Proof.
  unfold _is_state_valid, _get_user_state.
  destruct (user_states bot !! user_id) as [s|].
  - rewrite bool_decide_eq_true_2 by done.
    by rewrite bool_decide_eq_true_2 by eauto.
  - by rewrite bool_decide_eq_false_2 by (intros [? ?]; done).
Qed.

(** C3, amended. Before free text continues a flow, the handler sweeps the
    expired sessions.  If a user search is pending for the user, the text
    goes to the search, whatever the session.  Otherwise the handler checks
    only that the user still has a session: without one it answers that the
    state is invalid and clears the slot; with one it routes the text by the
    declared state alone, keeps the session, and never looks at the stored
    context. *)
Theorem editor_message_checks_presence (bot : Bot) (ctx : gmap string PyVal)
  (update : Update) (now : Z) :
  let swept := _cleanup_expired_states now 30 bot in
  handle_editor_message bot ctx update now
  = if search_pending ctx (effective_user update)
    then (swept, Calls Handler.search_user)
    else
      match user_states swept !! effective_user update with
      | None => (_clear_user_state (effective_user update) swept,
                 Answered [msg_invalid_state])
      | Some s => (swept, handler_of_state (state s))
      end.
Proof.
  intros swept. unfold handle_editor_message, search_pending. fold swept.
  assert (Hrest :
    (if negb (_is_state_valid swept (effective_user update)
                (_get_user_state swept (effective_user update)))
     then (_clear_user_state (effective_user update) swept,
           Answered [msg_invalid_state])
     else (swept,
           handler_of_state
             (_get_user_state swept (effective_user update))))
    = match user_states swept !! effective_user update with
      | None => (_clear_user_state (effective_user update) swept,
                 Answered [msg_invalid_state])
      | Some s => (swept, handler_of_state (state s))
      end).
  { rewrite is_state_valid_own_state. unfold _get_user_state.
    destruct (user_states swept !! effective_user update) as [s|].
    - by rewrite bool_decide_eq_true_2 by eauto.
    - by rewrite bool_decide_eq_false_2 by (intros [? ?]; done). }
  destruct (ctx !! _) as [v|]; cbn [from_option].
  - destruct (truthy v); [done|exact Hrest].
  - exact Hrest.
Qed.

(** A pending search takes the text also from a user without a session, and
    from one whose session waits for a page. *)
Example search_takes_the_text :
  handle_editor_message editor_bot {[ "searching_user_42" := PBool true ]}
    text_message 1000
  = (editor_bot, Calls Handler.search_user)
  /\ handle_editor_message editing_bot
       {[ "searching_user_42" := PBool true ]} text_message 1000
     = (editing_bot, Calls Handler.search_user).
Proof. by vm_compute. Qed.

(** Two sessions with the same declared state are routed alike, whatever
    their contexts. *)
Lemma routing_ignores_context (st : string) (t1 t2 : Z)
  (d1 d2 : gmap string string) :
  handler_of_state (state {| state := st; timestamp := t1; data := d1 |})
  = handler_of_state (state {| state := st; timestamp := t2; data := d2 |}).
Proof. reflexivity. Qed.

(** ** Button identifiers *)

(** *** Decimal numerals: [int(str(n)) == n] *)

Lemma digit_val_pretty (d : N) :
  (d < 10)%N -> PyStr.digit_val (pretty_N_char d) = Some (Z.of_N d).
Proof.
  intros Hd.
  assert (d = 0 \/ d = 1 \/ d = 2 \/ d = 3 \/ d = 4 \/ d = 5 \/ d = 6
          \/ d = 7 \/ d = 8 \/ d = 9)%N as Hcases by lia.
  repeat destruct Hcases as [->|Hcases]; try reflexivity.
  by subst.
Qed.

Lemma is_digit_pretty (d : N) : is_digit (pretty_N_char d) = true.
Proof. unfold pretty_N_char. by repeat case_match. Qed.

Lemma digit_not_blank (c : ascii) :
  is_digit c = true -> PyStr.int_blank c = false.
Proof.
  unfold is_digit, PyStr.digit_val, PyStr.int_blank.
  destruct (_ && _)%bool eqn:E; [|done]. intros _.
  apply andb_true_iff in E as [?%N.leb_le ?%N.leb_le].
  repeat (apply orb_false_iff; split);
    rewrite ?andb_false_iff, ?N.leb_gt, ?N.eqb_neq; lia.
Qed.

Lemma all_digits_pretty_go (x : N) (s : string) :
  PyStr.all_chars is_digit s = true ->
  PyStr.all_chars is_digit (pretty_N_go x s) = true.
Proof.
  revert s. induction (N.lt_wf_0 x) as [x _ IH]; intros s Hs.
  destruct (decide (x = 0)%N) as [->|Hx]; [by rewrite pretty_N_go_0|].
  rewrite pretty_N_go_step by lia. apply IH.
  - apply N.div_lt; lia.
  - simpl. by rewrite is_digit_pretty.
Qed.

Lemma lstrip_digits (s : string) :
  PyStr.all_chars is_digit s = true ->
  PyStr.lstrip_by PyStr.int_blank s = s.
Proof.
  destruct s as [|c r]; [done|]. simpl.
  intros [Hc _]%andb_true_iff. by rewrite digit_not_blank.
Qed.

Lemma rstrip_digits (s : string) :
  PyStr.all_chars is_digit s = true ->
  PyStr.rstrip_by PyStr.int_blank s = s.
Proof.
  induction s as [|c r IH]; [done|]. simpl.
  intros [Hc Hr]%andb_true_iff. rewrite IH by done.
  destruct r; [|done]. by rewrite digit_not_blank.
Qed.

Lemma int_unsigned_pretty_go (x : N) (s : string) :
  (0 < x)%N ->
  PyStr.int_unsigned (pretty_N_go x s)
  = PyStr.int_digits (Z.of_N x) false s.
Proof.
  revert s. induction (N.lt_wf_0 x) as [x _ IH]; intros s Hx.
  rewrite pretty_N_go_step by done.
  destruct (decide (x `div` 10 = 0)%N) as [Hq|Hq].
  - rewrite Hq, pretty_N_go_0. simpl.
    assert (x < 10)%N by (apply N.div_small_iff in Hq; [done|lia]).
    rewrite N.mod_small by done. by rewrite digit_val_pretty.
  - assert (Hlt : (x `div` 10 < x)%N) by (apply N.div_lt; lia).
    assert (Hpos : (0 < x `div` 10)%N) by apply N.neq_0_lt_0, Hq.
    rewrite (IH _ Hlt _ Hpos).
    simpl. rewrite digit_val_pretty by (apply N.mod_lt; lia).
    f_equal. pose proof (N.div_mod x 10 ltac:(lia)). lia.
Qed.

Lemma pretty_go_nonempty (x : N) (s : string) :
  s <> EmptyString -> pretty_N_go x s <> EmptyString.
Proof.
  revert s. induction (N.lt_wf_0 x) as [x _ IH]; intros s Hs.
  destruct (decide (x = 0)%N) as [->|Hx]; [by rewrite pretty_N_go_0|].
  rewrite pretty_N_go_step by lia. apply IH; [apply N.div_lt; lia|done].
Qed.

Lemma pretty_N_digits (x : N) :
  PyStr.all_chars is_digit (pretty x) = true /\ pretty x <> EmptyString.
Proof.
  unfold pretty, pretty_N. destruct (decide (x = 0)%N) as [->|Hx]; [done|].
  split; [by apply all_digits_pretty_go|].
  rewrite pretty_N_go_step by lia. by apply pretty_go_nonempty.
Qed.

(** [int(str(n)) == n] for a natural number. *)
Lemma int_of_str_of_N (x : N) :
  PyStr.int_of_str (pretty x) = Some (Z.of_N x).
Proof.
  destruct (pretty_N_digits x) as [Hall Hne].
  unfold PyStr.int_of_str. rewrite lstrip_digits, rstrip_digits by done.
  destruct (pretty x) as [|c r] eqn:Hcr; [done|].
  assert (Hc : is_digit c = true).
  { simpl in Hall. by apply andb_true_iff in Hall as [? _]. }
  assert (PyStr.char_eqb c "+" = false /\ PyStr.char_eqb c "-" = false)
    as [-> ->].
  { unfold PyStr.char_eqb.
    split; apply bool_decide_eq_false_2; intros ->; done. }
  rewrite <- Hcr. unfold pretty, pretty_N.
  destruct (decide (x = 0)%N) as [->|Hx]; [done|].
  rewrite int_unsigned_pretty_go by lia. done.
Qed.

Lemma int_of_str_of_int (n : Z) :
  0 <= n -> PyStr.int_of_str (PyStr.str_of_int n) = Some n.
Proof.
  intros Hn. unfold PyStr.str_of_int.
  replace (pretty n) with (pretty (Z.to_N n)).
  - rewrite int_of_str_of_N. f_equal. lia.
  - by destruct n.
Qed.

Lemma button_suffix_generated (n : Z) :
  0 <= n -> button_suffix ("btn_" +:+ PyStr.str_of_int n) = Some n.
Proof.
  intros Hn. unfold button_suffix, PyStr.startswith. rewrite prefix_app.
  change (PyStr.drop 4 ("btn_" +:+ PyStr.str_of_int n))
    with (PyStr.str_of_int n).
  by apply int_of_str_of_int.
Qed.

(** [int] rejects every identifier that [_generate_button_id] produces. *)
Lemma int_of_str_generated (suffix : string) :
  PyStr.int_of_str ("btn_" +:+ suffix) = None.
Proof.
  unfold PyStr.int_of_str.
  change ("btn_" +:+ suffix) with (String "b" ("tn_" +:+ suffix)).
  cbn [PyStr.lstrip_by].
  change (PyStr.int_blank "b") with false. cbn iota.
  cbn [PyStr.rstrip_by].
  change (PyStr.int_blank "b") with false.
  by destruct (PyStr.rstrip_by PyStr.int_blank ("tn_" +:+ suffix)).
Qed.

Lemma max_button_id_stored (ks : list Z) (m : Z) :
  max_button_id m (stored_button <$> ks) = m.
Proof.
  unfold max_button_id. revert m.
  induction ks as [|k r IH]; intros m; [done|].
  rewrite fmap_cons. cbn [fold_left]. cbn [stored_button Button.id].
  rewrite int_of_str_generated. apply IH.
Qed.

Lemma startup_counter_stored (ks : list Z) (admins : gset Z) (now : string) :
  button_counter (startup (persisted_graph ks) admins now) = 1.
Proof.
  change (max_button_id 0 (stored_button <$> ks) + 1 = 1).
  by rewrite max_button_id_stored.
Qed.

(** C1 at a restart. Whatever buttons [btn_k] the persisted main page holds,
    the counter restarts at 1: with [btn_1] among them, the next identifier
    handed out is [btn_1] again, the one of a stored button, where the
    design document promises one past the largest stored suffix. *)
Theorem restart_counter_collides (ks : list Z) (now : string) :
  let bot := startup (persisted_graph (1 :: ks)) ∅ now in
  button_counter bot = 1
  /\ (_generate_button_id bot).1 = "btn_1"
  /\ _find_button_by_id bot "btn_1" = Some ("main", stored_button 1).
Proof.
  intros bot. subst bot.
  pose proof (startup_counter_stored (1 :: ks) ∅ now) as Hc.
  split; [exact Hc|]. split.
  - unfold _generate_button_id. cbn [fst]. by rewrite Hc.
  - reflexivity.
Qed.

Example restart_after_three_buttons :
  (_generate_button_id (startup (persisted_graph [1; 2; 3]) ∅ "t0")).1
  = "btn_1".
Proof. reflexivity. Qed.

(** On one run the identifiers are numbered with consecutive counter values,
    so they are pairwise distinct and their numbers increase. *)
Lemma generate_button_ids_spec (n : nat) (bot : Bot) :
  generate_button_ids n bot
  = ((fun i : nat =>
        "btn_" +:+ PyStr.str_of_int (button_counter bot + Z.of_nat i))
       <$> seq 0 n,
     with_button_counter (button_counter bot + Z.of_nat n) bot).
Proof.
  revert bot. induction n as [|n IH]; intros bot.
  - simpl. rewrite Z.add_0_r. by destruct bot.
  - cbn [generate_button_ids]. unfold _generate_button_id.
    rewrite IH. cbn [button_counter with_button_counter].
    change (seq 0 (S n)) with (0%nat :: seq 1 n).
    rewrite <- seq_shift, fmap_cons, <- list_fmap_compose.
    f_equal.
    + f_equal; [by rewrite Z.add_0_r|].
      apply list_fmap_ext. intros _ i _. simpl. do 2 f_equal. lia.
    + unfold with_button_counter. simpl. f_equal. lia.
Qed.

Lemma generated_ids_distinct (n : nat) (bot : Bot) :
  NoDup (generate_button_ids n bot).1.
Proof.
  rewrite generate_button_ids_spec. cbn [fst].
  apply NoDup_fmap_2; [|apply NoDup_seq].
  intros i j H. apply (inj (String.append "btn_")) in H.
  apply (inj pretty) in H. lia.
Qed.

(** On one run: from a counter that is not negative, the numeric suffixes
    of [n] successive identifiers are the [n] consecutive counter values, so
    each is larger than the one before. *)
Lemma generated_suffixes (n : nat) (bot : Bot) :
  0 <= button_counter bot ->
  button_suffix <$> (generate_button_ids n bot).1
  = (fun i : nat => Some (button_counter bot + Z.of_nat i)) <$> seq 0 n.
Proof.
  intros Hc. rewrite generate_button_ids_spec. cbn [fst].
  rewrite <- list_fmap_compose. apply list_fmap_ext. intros _ i _.
  simpl. apply button_suffix_generated. lia.
Qed.

Example fresh_start_three_buttons :
  (generate_button_ids 3 (startup (db_of [] []) ∅ "t0")).1
  = ["btn_1"; "btn_2"; "btn_3"].
Proof. reflexivity. Qed.

(** After a restart, adding a button to the persisted main page gives the
    page two buttons with the identifier [btn_1]. *)
Example restart_then_add_button :
  let '(bot, _, _) :=
    create_button_from_text (startup (persisted_graph [1; 2]) ∅ "t0")
      {[ "adding_button_42" := PStr "main" ]} text_message
      "Nuovo|page_about" "t1" "t2" in
  Button.id
    <$> default []
          (Page.buttons <$> Dict.get "main" (get_pages (database bot)))
  = [Some "btn_1"; Some "btn_2"; Some "btn_1"].
Proof. reflexivity. Qed.

(** ** Executing an action *)

(** C2 on the scenario of the design document. The template variable
    [{user_id}] is filled from the key [user_id] of the per-user context,
    which no handler writes: whoever invokes the action, the message
    [Ciao {user_id}] is rendered as [Ciao Unknown], where the design document
    promises the identifier of the invoking user. *)
Theorem message_action_user_id (bot : Bot) (ctx : gmap string PyVal)
  (update : Update) (action : string) (action_data : Action.t)
  (now : DateTime) (now_created now_saved : string) :
  Dict.get action (get_actions (database bot)) = Some action_data ->
  Action.type action_data = Some "message" ->
  Action.content action_data = "Ciao {user_id}" ->
  ctx !! "user_id" = None ->
  _execute_standard_action bot ctx update action now now_created now_saved
  = inr (bot, [edit_message_text "Ciao Unknown" None (Some MARKDOWN)]).
Proof.
  intros Hget Htype Hcontent Hctx. unfold _execute_standard_action.
  rewrite Hget, Htype. cbn [default]. rewrite decide_True by done.
  unfold _process_message_content. rewrite Hcontent, Hctx. reflexivity.
Qed.

Lemma message_action_user_id_witness :
  _execute_standard_action contact_bot ∅ button_press "contact" noon "t1" "t2"
  = inr (contact_bot,
         [edit_message_text "Ciao Unknown" None (Some MARKDOWN)]).
Proof.
  exact (message_action_user_id contact_bot ∅ button_press "contact"
           (message_action "Ciao {user_id}") noon "t1" "t2"
           eq_refl eq_refl eq_refl eq_refl).
Defined.

(** The same through the callback entry point, for user 42. *)
Example contact_for_user_42 :
  handle_custom_action contact_bot ∅ button_press "contact" noon "t1" "t2"
  = (contact_bot, [edit_message_text "Ciao Unknown" None (Some MARKDOWN)]).
Proof. reflexivity. Qed.

(** The other two variables are substituted, and the result is then escaped:
    the dashes of the timestamp come out escaped. *)
Example param_and_timestamp :
  let bot :=
    bot_of (db_of [] [("greet", message_action "Ciao {param}, {timestamp}")]) in
  handle_custom_action bot ∅ button_press "greet:Ada" noon "t1" "t2"
  = (bot, [edit_message_text "Ciao Ada, 2024\-03\-05 12:00:09" None
             (Some MARKDOWN)]).
Proof. reflexivity. Qed.

(** C4 on an unknown command. An action of type [command] whose content is
    neither [show_analytics] nor [show_users] produces no output at all: the
    fallback message of the source hangs on the chain over the action type,
    not on the chain over the command name. *)
Theorem unknown_command_is_silent (bot : Bot) (ctx : gmap string PyVal)
  (update : Update) (action : string) (action_data : Action.t)
  (now : DateTime) (now_created now_saved : string) :
  Dict.get action (get_actions (database bot)) = Some action_data ->
  Action.type action_data = Some "command" ->
  Action.content action_data <> "show_analytics" ->
  Action.content action_data <> "show_users" ->
  _execute_standard_action bot ctx update action now now_created now_saved
  = inr (bot, []).
Proof.
  intros Hget Htype Ha Hu. unfold _execute_standard_action.
  rewrite Hget, Htype. cbn [default].
  rewrite !decide_False by done. rewrite decide_True by done.
  by rewrite !decide_False by done.
Qed.

Lemma unknown_command_is_silent_witness :
  _execute_standard_action (command_bot "foo") ∅ button_press "cmd" noon
    "t1" "t2"
  = inr (command_bot "foo", []).
Proof.
  apply (unknown_command_is_silent (command_bot "foo") ∅ button_press "cmd"
           (command_action "foo") noon "t1" "t2"); [reflexivity..|done|done].
Defined.

(** The two known commands are dispatched. *)
Example known_commands :
  handle_custom_action (command_bot "show_analytics") ∅ button_press "cmd"
    noon "t1" "t2"
  = (command_bot "show_analytics", [analytics_command])
  /\ handle_custom_action (command_bot "show_users") ∅ button_press "cmd"
       noon "t1" "t2"
     = (command_bot "show_users", [users_command]).
Proof. split; reflexivity. Qed.

(** The fallback line is reached for an action of an unknown type only, where
    [command] is unbound: the executor raises and the entry point answers
    with its error message. *)
Example unknown_type_fails :
  let action_data :=
    {| Action.type := Some "shout"; Action.content := "foo";
       Action.url := None; Action.text := None;
       Action.created_at := "t0"; Action.updated_at := None |} in
  let bot := bot_of (db_of [] [("cmd", action_data)]) in
  _execute_standard_action bot ∅ button_press "cmd" noon "t1" "t2"
  = inl (UnboundLocalError "command")
  /\ handle_custom_action bot ∅ button_press "cmd" noon "t1" "t2"
     = (bot, [edit_message_text "❌ Errore nell'esecuzione dell'azione."
                None None]).
Proof. split; reflexivity. Qed.

Example escape_examples :
  _escape_markdown "a_b" = "a\_b"
  /\ _escape_markdown "a_b\_c" = "a_b\_c"
  /\ _escape_markdown "1+1=2!" = "1\+1\=2\!"
  /\ _format_markdown_safe "a_b.c" MARKDOWN = "a\_b.c".
Proof. repeat split; reflexivity. Qed.

(** ** Sanitising and validating input *)

Section string_lemmas.

Implicit Types (s r : string) (c a : ascii) (p : ascii -> bool).

Lemma take_length n s : (String.length (PyStr.take n s) <= n)%nat.
Proof.
  revert s. induction n as [|n IH]; intros [|c r]; simpl; try lia.
  specialize (IH r). lia.
Qed.

Lemma take_short n s : (String.length s <= n)%nat -> PyStr.take n s = s.
Proof.
  revert s. induction n as [|n IH]; intros [|c r]; simpl; try done; try lia.
  intros H. rewrite IH; [done|lia].
Qed.

Lemma take_all_chars p n s :
  PyStr.all_chars p s = true -> PyStr.all_chars p (PyStr.take n s) = true.
Proof.
  revert s. induction n as [|n IH]; intros [|c r]; simpl; try done.
  intros [Hc Hr]%andb_true_iff. by rewrite Hc, IH.
Qed.

Lemma filter_all_chars p s : PyStr.all_chars p (PyStr.filter_chars p s) = true.
Proof.
  induction s as [|c r IH]; [done|]. simpl.
  destruct (p c) eqn:E; [|done]. simpl. by rewrite E.
Qed.

Lemma filter_fixed p s :
  PyStr.all_chars p s = true -> PyStr.filter_chars p s = s.
Proof.
  induction s as [|c r IH]; [done|]. simpl.
  intros [Hc Hr]%andb_true_iff. by rewrite Hc, IH.
Qed.

(** Replacing a character by nothing filters it out. *)
Lemma replace_char_empty c s :
  PyStr.replace (char_str c) EmptyString s
  = PyStr.filter_chars (fun a => negb (PyStr.char_eqb a c)) s.
Proof.
  rewrite replace_one_char. unfold PyStr.char_eqb.
  induction s as [|a r IH]; [done|]. simpl.
  destruct (ascii_dec c a) as [->|Hne].
  - rewrite bool_decide_eq_true_2 by done. simpl.
    destruct r; exact IH.
  - rewrite bool_decide_eq_false_2 by congruence. simpl. by rewrite IH.
Qed.

Lemma all_chars_filter_filter p c1 c2 s :
  PyStr.all_chars p
    (PyStr.filter_chars (fun a => negb (PyStr.char_eqb a c2))
       (PyStr.filter_chars (fun a => negb (PyStr.char_eqb a c1)) s))
  = PyStr.all_chars
      (fun a => p a || PyStr.char_eqb a c1 || PyStr.char_eqb a c2) s.
Proof.
  induction s as [|a r IH]; [done|]. simpl.
  destruct (PyStr.char_eqb a c1) eqn:E1; simpl.
  - rewrite IH. by rewrite orb_true_r.
  - destruct (PyStr.char_eqb a c2) eqn:E2; simpl.
    + rewrite IH. by rewrite orb_true_r.
    + rewrite IH. by rewrite !orb_false_r.
Qed.

(** With only identifier characters, what is left after dropping [_] and [-]
    is non-empty exactly when there is an alphanumeric character. *)
Lemma filter_filter_nonempty s :
  PyStr.all_chars is_id_char s = true ->
  match PyStr.filter_chars (fun a => negb (PyStr.char_eqb a "-"))
          (PyStr.filter_chars (fun a => negb (PyStr.char_eqb a "_")) s) with
  | EmptyString => any_char PyStr.isalnum_char s = false
  | String _ _ => any_char PyStr.isalnum_char s = true
  end.
Proof.
  induction s as [|a r IH]; [done|]. simpl.
  intros [Ha Hr]%andb_true_iff. specialize (IH Hr).
  destruct (PyStr.char_eqb a "_") eqn:E1; simpl.
  - apply bool_decide_eq_true_1 in E1 as ->. exact IH.
  - destruct (PyStr.char_eqb a "-") eqn:E2; simpl.
    + apply bool_decide_eq_true_1 in E2 as ->. exact IH.
    + unfold is_id_char in Ha. rewrite E1, E2, !orb_false_r in Ha.
      by rewrite Ha.
Qed.

End string_lemmas.

Lemma filter_chars_sublist (p : ascii -> bool) (s : string) :
  sublist (list_ascii_of_string (PyStr.filter_chars p s))
          (list_ascii_of_string s).
Proof.
  induction s as [|c r IH]; [constructor|]. simpl.
  destruct (p c); simpl; by constructor.
Qed.

Lemma take_sublist (n : nat) (s : string) :
  sublist (list_ascii_of_string (PyStr.take n s)) (list_ascii_of_string s).
Proof.
  revert s. induction n as [|n IH]; intros [|c r]; simpl;
    try apply sublist_nil_l.
  by constructor.
Qed.

Lemma all_chars_Forall (p : ascii -> bool) (s : string) :
  PyStr.all_chars p s = true
  <-> Forall (fun c => p c = true) (list_ascii_of_string s).
Proof.
  induction s as [|c r IH]; simpl; [by split|].
  rewrite andb_true_iff, Forall_cons. by rewrite IH.
Qed.

(** What [is_kept] says of a character, by its code. *)
Lemma is_kept_code (c : ascii) :
  is_kept c = true
  <-> (32 <= PyStr.ord c)%N \/ c = "010"%char \/ c = "009"%char.
Proof.
  unfold is_kept, PyStr.char_eqb.
  rewrite !orb_true_iff, N.leb_le, !bool_decide_eq_true. tauto.
Qed.

(** X1. [_sanitize_input] returns at most 4096 characters, got from the text
    by deleting characters and keeping the order of the others.  No
    character with a code below 32 is left, newline and tab apart.  The
    codes from 32 on are not removed, the delete character and the codes 128
    to 159 among them: a text of at most 4096 characters without a code
    below 32 other than newline and tab is returned as it is.  Sanitising a
    sanitised text changes nothing. *)
Theorem sanitize_input_clean (text : string) :
  (String.length (_sanitize_input text) <= 4096)%nat
  /\ sublist (list_ascii_of_string (_sanitize_input text))
             (list_ascii_of_string text)
  /\ (forall c,
        c ∈ list_ascii_of_string (_sanitize_input text) ->
        (PyStr.ord c < 32)%N -> c = "010"%char \/ c = "009"%char)
  /\ ((String.length text <= 4096)%nat ->
      (forall c,
         c ∈ list_ascii_of_string text ->
         (32 <= PyStr.ord c)%N \/ c = "010"%char \/ c = "009"%char) ->
      _sanitize_input text = text)
  /\ _sanitize_input (_sanitize_input text) = _sanitize_input text.
Proof.
  assert (Hkept : PyStr.all_chars is_kept (_sanitize_input text) = true).
  { unfold _sanitize_input. fold is_kept.
    apply take_all_chars, filter_all_chars. }
  split; [apply take_length|]. split; [|split; [|split]].
  - unfold _sanitize_input.
    etrans; [apply take_sublist|apply filter_chars_sublist].
  - intros c Hc Hlow. apply all_chars_Forall in Hkept.
    rewrite Forall_forall in Hkept.
    apply Hkept, is_kept_code in Hc as [Hc|Hc]; [lia|done].
  - intros Hlen Hcodes. unfold _sanitize_input. fold is_kept.
    rewrite filter_fixed; [by apply take_short|].
    apply all_chars_Forall, Forall_forall. intros c Hc.
    by apply is_kept_code, Hcodes.
  - unfold _sanitize_input at 1. fold is_kept.
    rewrite (filter_fixed is_kept) by done.
    apply take_short, take_length.
Qed.

(** The bell character goes; the delete character and a control character
    of the range 128 to 159 stay. *)
Example sanitize_input_codes :
  _sanitize_input
    (String "a" (String "007" (String "127" (String "150" "b"))))
  = String "a" (String "127" (String "150" "b")).
Proof. by vm_compute. Qed.

(** X2. [_validate_page_id] accepts exactly the identifiers made of
    alphanumeric characters, [_] and [-] that hold at least one alphanumeric
    character; the empty identifier and identifiers made of [_] and [-] alone
    are rejected. *)
Theorem validate_page_id_charset (page_id : string) :
  _validate_page_id page_id
  = PyStr.all_chars is_id_char page_id
    && any_char PyStr.isalnum_char page_id.
Proof.
  destruct page_id as [|c r]; [done|].
  unfold _validate_page_id.
  change (PyStr.replace "_" EmptyString (String c r))
    with (PyStr.replace (char_str "_") EmptyString (String c r)).
  rewrite replace_char_empty.
  change (PyStr.replace "-" EmptyString ?x)
    with (PyStr.replace (char_str "-") EmptyString x).
  rewrite replace_char_empty.
  pose proof (all_chars_filter_filter PyStr.isalnum_char "_" "-"
                (String c r)) as Hall.
  fold is_id_char in Hall.
  change (fun a => PyStr.isalnum_char a || PyStr.char_eqb a "_"
                   || PyStr.char_eqb a "-") with is_id_char in Hall.
  destruct (PyStr.all_chars is_id_char (String c r)) eqn:Hid.
  - pose proof (filter_filter_nonempty _ Hid) as Hne.
    unfold PyStr.isalnum.
    destruct (PyStr.filter_chars _ (PyStr.filter_chars _ (String c r))).
    + by rewrite Hne.
    + by rewrite Hall, Hne.
  - unfold PyStr.isalnum.
    destruct (PyStr.filter_chars _ (PyStr.filter_chars _ (String c r)));
      [done|]. by rewrite Hall.
Qed.

(** ** More on escaping *)

Lemma problem_chars_plain : Forall (fun c => c <> backslash) problem_chars.
Proof. unfold problem_chars. repeat constructor; discriminate. Qed.

(** X3. [_format_markdown_safe] is idempotent in every parse mode. *)
Theorem format_markdown_safe_idempotent (text : string) (mode : ParseMode) :
  _format_markdown_safe (_format_markdown_safe text mode) mode
  = _format_markdown_safe text mode.
Proof.
  destruct text as [|a r]; [done|]. destruct mode; [| |done].
  - unfold _format_markdown_safe at 2 3. unfold _format_markdown_safe.
    destruct (fold_left escape_char problem_chars (String a r)) eqn:E;
      [done|].
    rewrite <- E. apply fold_escape_idempotent, problem_chars_plain.
  - unfold _format_markdown_safe at 2 3. unfold _escape_markdown.
    unfold _format_markdown_safe, _escape_markdown.
    destruct (fold_left escape_char escape_chars (String a r)) eqn:E;
      [done|].
    rewrite <- E. apply fold_escape_idempotent, escape_chars_plain.
Qed.

Lemma visible_esc (c : ascii) (s : string) :
  c <> backslash -> visible (esc c s) = visible s.
Proof.
  intros Hc. unfold visible.
  assert (Hkeep : negb (PyStr.char_eqb c backslash) = true).
  { unfold PyStr.char_eqb. by rewrite bool_decide_eq_false_2. }
  induction s as [|a r IH]; [done|].
  rewrite esc_cons. destruct (ascii_dec c a) as [<-|].
  - cbn [PyStr.filter_chars].
    change (negb (PyStr.char_eqb backslash backslash)) with false.
    cbn iota. by rewrite Hkeep, IH.
  - cbn [PyStr.filter_chars]. by rewrite IH.
Qed.

Lemma visible_fold_escape (l : list ascii) (s : string) :
  Forall (fun c => c <> backslash) l ->
  visible (fold_left escape_char l s) = visible s.
Proof.
  intros Hl. revert s. induction Hl as [|c l Hc Hl IH]; intros s; [done|].
  simpl. rewrite IH, escape_char_unfold.
  destruct (_ && _); [by apply visible_esc|done].
Qed.

(** X4. Escaping only inserts backslashes: without its backslashes, the
    escaped text is the input without its backslashes, for
    [_escape_markdown] and for [_format_markdown_safe] in every mode. *)
Theorem escaping_keeps_visible_text (text : string) (mode : ParseMode) :
  visible (_escape_markdown text) = visible text
  /\ visible (_format_markdown_safe text mode) = visible text.
Proof.
  assert (H : visible (_escape_markdown text) = visible text).
  { destruct text; [done|].
    apply (visible_fold_escape escape_chars), escape_chars_plain. }
  split; [exact H|].
  destruct text; [done|]. destruct mode; [|exact H|done].
  apply (visible_fold_escape problem_chars), problem_chars_plain.
Qed.

(** X5. [_escape_markdown] leaves a text as it is exactly when every reserved
    character that occurs in it already has an escaped occurrence; in
    particular a text free of reserved characters is never changed, and a
    text with one escaped and one bare underscore is not completed. *)
Theorem escape_markdown_fixed_iff (text : string) :
  _escape_markdown text = text
  <-> Forall (fun c => settled c text) escape_chars.
Proof.
  destruct text as [|a r].
  - split; [|done]. intros _. apply Forall_forall. intros c _ H. done.
  - unfold _escape_markdown. split.
    + intros H.
      pose proof (fold_escape_settles escape_chars (String a r)
                    escape_chars_plain) as Hs.
      by rewrite H in Hs.
    + apply fold_escape_fixed.
Qed.

(** ** Showing a page *)

Lemma format_markdown_safe_spec (x : string) :
  markdown_safe x (_format_markdown_safe x MARKDOWN).
Proof.
  unfold markdown_safe. destruct x as [|a r].
  - split; [done|]. split; [|done].
    apply Forall_forall. intros c _ H. done.
  - cbn [_format_markdown_safe]. split; [|split].
    + apply visible_fold_escape, problem_chars_plain.
    + apply (fold_escape_settles problem_chars), problem_chars_plain.
    + apply (fold_escape_fixed problem_chars).
Qed.

Lemma page_message_sent (update : Update) (text : string)
  (keyboard : list (list InlineKeyboardButton)) :
  _send_page_message update text
    (match keyboard with [] => None | _ => Some keyboard end)
  = page_message update text keyboard.
Proof.
  unfold _send_page_message, page_message. by destruct update as [? []].
Qed.

(** What [show_page] sends once the page to show is known: the requested
    identifier, not the page shown, decides on the Back row. *)
Lemma show_page_resolved (bot : Bot) (update : Update)
  (page_id main now_created now_saved : string) (s : Settings)
  (page : Page.t) :
  settings (database bot) = Some s ->
  main_menu s = Some main ->
  _get_valid_page bot page_id now_created now_saved = inr (page, bot) ->
  exists safe_title safe_content,
    show_page bot update page_id now_created now_saved
    = (bot,
       page_message update
         ("**" +:+ safe_title +:+ "**" +:+ newline +:+ newline
          +:+ safe_content)
         (button_rows (Page.buttons page)
          ++ (if decide (page_id = main) then [] else [back_row])))
    /\ markdown_safe (Page.title page) safe_title
    /\ markdown_safe (Page.content page) safe_content.
Proof.
  intros Hs Hmain Hpage.
  exists (_format_markdown_safe (Page.title page) MARKDOWN),
         (_format_markdown_safe (Page.content page) MARKDOWN).
  split; [|split; apply format_markdown_safe_spec].
  unfold show_page. rewrite Hpage. rewrite <- page_message_sent.
  unfold _create_page_keyboard. rewrite keyboard_rows.
  unfold get_main_menu. rewrite Hs. simpl. rewrite Hmain. simpl.
  destruct (decide (page_id = main)); [by rewrite app_nil_r|done].
Qed.

(** C8. The layout is not as claimed when the requested page is missing.
    With a configured main menu that is stored and a requested identifier
    that is not, [show_page] shows the main menu, title and content each
    made safe and set as [**title**], an empty line and the content, with
    one row per button in stored order, and a Back row after them although
    the page shown is the configured main menu. *)
Theorem show_page_missing_id_back_row (bot : Bot) (update : Update)
  (page_id main now_created now_saved : string) (s : Settings)
  (page : Page.t) :
  settings (database bot) = Some s ->
  main_menu s = Some main ->
  Dict.get main (get_pages (database bot)) = Some page ->
  Dict.get page_id (get_pages (database bot)) = None ->
  exists safe_title safe_content,
    show_page bot update page_id now_created now_saved
    = (bot,
       page_message update
         ("**" +:+ safe_title +:+ "**" +:+ newline +:+ newline
          +:+ safe_content)
         (button_rows (Page.buttons page) ++ [back_row]))
    /\ markdown_safe (Page.title page) safe_title
    /\ markdown_safe (Page.content page) safe_content.
Proof.
  intros Hs Hmain Hpage Hmissing.
  assert (page_id <> main) as Hne by (intros ->; congruence).
  destruct (show_page_resolved bot update page_id main now_created
              now_saved s page Hs Hmain) as (t & c & Hshow & Ht & Hc).
  { unfold _get_valid_page, get_main_menu.
    rewrite Hmissing, Hs. simpl. rewrite Hmain. simpl. by rewrite Hpage. }
  exists t, c. rewrite decide_False in Hshow by done. done.
Qed.

(** A press on a button that leads to a page that is not there, in the
    graph of two pages: the main menu comes with its two buttons and a Back
    row. *)
Lemma show_page_missing_id_back_row_witness :
  exists safe_title safe_content,
    show_page two_page_bot button_press "missing" "t1" "t2"
    = (two_page_bot,
       page_message button_press
         ("**" +:+ safe_title +:+ "**" +:+ newline +:+ newline
          +:+ safe_content)
         (button_rows [stored_button 1; stored_button 2] ++ [back_row]))
    /\ markdown_safe "Menu" safe_title
    /\ markdown_safe "Benvenuto" safe_content.
Proof.
  apply (show_page_missing_id_back_row two_page_bot button_press
           "missing" "main" "t1" "t2"
           {| welcome_message :=
                Some "Benvenuto! Usa i pulsanti per navigare.";
              main_menu := Some "main" |}
           {| Page.title := "Menu"; Page.content := "Benvenuto";
              Page.buttons := [stored_button 1; stored_button 2];
              Page.created_at := "t0"; Page.updated_at := None |});
    reflexivity.
Defined.

Example show_page_missing_id :
  show_page two_page_bot button_press "missing" "t1" "t2"
  = (two_page_bot,
     [edit_message_text ("**Menu**" +:+ newline +:+ newline +:+ "Benvenuto")
        (Some [ [ {| label := "Pulsante 1";
                     callback_data := "back_to_main" |} ];
                [ {| label := "Pulsante 2";
                     callback_data := "back_to_main" |} ];
                [ {| label := "🔙 Indietro";
                     callback_data := "back_to_main" |} ] ])
        (Some MARKDOWN)])
  /\ show_page two_page_bot button_press "main" "t1" "t2"
     = (two_page_bot,
        [edit_message_text
           ("**Menu**" +:+ newline +:+ newline +:+ "Benvenuto")
           (Some [ [ {| label := "Pulsante 1";
                        callback_data := "back_to_main" |} ];
                   [ {| label := "Pulsante 2";
                        callback_data := "back_to_main" |} ] ])
           (Some MARKDOWN)]).
Proof. by vm_compute. Qed.

(** A button may lead to a page that is not there: the action [page_missing]
    passes the check of the button editor, and a press on such a button is
    routed to [show_page] with the identifier [missing]. *)
Example missing_page_is_reachable (st : UsersStore) :
  (_validate_action "page_missing").1 = true
  /\ handle_callback st "page_missing" = Call.show_page "missing".
Proof. split; reflexivity. Qed.

(** The part of the claim that holds: a page that is stored under the
    requested identifier is shown as [**title**], an empty line and the
    content, both made safe, with one row per button in stored order and a
    Back row exactly when the identifier is not the configured main menu. *)
Theorem show_page_renders (bot : Bot) (update : Update)
  (page_id main now_created now_saved : string) (s : Settings)
  (page : Page.t) :
  settings (database bot) = Some s ->
  main_menu s = Some main ->
  Dict.get page_id (get_pages (database bot)) = Some page ->
  exists safe_title safe_content,
    show_page bot update page_id now_created now_saved
    = (bot,
       page_message update
         ("**" +:+ safe_title +:+ "**" +:+ newline +:+ newline
          +:+ safe_content)
         (button_rows (Page.buttons page)
          ++ (if decide (page_id = main) then [] else [back_row])))
    /\ markdown_safe (Page.title page) safe_title
    /\ markdown_safe (Page.content page) safe_content.
Proof.
  intros Hs Hmain Hpage.
  apply (show_page_resolved bot update page_id main now_created now_saved
           s page Hs Hmain).
  unfold _get_valid_page. by rewrite Hpage.
Qed.

(** The round trip of the design document: the page [T] / [C] with one
    button [A], stored under [about]. *)
Example show_page_round_trip :
  show_page roundtrip_bot button_press "about" "t1" "t2"
  = (roundtrip_bot,
     [edit_message_text ("**T**" +:+ newline +:+ newline +:+ "C")
        (Some [ [ {| label := "A"; callback_data := "back_to_main" |} ];
                [ {| label := "🔙 Indietro";
                     callback_data := "back_to_main" |} ] ])
        (Some MARKDOWN)]).
Proof. by vm_compute. Qed.

(** A title with reserved characters. *)
Example show_page_escapes :
  _format_page_content
    {| Page.title := "a*b_c"; Page.content := "[x]";
       Page.buttons := []; Page.created_at := "t0";
       Page.updated_at := None |}
  = "**a\*b\_c**" +:+ newline +:+ newline +:+ "\[x\]".
Proof. by vm_compute. Qed.

(** ** More on creating a page *)

Lemma dict_set_fresh {V : Type} (k : string) (v : V)
  (d : list (string * V)) :
  Dict.get k d = None -> Dict.set k v d = d ++ [(k, v)].
Proof.
  induction d as [|[k' v'] r IH]; simpl; [done|].
  destruct (decide (k = k')); [done|]. intros H. by rewrite IH.
Qed.

Lemma split_length (sep : ascii) (k : nat) (s : string) :
  length (PyStr.split sep k s) = S (Nat.min k (count_char sep s)).
Proof.
  revert k. induction s as [|c r IH]; intros k.
  - simpl. by rewrite Nat.min_0_r.
  - destruct k as [|k]; [done|]. cbn [PyStr.split count_char].
    destruct (PyStr.char_eqb c sep).
    + cbn [length]. rewrite IH. simpl. lia.
    + specialize (IH (S k)).
      destruct (PyStr.split sep (S k) r) as [|p ps]; [done|].
      cbn [length] in *. rewrite IH. simpl. lia.
Qed.

Lemma validate_content_true (content : string) (max_length : nat) :
  (_validate_content content max_length).1 = true ->
  content <> EmptyString
  /\ PyStr.strip content <> EmptyString
  /\ (String.length content <= max_length)%nat.
Proof.
  unfold _validate_content. destruct content as [|c r]; [done|].
  destruct (String.length (PyStr.strip (String c r)) =? 0)%nat eqn:E1;
    [done|].
  destruct (max_length <? String.length (String c r))%nat eqn:E2; [done|].
  intros _. split; [done|]. split.
  - intros H. rewrite H in E1. done.
  - by apply Nat.ltb_ge in E2.
Qed.

(** X6. [create_page_from_text] checks the arity of the text: when the
    sanitised text holds fewer than two [|], the only effect is the format
    error reply. *)
Theorem create_page_needs_three_fields (bot : Bot) (update : Update)
  (text now_created now_saved : string) :
  (count_char "|" (_sanitize_input text) < 2)%nat ->
  create_page_from_text bot update text now_created now_saved
  = (bot, _handle_validation_error update msg_bad_page_format).
Proof.
  intros Hcount. unfold create_page_from_text.
  pose proof (split_length "|" 2 (_sanitize_input text)) as Hlen.
  destruct (PyStr.split "|" 2 (_sanitize_input text))
    as [|f1 [|f2 [|f3 [|f4 rest]]]]; try done.
  cbn [length] in Hlen. lia.
Qed.

Lemma create_page_needs_three_fields_witness :
  create_page_from_text fresh_bot text_message "about|Chi Siamo" "t1" "t2"
  = (fresh_bot, _handle_validation_error text_message msg_bad_page_format).
Proof.
  apply create_page_needs_three_fields. vm_compute. lia.
Defined.

(** X7. Whatever the text, [create_page_from_text] either changes nothing or
    appends exactly one page to the pages table: the new page has no buttons,
    its identifier passes [_validate_page_id] and was not a key before, its
    title has 1 to 100 characters and its content 1 to 4096; the pages
    already there, the actions, the settings and the button counter stay as
    they were. *)
Theorem create_page_outcome (bot : Bot) (update : Update)
  (text now_created now_saved : string) :
  let bot' :=
    (create_page_from_text bot update text now_created now_saved).1 in
  bot' = bot
  \/ exists ps page_id page,
       pages (database bot) = Some ps
       /\ Dict.get page_id ps = None
       /\ _validate_page_id page_id = true
       /\ Page.buttons page = []
       /\ (1 <= String.length (Page.title page) <= 100)%nat
       /\ (1 <= String.length (Page.content page) <= 4096)%nat
       /\ database bot' = with_pages (ps ++ [(page_id, page)]) (database bot)
       /\ button_counter bot' = button_counter bot
       /\ admin_users bot' = admin_users bot.
Proof.
  intros bot'. subst bot'. unfold create_page_from_text.
  destruct (PyStr.split "|" 2 (_sanitize_input text))
    as [|page_id [|title [|content [|f4 rest]]]]; try (by left).
  destruct (_validate_page_id (PyStr.strip page_id)) eqn:Hid; [|by left].
  cbn [negb].
  destruct (_validate_content (PyStr.strip title) 100) as [ok1 e1] eqn:Ht.
  destruct ok1; [|by left]. cbn [negb].
  destruct (_validate_content (PyStr.strip content) 4096)
    as [ok2 e2] eqn:Hc.
  destruct ok2; [|by left]. cbn [negb].
  destruct (Dict.mem _ _) eqn:Hmem; [by left|].
  destruct (pages (database bot)) as [ps|] eqn:Hps; [|by left].
  right. apply dict_mem_false in Hmem. unfold get_pages in Hmem.
  rewrite Hps in Hmem. simpl in Hmem.
  destruct (validate_content_true (PyStr.strip title) 100) as (Ht1 & _ & Ht2);
    [by rewrite Ht|].
  destruct (validate_content_true (PyStr.strip content) 4096)
    as (Hc1 & _ & Hc2); [by rewrite Hc|].
  eexists ps, (PyStr.strip page_id), _.
  split; [done|]. split; [done|]. split; [done|].
  cbn [fst]. rewrite dict_set_fresh by done.
  repeat split; cbn [Page.title Page.content]; try done.
  - destruct (PyStr.strip title); [done|simpl; lia].
  - destruct (PyStr.strip content); [done|simpl; lia].
Qed.

(** *** Creating a page once *)





















(** The stored page of the scenario, and a text with blanks around its
    fields. *)
Example create_page_trims :
  Dict.get "about"
    (get_pages (database
       (create_page_from_text fresh_bot text_message
          " about | Chi Siamo | Testo " "t1" "t2").1))
  = Some {| Page.title := "Chi Siamo"; Page.content := "Testo";
            Page.buttons := []; Page.created_at := "t1";
            Page.updated_at := None |}.
Proof. by vm_compute. Qed.

(** ** The session table *)

(** X8. Opening a session overwrites what the user had: afterwards the user's
    state is the one given, [_is_state_valid] holds for that state and no
    other, the sessions of the other users are untouched, and nothing but the
    session table changes. *)
Theorem set_user_state_then_valid (bot : Bot) (user_id : Z) (st : string)
  (dat : gmap string string) (now : Z) :
  let bot' := _set_user_state user_id st dat now bot in
  _get_user_state bot' user_id = st
  /\ (forall expected,
        _is_state_valid bot' user_id expected = bool_decide (st = expected))
  /\ (forall other, other <> user_id ->
        user_states bot' !! other = user_states bot !! other)
  /\ database bot' = database bot
  /\ editor_mode bot' = editor_mode bot.
Proof.
  intros bot'. subst bot'.
  unfold _get_user_state, _is_state_valid, _set_user_state.
  cbn [user_states with_sessions database editor_mode].
  rewrite lookup_insert_eq. repeat split.
  intros other Hne. by rewrite lookup_insert_ne.
Qed.

(** X9. Clearing a session brings the user back to [waiting]: no state is
    valid for the user any more, also when there was no session, and the
    other users keep theirs. *)
Theorem clear_user_state_then_waiting (bot : Bot) (user_id : Z) :
  let bot' := _clear_user_state user_id bot in
  _get_user_state bot' user_id = "waiting"
  /\ (forall expected, _is_state_valid bot' user_id expected = false)
  /\ (forall other, other <> user_id ->
        user_states bot' !! other = user_states bot !! other)
  /\ database bot' = database bot.
Proof.
  intros bot'. subst bot'.
  unfold _get_user_state, _is_state_valid, _clear_user_state.
  cbn [user_states with_sessions database].
  rewrite lookup_delete_eq. repeat split.
  intros other Hne. by rewrite lookup_delete_ne.
Qed.

Lemma cleanup_lookup (bot : Bot) (now timeout_minutes : Z) (u : Z) :
  user_states (_cleanup_expired_states now timeout_minutes bot) !! u
  = match user_states bot !! u with
    | Some s => if is_expired now timeout_minutes s then None else Some s
    | None => None
    end.
Proof.
  unfold _cleanup_expired_states. cbn [user_states with_sessions].
  rewrite map_lookup_filter.
  destruct (user_states bot !! u) as [s|] eqn:E; [|done]. simpl.
  rewrite E. destruct (is_expired now timeout_minutes s).
  - by rewrite option_guard_False.
  - by rewrite option_guard_True.
Qed.

Lemma cleanup_editor_mode (bot : Bot) (now timeout_minutes : Z) (u : Z) :
  editor_mode (_cleanup_expired_states now timeout_minutes bot) !! u
  = match user_states bot !! u with
    | Some s =>
        if is_expired now timeout_minutes s then None
        else editor_mode bot !! u
    | None => editor_mode bot !! u
    end.
Proof.
  unfold _cleanup_expired_states. cbn [editor_mode with_sessions].
  rewrite map_lookup_filter.
  destruct (editor_mode bot !! u) as [b|] eqn:E; simpl.
  - destruct (user_states bot !! u) as [s|]; [|by rewrite option_guard_True].
    destruct (is_expired now timeout_minutes s).
    + by rewrite option_guard_False.
    + by rewrite option_guard_True.
  - destruct (user_states bot !! u) as [s|]; [|done].
    by destruct (is_expired now timeout_minutes s).
Qed.

(** *** The age of a session as a [float] *)

Lemma nearest_even_cases (n d : Z) :
  0 < d ->
  (nearest_even n d = n / d /\ 2 * (n mod d) <= d)
  \/ (nearest_even n d = n / d + 1 /\ d <= 2 * (n mod d)).
Proof.
  intros Hd. unfold nearest_even.
  destruct (2 * (n mod d) <? d) eqn:E1.
  - apply Z.ltb_lt in E1. left. lia.
  - apply Z.ltb_ge in E1.
    destruct (d <? 2 * (n mod d)) eqn:E2.
    + right. lia.
    + apply Z.ltb_ge in E2. destruct (Z.even (n / d)); [left|right]; lia.
Qed.

Lemma scaled_pos (n d e : Z) :
  0 < n -> 0 < d -> 0 < scaled_num n e /\ 0 < scaled_den d e.
Proof.
  intros Hn Hd. unfold scaled_num, scaled_den.
  destruct (0 <=? e) eqn:E.
  - apply Z.leb_le in E. split; [done|].
    apply Z.mul_pos_pos; [done|]. by apply Z.pow_pos_nonneg.
  - apply Z.leb_gt in E. split; [|done].
    apply Z.mul_pos_pos; [done|]. apply Z.pow_pos_nonneg; lia.
Qed.

(** The quotient at the chosen exponent has 53 bits. *)
Lemma normalised (n d : Z) :
  0 < n -> 0 < d ->
  2 ^ 52 <= scaled_num n (expo (true_divide_pos n d))
            / scaled_den d (expo (true_divide_pos n d)).
Proof.
  intros Hn Hd. unfold true_divide_pos. cbn [expo].
  set (e0 := Z.log2 n - Z.log2 d - 53).
  pose proof (Z.log2_spec n Hn) as [Hn1 Hn2].
  pose proof (Z.log2_spec d Hd) as [Hd1 Hd2].
  pose proof (Z.log2_nonneg n) as Hln.
  pose proof (Z.log2_nonneg d) as Hld.
  assert (H0 : 2 ^ 52 * scaled_den d e0 <= scaled_num n e0).
  { unfold scaled_num, scaled_den. destruct (0 <=? e0) eqn:E.
    - apply Z.leb_le in E.
      assert (2 ^ Z.log2 n = 2 ^ 52 * 2 ^ (Z.log2 d + 1) * 2 ^ e0) as Hpow.
      { rewrite <- !Z.pow_add_r by lia. f_equal. lia. }
      assert (0 < 2 ^ e0) by (apply Z.pow_pos_nonneg; lia).
      nia.
    - apply Z.leb_gt in E.
      assert (2 ^ Z.log2 n * 2 ^ (- e0) = 2 ^ 52 * 2 ^ (Z.log2 d + 1))
        as Hpow.
      { rewrite <- !Z.pow_add_r by lia. f_equal. lia. }
      assert (0 < 2 ^ (- e0)) by (apply Z.pow_pos_nonneg; lia).
      nia. }
  destruct (scaled_pos n d e0 Hn Hd) as [HN0 HD0].
  destruct (_ <? 2 ^ 53) eqn:Hq.
  - apply Z.div_le_lower_bound; [done|]. lia.
  - apply Z.ltb_ge in Hq.
    assert (H1 : 2 ^ 53 * scaled_den d e0 <= scaled_num n e0).
    { pose proof (Z.mul_div_le (scaled_num n e0) (scaled_den d e0) HD0).
      nia. }
    destruct (scaled_pos n d (e0 + 1) Hn Hd) as [HN1 HD1].
    apply Z.div_le_lower_bound; [done|].
    revert H1 HN1 HD1. unfold scaled_num, scaled_den.
    destruct (0 <=? e0) eqn:E; destruct (0 <=? e0 + 1) eqn:E'.
    + apply Z.leb_le in E. rewrite Z.pow_add_r by lia.
      change (2 ^ 53) with (2 ^ 52 * 2). change (2 ^ 1) with 2. nia.
    + apply Z.leb_le in E. apply Z.leb_gt in E'. lia.
    + apply Z.leb_gt in E. apply Z.leb_le in E'.
      replace (- e0) with 1 by lia. replace (e0 + 1) with 0 by lia. lia.
    + apply Z.leb_gt in E. apply Z.leb_gt in E'.
      replace (- e0) with (- (e0 + 1) + 1) by lia.
      rewrite Z.pow_add_r by lia.
      change (2 ^ 53) with (2 ^ 52 * 2). change (2 ^ 1) with 2. nia.
Qed.

Lemma nearest_even_nonneg (n d : Z) : 0 <= n -> 0 < d -> 0 <= nearest_even n d.
Proof.
  intros Hn Hd. pose proof (Z.div_pos n d Hn Hd).
  destruct (nearest_even_cases n d Hd) as [[-> _]|[-> _]]; lia.
Qed.

(** Below [2^33] seconds the float comparison is exact to the microsecond. *)
Lemma total_seconds_exact (us T : Z) :
  0 <= T < 2 ^ 33 ->
  double_gt_int (total_seconds us) T = bool_decide (T * 1000000 < us).
Proof.
  intros [HT0 HT]. unfold total_seconds, true_divide.
  set (d := 1000000) in *.
  assert (Hd : 0 < d) by done.
  destruct (us =? 0) eqn:E0.
  { apply Z.eqb_eq in E0 as ->. unfold double_gt_int. cbn [expo mant].
    simpl (0 <=? 0). cbv iota. rewrite bool_decide_eq_false_2 by lia.
    apply Z.ltb_ge. lia. }
  apply Z.eqb_neq in E0.
  destruct (0 <? us) eqn:Epos.
  2:{ apply Z.ltb_ge in Epos.
      rewrite bool_decide_eq_false_2 by lia.
      assert (0 < - us) as Hn by lia.
      unfold double_gt_int. cbn [expo mant].
      set (x := true_divide_pos (- us) d).
      assert (0 <= mant x) as Hm.
      { unfold x, true_divide_pos. cbn [mant].
        match goal with
        | |- 0 <= nearest_even (scaled_num _ ?e) _ =>
            destruct (scaled_pos (- us) d e Hn Hd)
        end.
        apply nearest_even_nonneg; lia. }
      destruct (0 <=? expo x) eqn:Ee.
      - apply Z.leb_le in Ee. apply Z.ltb_ge.
        assert (0 < 2 ^ expo x) by (by apply Z.pow_pos_nonneg). nia.
      - apply Z.leb_gt in Ee. apply Z.ltb_ge.
        assert (0 < 2 ^ (- expo x)) by (apply Z.pow_pos_nonneg; lia). nia. }
  apply Z.ltb_lt in Epos.
  pose proof (normalised us d Epos Hd) as Hnorm.
  unfold double_gt_int.
  set (x := true_divide_pos us d) in *.
  assert (mant x = nearest_even (scaled_num us (expo x))
                     (scaled_den d (expo x))) as Hmant by done.
  destruct (scaled_pos us d (expo x) Epos Hd) as [HN HD].
  revert Hnorm Hmant HN HD. generalize (mant x) (expo x). clear x.
  intros m e Hnorm -> HN HD.
  set (N := scaled_num us e) in *. set (D := scaled_den d e) in *.
  pose proof (Z.div_mod N D ltac:(lia)) as Hdm.
  pose proof (Z.mod_pos_bound N D HD) as Hr.
  destruct (nearest_even_cases N D HD) as [[-> Hc]|[-> Hc]];
    set (q := N / D) in *; set (r := N mod D) in *;
    unfold N, D, scaled_num, scaled_den in *; clear N D.
  all: destruct (0 <=? e) eqn:Ee;
    [apply Z.leb_le in Ee;
     assert (1 <= 2 ^ e) by (apply (Z.pow_le_mono_r 2 0 e); lia)
    |apply Z.leb_gt in Ee].
  all: try (rewrite bool_decide_eq_true_2 by nia; apply Z.ltb_lt; nia).
  all: destruct (Z.le_gt_cases (- e) 18) as [Hk|Hk].
  all: try (assert (2 ^ (- e) <= 2 ^ 18)
              by (apply Z.pow_le_mono_r; lia);
            assert (0 < 2 ^ (- e)) by (apply Z.pow_pos_nonneg; lia);
            rewrite bool_decide_eq_true_2 by nia; apply Z.ltb_lt; nia).
  all: assert (2 ^ 19 <= 2 ^ (- e)) by (apply Z.pow_le_mono_r; lia).
  all: set (P := 2 ^ (- e)) in *; clearbody P.
  all: case_bool_decide; [apply Z.ltb_lt|apply Z.ltb_ge]; nia.
Qed.

Lemma is_expired_exact (now timeout_minutes : Z) (s : Session) :
  0 <= timeout_minutes * 60 < 2 ^ 33 ->
  is_expired now timeout_minutes s
  = bool_decide (timeout_minutes * 60 * 1000000 < now - timestamp s).
Proof. intros H. unfold is_expired. by apply total_seconds_exact. Qed.

(** Beyond that range the rounding of the age shows: with a timeout of
    [2 * 10^9] minutes, a session one microsecond over the timeout is not
    expired, and one 8 microseconds over is. *)
Example is_expired_rounds :
  is_expired 120000000000000001 2000000000
    {| state := "creating_page"; timestamp := 0; data := ∅ |} = false
  /\ is_expired 120000000000000008 2000000000
       {| state := "creating_page"; timestamp := 0; data := ∅ |} = true.
Proof. by vm_compute. Qed.

(** X10. For a timeout from 0 up to [2^33] seconds the sweep works to the
    microsecond: it removes exactly the sessions whose age is greater than
    the timeout, with the editor flag of their users; a session whose age is
    at most the timeout is kept as it is (the bound itself is not expired),
    and a user without a session keeps the editor flag. *)
Theorem cleanup_expired_states_exact (bot : Bot) (now timeout_minutes : Z)
  (u : Z) :
  0 <= timeout_minutes * 60 < 2 ^ 33 ->
  let bot' := _cleanup_expired_states now timeout_minutes bot in
  (forall s,
     user_states bot' !! u = Some s
     <-> user_states bot !! u = Some s
         /\ now - timestamp s <= timeout_minutes * 60 * 1000000)
  /\ (forall flag,
        editor_mode bot' !! u = Some flag
        <-> editor_mode bot !! u = Some flag
            /\ forall s, user_states bot !! u = Some s ->
                 now - timestamp s <= timeout_minutes * 60 * 1000000)
  /\ database bot' = database bot.
Proof.
  intros Hrange bot'. subst bot'. split; [|split; [|done]].
  - intros s. rewrite cleanup_lookup.
    destruct (user_states bot !! u) as [s'|];
      [|split; [done|by intros [? _]]].
    rewrite (is_expired_exact _ _ _ Hrange). case_bool_decide; split.
    + done.
    + intros [[= ->] ?]. lia.
    + intros [= ->]. split; [done|lia].
    + by intros [? _].
  - intros flag. rewrite cleanup_editor_mode.
    destruct (user_states bot !! u) as [s'|];
      [|split; [by intros ?|by intros [? _]]].
    rewrite (is_expired_exact _ _ _ Hrange). case_bool_decide; split.
    + done.
    + intros [_ H']. specialize (H' s' eq_refl). lia.
    + intros ->. split; [done|]. intros s [= ->]. lia.
    + by intros [? _].
Qed.

Lemma cleanup_expired_states_exact_witness :
  (forall s,
     user_states (_cleanup_expired_states 1800000001 30 editing_bot) !! 42
     = Some s
     <-> user_states editing_bot !! 42 = Some s
         /\ 1800000001 - timestamp s <= 30 * 60 * 1000000)
  /\ (forall flag,
        editor_mode (_cleanup_expired_states 1800000001 30 editing_bot) !! 42
        = Some flag
        <-> editor_mode editing_bot !! 42 = Some flag
            /\ forall s, user_states editing_bot !! 42 = Some s ->
                 1800000001 - timestamp s <= 30 * 60 * 1000000)
  /\ database (_cleanup_expired_states 1800000001 30 editing_bot)
     = database editing_bot.
Proof.
  apply (cleanup_expired_states_exact editing_bot 1800000001 30 42).
  split; [lia|reflexivity].
Defined.

(** In that run the session of user 42, opened at instant 0, is one
    microsecond over the 30 minutes and goes, with the editor flag. *)
Example cleanup_expired_states_example :
  user_states (_cleanup_expired_states 1800000001 30 editing_bot) !! 42 = None
  /\ editor_mode (_cleanup_expired_states 1800000001 30 editing_bot) !! 42
     = None
  /\ user_states (_cleanup_expired_states 1800000000 30 editing_bot) !! 42
     = user_states editing_bot !! 42.
Proof. by vm_compute. Qed.

(** X11. Sweeping twice at the same instant is sweeping once. *)
Theorem cleanup_expired_states_idempotent (bot : Bot)
  (now timeout_minutes : Z) :
  _cleanup_expired_states now timeout_minutes
    (_cleanup_expired_states now timeout_minutes bot)
  = _cleanup_expired_states now timeout_minutes bot.
Proof.
  set (swept := _cleanup_expired_states now timeout_minutes bot).
  assert (Hus : user_states (_cleanup_expired_states now timeout_minutes swept)
                = user_states swept).
  { apply map_eq. intros u. rewrite cleanup_lookup.
    destruct (user_states swept !! u) as [s|] eqn:E; [|done].
    unfold swept in E. rewrite cleanup_lookup in E.
    destruct (user_states bot !! u) as [s'|]; [|done].
    destruct (is_expired now timeout_minutes s') eqn:Hx; [done|].
    apply (inj Some) in E as <-. by rewrite Hx. }
  assert (Hem : editor_mode (_cleanup_expired_states now timeout_minutes swept)
                = editor_mode swept).
  { apply map_eq. intros u. rewrite cleanup_editor_mode.
    destruct (user_states swept !! u) as [s|] eqn:E; [|done].
    unfold swept in E. rewrite cleanup_lookup in E.
    destruct (user_states bot !! u) as [s'|]; [|done].
    destruct (is_expired now timeout_minutes s') eqn:Hx; [done|].
    apply (inj Some) in E as <-. by rewrite Hx. }
  unfold _cleanup_expired_states at 1. fold swept.
  unfold _cleanup_expired_states in Hus, Hem.
  cbn [user_states editor_mode with_sessions] in Hus, Hem.
  unfold with_sessions. rewrite Hus, Hem. by destruct swept.
Qed.

(** ** Finding and adding buttons *)

Lemma find_button_none (bid : string) (bs : list Button.t) :
  find_button bid bs = None
  <-> Forall (fun b => Button.id b <> Some bid) bs.
Proof.
  induction bs as [|b r IH]; simpl; [by split|].
  destruct (decide (Button.id b = Some bid)) as [Hb|Hb].
  - split; [done|]. by intros [? _]%Forall_cons.
  - rewrite IH. split; [by constructor|]. by intros [_ ?]%Forall_cons.
Qed.

Lemma find_button_some (bid : string) (bs : list Button.t) (b : Button.t) :
  find_button bid bs = Some b -> b ∈ bs /\ Button.id b = Some bid.
Proof.
  intros (before & after & -> & Hid & _)%find_button_split.
  split; [|done]. apply elem_of_app. right. apply list_elem_of_here.
Qed.

Lemma find_button_in_pages_none (bid : string) (ps : list (string * Page.t)) :
  find_button_in_pages bid ps = None
  <-> forall kp b, kp ∈ ps -> b ∈ Page.buttons kp.2 ->
        Button.id b <> Some bid.
Proof.
  induction ps as [|[k p] r IH]; simpl.
  - split; [|done]. intros _ kp b Hkp. by apply not_elem_of_nil in Hkp.
  - destruct (find_button bid (Page.buttons p)) as [b'|] eqn:E.
    + split; [done|]. intros H.
      apply find_button_some in E as [Hin Hid].
      by destruct (H (k, p) b' (list_elem_of_here _ _) Hin).
    + rewrite IH. apply find_button_none in E. split.
      * intros H kp b [->|Hkp]%elem_of_cons Hb.
        -- eapply Forall_forall in E; [exact E|exact Hb].
        -- by eapply H.
      * intros H kp b Hkp. apply H. by apply list_elem_of_further.
Qed.

Lemma find_button_in_pages_some (bid : string) (ps : list (string * Page.t))
  (page_id : string) (b : Button.t) :
  find_button_in_pages bid ps = Some (page_id, b) ->
  Button.id b = Some bid
  /\ exists page, (page_id, page) ∈ ps /\ b ∈ Page.buttons page.
Proof.
  induction ps as [|[k p] r IH]; simpl; [done|].
  destruct (find_button bid (Page.buttons p)) as [b'|] eqn:E.
  - intros [= -> ->]. apply find_button_some in E as [Hin Hid].
    split; [done|]. exists p. split; [apply list_elem_of_here|done].
  - intros (Hid & page & Hin & Hb)%IH. split; [done|].
    exists page. split; [by apply list_elem_of_further|done].
Qed.

(** X12. [_find_button_by_id] is a complete scan: it answers [None] exactly
    when no button of any page carries the identifier, and a button it
    returns carries the identifier and stands in the button list of a page
    stored under the returned key. *)
Theorem find_button_by_id_complete (bot : Bot) (bid : string) :
  (_find_button_by_id bot bid = None
   <-> forall kp b,
         kp ∈ get_pages (database bot) -> b ∈ Page.buttons kp.2 ->
         Button.id b <> Some bid)
  /\ (forall page_id b,
        _find_button_by_id bot bid = Some (page_id, b) ->
        Button.id b = Some bid
        /\ exists page,
             (page_id, page) ∈ get_pages (database bot)
             /\ b ∈ Page.buttons page).
Proof.
  unfold _find_button_by_id. split.
  - apply find_button_in_pages_none.
  - intros page_id b. apply find_button_in_pages_some.
Qed.

Lemma dict_get_elem {V : Type} (k : string) (v : V)
  (d : list (string * V)) :
  Dict.get k d = Some v -> (k, v) ∈ d.
Proof.
  induction d as [|[k' v'] r IH]; simpl; [done|].
  destruct (decide (k = k')) as [->|].
  - intros [= ->]. apply list_elem_of_here.
  - intros H. apply list_elem_of_further. auto.
Qed.

Lemma elem_of_dict_set {V : Type} (k : string) (v : V)
  (d : list (string * V)) (x : string * V) :
  x ∈ Dict.set k v d -> x ∈ d \/ x = (k, v).
Proof.
  induction d as [|[k' v'] r IH]; simpl.
  - intros ->%list_elem_of_singleton. by right.
  - destruct (decide (k = k')) as [->|].
    + intros [->|H]%elem_of_cons; [by right|].
      left. by apply list_elem_of_further.
    + intros [->|H]%elem_of_cons; [left; apply list_elem_of_here|].
      destruct (IH H) as [?|?]; [left|by right].
      by apply list_elem_of_further.
Qed.

Lemma validate_button_text_true (text : string) :
  (_validate_button_text text).1 = true ->
  (1 <= String.length text <= 64)%nat.
Proof.
  unfold _validate_button_text. destruct text as [|c r]; [done|].
  destruct (String.length (PyStr.strip (String c r)) =? 0)%nat; [done|].
  destruct (64 <? String.length (String c r))%nat eqn:E; [done|].
  apply Nat.ltb_ge in E. simpl in *. lia.
Qed.

Lemma validate_action_true (action : string) :
  (_validate_action action).1 = true ->
  (1 <= String.length action <= 128)%nat.
Proof.
  unfold _validate_action. destruct action as [|c r]; [done|].
  destruct (String.length (PyStr.strip (String c r)) =? 0)%nat; [done|].
  destruct (128 <? String.length (String c r))%nat eqn:E; [done|].
  apply Nat.ltb_ge in E. simpl in *. lia.
Qed.

(** The two ways [create_button_from_text] can end. *)
Lemma create_button_cases (bot : Bot) (ctx : gmap string PyVal)
  (update : Update) (text now_created now_saved : string) :
  let '(bot', ctx', _) :=
    create_button_from_text bot ctx update text now_created now_saved in
  (bot' = bot /\ ctx' = ctx)
  \/ exists ps page_id page new,
       pages (database bot) = Some ps
       /\ ctx !! ("adding_button_"
                  +:+ PyStr.str_of_int (effective_user update))
          = Some (PStr page_id)
       /\ Dict.get page_id ps = Some page
       /\ Button.id new
          = Some ("btn_" +:+ PyStr.str_of_int (button_counter bot))
       /\ (1 <= String.length (Button.text new) <= 64)%nat
       /\ (1 <= String.length (Button.action new) <= 128)%nat
       /\ Forall (fun b => PyStr.strip (Button.text b) <> Button.text new)
                 (Page.buttons page)
       /\ database bot'
          = with_pages
              (Dict.set page_id
                 (Page.with_buttons (Page.buttons page ++ [new]) page) ps)
              (database bot)
       /\ button_counter bot' = button_counter bot + 1
       /\ ctx' = delete ("adding_button_"
                         +:+ PyStr.str_of_int (effective_user update)) ctx.
Proof.
  unfold create_button_from_text.
  destruct (PyStr.split "|" 1 (_sanitize_input text))
    as [|button_text [|action [|f3 rest]]]; try (by left).
  destruct (ctx !! _) as [v|] eqn:Hctx; [|by left].
  destruct (truthy v) eqn:Htruthy; [|by left].
  destruct (pages (database bot)) as [ps|] eqn:Hps; [|by left].
  destruct v as [page_id| |]; try (by left).
  destruct (Dict.get page_id ps) as [page|] eqn:Hget; [|by left].
  destruct (_validate_button_text (PyStr.strip button_text))
    as [ok1 e1] eqn:Ht.
  destruct ok1; [|by left]. cbn [negb].
  destruct (_validate_action (PyStr.strip action)) as [ok2 e2] eqn:Ha.
  destruct ok2; [|by left]. cbn [negb].
  destruct (existsb _ (Page.buttons page)) eqn:Hdup; [by left|].
  right.
  exists ps, page_id, page,
    {| Button.id := Some ("btn_" +:+ PyStr.str_of_int (button_counter bot));
       Button.text := PyStr.strip button_text;
       Button.action := PyStr.strip action;
       Button.created_at := Some now_created;
       Button.updated_at := None |}.
  split; [done|]. split; [done|]. split; [done|].
  split; [reflexivity|]. cbn [Button.text Button.action].
  split; [apply validate_button_text_true; by rewrite Ht|].
  split; [apply validate_action_true; by rewrite Ha|].
  split; [|done].
  apply Forall_forall. intros b Hb Heq.
  assert (existsb
            (fun b => bool_decide
               (PyStr.strip (Button.text b) = PyStr.strip button_text))
            (Page.buttons page) = true) as Hex; [|congruence].
  apply existsb_exists. exists b. split.
  - by apply list_elem_of_In.
  - by apply bool_decide_eq_true_2.
Qed.

(** X13. Whatever the text and the context, [create_button_from_text] either
    changes neither the bot nor the context or appends exactly one button to
    the page named in the context: the button carries the identifier
    [btn_] followed by the counter, a text of 1 to 64 and an action of 1 to
    128 characters, and a text no button of that page had; the counter goes
    up by one and the context entry is removed. *)
Theorem create_button_outcome (bot : Bot) (ctx : gmap string PyVal)
  (update : Update) (text now_created now_saved : string) :
  let '(bot', ctx', _) :=
    create_button_from_text bot ctx update text now_created now_saved in
  (bot' = bot /\ ctx' = ctx)
  \/ exists ps page_id page new,
       pages (database bot) = Some ps
       /\ ctx !! ("adding_button_"
                  +:+ PyStr.str_of_int (effective_user update))
          = Some (PStr page_id)
       /\ Dict.get page_id ps = Some page
       /\ Button.id new
          = Some ("btn_" +:+ PyStr.str_of_int (button_counter bot))
       /\ (1 <= String.length (Button.text new) <= 64)%nat
       /\ (1 <= String.length (Button.action new) <= 128)%nat
       /\ Forall (fun b => PyStr.strip (Button.text b) <> Button.text new)
                 (Page.buttons page)
       /\ database bot'
          = with_pages
              (Dict.set page_id
                 (Page.with_buttons (Page.buttons page ++ [new]) page) ps)
              (database bot)
       /\ button_counter bot' = button_counter bot + 1
       /\ ctx' = delete ("adding_button_"
                         +:+ PyStr.str_of_int (effective_user update)) ctx.
Proof. apply create_button_cases. Qed.

(** X14. Within one run the identifiers stay unique: when every identifier
    [btn_n] of the graph has [n] below the counter, the identifier the next
    button gets is carried by no button yet, and
    [create_button_from_text] keeps the counter above all identifiers. *)
Theorem create_button_keeps_ids_fresh (bot : Bot) (ctx : gmap string PyVal)
  (update : Update) (text now_created now_saved : string) :
  ids_below_counter bot ->
  _find_button_by_id bot (_generate_button_id bot).1 = None
  /\ ids_below_counter
       (create_button_from_text bot ctx update text now_created now_saved).1.1.
Proof.
  intros Hinv. split.
  - apply find_button_in_pages_none. intros kp b Hkp Hb Hid.
    specialize (Hinv kp b _ Hkp Hb Hid). lia.
  - pose proof (create_button_cases bot ctx update text now_created
                  now_saved) as Hcases.
    destruct (create_button_from_text _ _ _ _ _ _) as [[bot' ctx'] eff].
    cbn [fst].
    destruct Hcases as [[-> _]|(ps & page_id & page & new & Hps & _ & Hget
      & Hnew & _ & _ & _ & Hdb & Hcount & _)]; [done|].
    intros kp b n Hkp Hb Hid. rewrite Hcount.
    assert (Hold : forall kp', kp' ∈ ps -> b ∈ Page.buttons kp'.2 ->
                                 n < button_counter bot).
    { intros kp' Hkp' Hb'. apply (Hinv kp' b n); [|done..].
      unfold get_pages. by rewrite Hps. }
    rewrite Hdb in Hkp. unfold get_pages in Hkp. cbn in Hkp.
    apply elem_of_dict_set in Hkp as [Hkp| ->].
    + specialize (Hold kp Hkp Hb). lia.
    + cbn in Hb. apply elem_of_app in Hb as [Hb|Hb].
      * specialize (Hold (page_id, page) (dict_get_elem _ _ _ Hget) Hb). lia.
      * apply list_elem_of_singleton in Hb as ->.
        rewrite Hnew in Hid. apply (inj Some) in Hid.
        apply (inj (String.append "btn_")) in Hid.
        apply (inj pretty) in Hid. lia.
Qed.

Lemma create_button_keeps_ids_fresh_witness :
  _find_button_by_id counted_bot (_generate_button_id counted_bot).1 = None
  /\ ids_below_counter
       (create_button_from_text counted_bot
          {[ "adding_button_42" := PStr "about" ]} text_message
          "Nuovo|back_to_main" "t1" "t2").1.1.
Proof.
  apply (create_button_keeps_ids_fresh counted_bot
           {[ "adding_button_42" := PStr "about" ]} text_message
           "Nuovo|back_to_main" "t1" "t2").
  intros kp b n Hkp Hb Hid.
  assert (exists k, k < 4 /\ b = stored_button k) as (k & Hk & ->).
  { apply elem_of_cons in Hkp as [->|Hkp].
    - apply elem_of_cons in Hb as [->|Hb]; [exists 1; split; [lia|done]|].
      apply elem_of_cons in Hb as [->|Hb]; [exists 2; split; [lia|done]|].
      by apply elem_of_nil in Hb.
    - apply elem_of_cons in Hkp as [->|Hkp]; [|by apply elem_of_nil in Hkp].
      apply elem_of_cons in Hb as [->|Hb]; [exists 3; split; [lia|done]|].
      by apply elem_of_nil in Hb. }
  apply (inj Some) in Hid. apply (inj (String.append "btn_")) in Hid.
  apply (inj pretty) in Hid. change (button_counter counted_bot) with 4. lia.
Defined.

(** The next button of that run is [btn_4]. *)
Example create_button_in_counted_run :
  (fun found => (found.1, Button.id found.2))
    <$> _find_button_by_id
          (create_button_from_text counted_bot
             {[ "adding_button_42" := PStr "about" ]} text_message
             "Nuovo|back_to_main" "t1" "t2").1.1 "btn_4"
  = Some ("about", Some "btn_4").
Proof. vm_compute. done. Qed.

(** ** More on resolving a page and on the main menu *)

(** X15. A page that [_get_valid_page] returns is stored in the graph after
    the call, under the requested identifier, under the configured main menu
    or under [main]. *)
Theorem get_valid_page_is_stored (bot bot' : Bot)
  (page_id now_created now_saved : string) (page : Page.t) :
  _get_valid_page bot page_id now_created now_saved = inr (page, bot') ->
  exists k,
    Dict.get k (get_pages (database bot')) = Some page
    /\ (k = page_id \/ k = get_main_menu (database bot) \/ k = "main").
Proof.
  unfold _get_valid_page.
  destruct (Dict.get page_id _) as [p|] eqn:E1.
  { intros [= <- <-]. exists page_id. auto. }
  destruct (Dict.get (get_main_menu _) _) as [p|] eqn:E2.
  { intros [= <- <-]. exists (get_main_menu (database bot)). auto. }
  unfold _create_default_page.
  destruct (pages (database bot)) as [ps|]; [|done].
  intros [= <- <-]. exists "main". split; [|auto].
  apply dict_get_set_eq.
Qed.

Lemma get_valid_page_is_stored_witness :
  exists k,
    Dict.get k (get_pages (database healed_bot)) = Some (default_page "t1")
    /\ (k = "home" \/ k = get_main_menu (database empty_bot)
        \/ k = "main").
Proof.
  apply (get_valid_page_is_stored empty_bot healed_bot "home" "t1" "t2"
           (default_page "t1")).
  reflexivity.
Defined.

(** X16. With the main menu configured as [main], resolving is stable: a
    second resolution of the same identifier returns the same page and
    changes nothing, also right after the default page was synthesized. *)
Theorem get_valid_page_stable (bot bot' : Bot)
  (page_id now_created now_saved now_created' now_saved' : string)
  (page : Page.t) :
  get_main_menu (database bot) = "main" ->
  _get_valid_page bot page_id now_created now_saved = inr (page, bot') ->
  _get_valid_page bot' page_id now_created' now_saved' = inr (page, bot').
Proof.
  intros Hmain. unfold _get_valid_page. rewrite Hmain.
  destruct (Dict.get page_id _) as [p|] eqn:E1.
  { intros [= <- <-]. by rewrite Hmain, E1. }
  destruct (Dict.get "main" _) as [p|] eqn:E2.
  { intros [= <- <-]. by rewrite Hmain, E1, E2. }
  unfold _create_default_page.
  destruct (pages (database bot)) as [ps|] eqn:Hps; [|done].
  intros [= <- <-].
  change (get_main_menu (database (save_database now_saved _)))
    with (get_main_menu (database bot)).
  rewrite Hmain.
  change (get_pages (database (save_database now_saved _)))
    with (Dict.set "main" (default_page now_created) ps).
  destruct (decide (page_id = "main")) as [->|Hne].
  - by rewrite dict_get_set_eq.
  - rewrite dict_get_set_ne by done.
    unfold get_pages in E1. rewrite Hps in E1. cbn in E1. rewrite E1.
    by rewrite dict_get_set_eq.
Qed.

Lemma get_valid_page_stable_witness :
  _get_valid_page healed_bot "home" "t3" "t4"
  = inr (default_page "t1", healed_bot).
Proof.
  apply (get_valid_page_stable empty_bot healed_bot "home" "t1" "t2"
           "t3" "t4" (default_page "t1")); reflexivity.
Defined.

(** X17. [set_main_menu_page] on a stored page makes it the main menu without
    touching the pages: from then on its keyboard has no Back row and every
    missing identifier resolves to it.  An unknown page, or a store without
    a settings table, changes nothing. *)
Theorem set_main_menu_page_takes_effect (bot : Bot)
  (page_id now_saved : string) (ps : list (string * Page.t))
  (page : Page.t) (s : Settings) :
  pages (database bot) = Some ps ->
  Dict.get page_id ps = Some page ->
  settings (database bot) = Some s ->
  exists bot' confirmation,
    set_main_menu_page bot page_id now_saved = inr (bot', [confirmation])
    /\ get_main_menu (database bot') = page_id
    /\ pages (database bot') = Some ps
    /\ actions (database bot') = actions (database bot)
    /\ _create_page_keyboard bot' page page_id
       = button_rows (Page.buttons page)
    /\ forall missing now_created now_saved',
         Dict.get missing ps = None ->
         _get_valid_page bot' missing now_created now_saved'
         = inr (page, bot').
Proof.
  intros Hps Hget Hs. unfold set_main_menu_page. rewrite Hps, Hget, Hs.
  eexists _, _. split; [reflexivity|].
  cbn [database save_database with_database with_settings pages actions].
  split; [done|]. split; [done|]. split; [done|]. split.
  - unfold _create_page_keyboard. rewrite keyboard_rows.
    cbn [database save_database with_database].
    change (get_main_menu (with_settings _ _)) with page_id.
    rewrite decide_True by done. done.
  - intros missing t1 t2 Hmiss. unfold _get_valid_page, get_pages.
    cbn [database save_database with_database with_settings pages].
    rewrite Hps. simpl. rewrite Hmiss.
    change (get_main_menu _) with page_id. by rewrite Hget.
Qed.

Lemma set_main_menu_page_takes_effect_witness :
  exists bot' confirmation,
    set_main_menu_page roundtrip_bot "about" "t1"
    = inr (bot', [confirmation])
    /\ get_main_menu (database bot') = "about"
    /\ pages (database bot')
       = Some [("main", default_page "t0"); ("about", roundtrip_page)]
    /\ actions (database bot') = actions (database roundtrip_bot)
    /\ _create_page_keyboard bot' roundtrip_page "about"
       = button_rows (Page.buttons roundtrip_page)
    /\ forall missing now_created now_saved',
         Dict.get missing
           [("main", default_page "t0"); ("about", roundtrip_page)] = None ->
         _get_valid_page bot' missing now_created now_saved'
         = inr (roundtrip_page, bot').
Proof.
  exact (set_main_menu_page_takes_effect roundtrip_bot "about" "t1" _
           roundtrip_page _ eq_refl eq_refl eq_refl).
Defined.

Lemma set_main_menu_page_rejects (bot : Bot) (page_id now_saved : string) :
  Dict.get page_id (get_pages (database bot)) = None
  \/ settings (database bot) = None ->
  match set_main_menu_page bot page_id now_saved with
  | inl _ => True
  | inr (bot', _) => bot' = bot
  end.
Proof.
  unfold set_main_menu_page, get_pages.
  destruct (pages (database bot)) as [ps|]; [|done]. cbn.
  destruct (Dict.get page_id ps); [|done].
  intros [H|H]; [done|by rewrite H].
Qed.

(** ** Routing a button press *)

Lemma prefix_empty (s : string) : String.prefix EmptyString s = true.
Proof. by destruct s. Qed.


Lemma replace_go_absent (old new s : string) :
  PyStr.str_in old s = false -> PyStr.replace_go old new O s = s.
Proof.
  induction s as [|c r IH]; [done|].
  rewrite str_in_cons. intros [Hp Hr]%orb_false_iff.
  cbn [PyStr.replace_go]. rewrite Hp. by rewrite IH.
Qed.

Lemma replace_go_skip (old new s1 s2 : string) :
  PyStr.replace_go old new (String.length s1) (s1 +:+ s2)
  = PyStr.replace_go old new O s2.
Proof. induction s1 as [|c r IH]; [done|]. exact IH. Qed.

(** Cutting a prefix off with [replace] gives back what follows it, when the
    prefix does not occur there again. *)
Lemma without_prefix (c : ascii) (p rest : string) :
  PyStr.str_in (String c p) rest = false ->
  without (String c p) (String c p +:+ rest) = rest.
Proof.
  intros Habsent. unfold without, PyStr.replace.
  change (String c p +:+ rest) with (String c (p +:+ rest)).
  cbn [PyStr.replace_go].
  change (String c (p +:+ rest)) with (String c p +:+ rest).
  rewrite prefix_app.
  change (String.length (String c p) - 1)%nat with (String.length p - 0)%nat.
  rewrite Nat.sub_0_r, replace_go_skip.
  by rewrite replace_go_absent.
Qed.



Example role_buttons_are_not_recognised (st : UsersStore) :
  handle_callback st "set_role_42_admin"
  = handle_editor_callback "set_role_42_admin"
  /\ (exists m, handle_callback st "set_role_42_admin" = Call.unrecognized m)
  /\ (exists m, handle_callback st "user_details_42" = Call.unrecognized m)
  /\ (exists m, handle_callback st "edit_welcome" = Call.unrecognized m)
  /\ (exists m, handle_callback st "add_admin" = Call.unrecognized m)
  /\ handle_callback st "admin_back" = Call.admin_command
  /\ handle_callback st "back_to_main" = Call.show_page "main".
Proof. repeat split; try reflexivity; eexists; reflexivity. Qed.

(** Called on its own, the user-details branch looks the user up. *)
Example user_details_lookup :
  handle_users_callback one_user_store "user_details_42"
  = Call.show_user_details "42" known_user
  /\ handle_users_callback one_user_store "user_details_7"
     = Call.user_not_found.
Proof. by vm_compute. Qed.

Lemma token_family_routed (st : UsersStore) (c : ascii) (p id : string)
  (call : string -> Call.t) :
  (String c p, call) ∈ token_families ->
  handle_callback st (String c p +:+ id)
  = call (without (String c p) (String c p +:+ id)).
Proof.
  unfold token_families. intros H.
  repeat (apply elem_of_cons in H as [Heq|H];
    [simplify_eq; by destruct id|]).
  by apply elem_of_nil in H.
Qed.

(** X19. The tokens the editor keyboards build decode to the call on the
    entity they were built for: for each family, a token made of the family
    prefix and an identifier in which the prefix does not occur is routed to
    the family's handler with exactly that identifier. *)
Theorem token_round_trip (st : UsersStore) (prefix id : string)
  (call : string -> Call.t) :
  (prefix, call) ∈ token_families ->
  PyStr.str_in prefix id = false ->
  handle_callback st (prefix +:+ id) = call id.
Proof.
  intros Hfam Habsent.
  assert (exists c p, prefix = String c p) as (c & p & ->).
  { destruct prefix as [|c p]; [|by eauto].
    unfold token_families in Hfam.
    repeat (apply elem_of_cons in Hfam as [Heq|Hfam]; [by simplify_eq|]).
    by apply elem_of_nil in Hfam. }
  rewrite (token_family_routed st c p id call Hfam).
  by rewrite without_prefix.
Qed.

Lemma token_round_trip_witness :
  handle_callback one_user_store ("edit_page_" +:+ "about")
  = Call.start_edit_specific_page "about".
Proof.
  apply (token_round_trip one_user_store "edit_page_" "about"
           Call.start_edit_specific_page).
  - unfold token_families. apply list_elem_of_here.
  - reflexivity.
Defined.

(** Where the prefix occurs again in the identifier, the decoding loses it:
    [replace] cuts every occurrence. *)
Example token_decoding_is_lossy (st : UsersStore) :
  handle_callback st "edit_page_my_edit_page_x"
  = Call.start_edit_specific_page "my_x"
  /\ handle_callback st "page_home_page_2" = Call.show_page "home_2".
Proof. split; reflexivity. Qed.

(** ** Roles and the admin set *)

Lemma elem_of_admin_keys (us : gmap string User) (k : string) :
  k ∈ admin_keys us <-> exists u, us !! k = Some u /\ role u = "admin".
Proof.
  unfold admin_keys. rewrite list_elem_of_fmap. split.
  - intros ([k' u] & -> & [Hrole Hin]%list_elem_of_filter).
    apply elem_of_map_to_list in Hin. by exists u.
  - intros (u & Hk & Hrole). exists (k, u). split; [done|].
    apply list_elem_of_filter. split; [done|].
    by apply elem_of_map_to_list.
Qed.

Lemma mapM_elem_of {A B : Type} (f : A -> option B) (l : list A)
  (k : list B) (y : B) :
  mapM f l = Some k -> (y ∈ k <-> exists x, x ∈ l /\ f x = Some y).
Proof.
  intros H%mapM_Some_1. induction H as [|x z l k Hx H IH].
  - split; [by intros ?%elem_of_nil|]. by intros (? & ?%elem_of_nil & _).
  - rewrite elem_of_cons, IH. split.
    + intros [->|(x' & Hin & Hf)].
      * exists x. split; [apply list_elem_of_here|done].
      * exists x'. split; [by apply list_elem_of_further|done].
    + intros (x' & [->|Hin]%elem_of_cons & Hf).
      * left. congruence.
      * right. by exists x'.
Qed.

(** What [_sync_admin_users] computes on a users store with numeral keys. *)
Lemma sync_admin_users_cases (st : UsersStore) (now_saved : string)
  (bot : Bot) :
  numeral_keys (users (users_database st)) ->
  exists bot',
    _sync_admin_users st now_saved bot = Some bot'
    /\ (forall z,
          z ∈ admin_users bot'
          <-> 0 <= z
              /\ exists u,
                   users (users_database st) !! PyStr.str_of_int z = Some u
                   /\ role u = "admin")
    /\ database bot' = database bot
    /\ user_states bot' = user_states bot
    /\ database_file bot'
       = Some {| file_database := database bot;
                 file_admin_users := admin_users bot';
                 file_last_updated := now_saved |}.
Proof.
  intros Hkeys. unfold _sync_admin_users.
  set (us := users (users_database st)) in *.
  destruct (mapM PyStr.int_of_str (admin_keys us)) as [ids|] eqn:Hids.
  - eexists. split; [reflexivity|].
    cbn [admin_users save_database with_admin_users database user_states
         database_file].
    split; [|done]. intros z. rewrite elem_of_list_to_set.
    rewrite (mapM_elem_of _ _ _ z Hids). split.
    + intros (k & (u & Hk & Hrole)%elem_of_admin_keys & Hint).
      destruct (Hkeys k u Hk) as (n & Hn & ->).
      rewrite int_of_str_of_int in Hint by done.
      apply (inj Some) in Hint as ->. eauto.
    + intros (Hz & u & Hk & Hrole). exists (PyStr.str_of_int z).
      split; [apply elem_of_admin_keys; eauto|].
      by apply int_of_str_of_int.
  - exfalso. assert (is_Some (mapM PyStr.int_of_str (admin_keys us))) as Hs.
    + apply mapM_is_Some_2, Forall_forall.
      intros k (u & Hk & _)%elem_of_admin_keys.
      destruct (Hkeys k u Hk) as (n & Hn & ->).
      simpl. rewrite int_of_str_of_int by done. eauto.
    + rewrite Hids in Hs. by destruct Hs.
Qed.

(** X20. On a users store whose keys are the numerals of user identifiers,
    [_sync_admin_users] succeeds and makes the admin set exactly the set of
    users whose role is [admin]; the set is written to the main file with
    the graph, which stays as it was. *)
Theorem sync_admin_users_exact (st : UsersStore) (now_saved : string)
  (bot : Bot) :
  numeral_keys (users (users_database st)) ->
  exists bot',
    _sync_admin_users st now_saved bot = Some bot'
    /\ (forall z,
          z ∈ admin_users bot'
          <-> 0 <= z
              /\ exists u,
                   users (users_database st) !! PyStr.str_of_int z = Some u
                   /\ role u = "admin")
    /\ database bot' = database bot
    /\ user_states bot' = user_states bot
    /\ database_file bot'
       = Some {| file_database := database bot;
                 file_admin_users := admin_users bot';
                 file_last_updated := now_saved |}.
Proof. apply sync_admin_users_cases. Qed.

Lemma numeral_keys_one_user :
  numeral_keys (users (users_database one_user_store)).
Proof.
  intros k u. unfold one_user_store. cbn [users users_database].
  intros [<- _]%lookup_singleton_Some. by exists 42.
Qed.

(** A key that does not parse as an integer and belongs to an admin makes
    the synchronisation fail. *)
Example sync_admin_users_bad_key :
  _sync_admin_users
    {| users_database :=
         {| users := {[ "ada" := known_user ]}; roles := ∅;
            last_updated := "t0" |};
       users_file := None |}
    "t1" fresh_bot
  = None.
Proof. reflexivity. Qed.

(** X21. [set_user_role] on a known user stores the new role and nothing
    else of the record, leaves the other users alone, and resynchronises the
    admin set: afterwards [is_admin] holds for the user exactly when the new
    role is [admin], so a demotion takes the admin rights away at once, and
    an admin holds every permission. *)
Theorem set_user_role_resyncs (st : UsersStore) (bot : Bot) (user_id : Z)
  (new_role now_users_saved now_saved : string) (u : User) :
  numeral_keys (users (users_database st)) ->
  users (users_database st) !! PyStr.str_of_int user_id = Some u ->
  exists st' bot',
    set_user_role st bot user_id new_role now_users_saved now_saved
    = (st', Some bot')
    /\ users (users_database st')
       = <[PyStr.str_of_int user_id := with_role new_role u]>
           (users (users_database st))
    /\ users_file st' = Some (users_database st')
    /\ (forall z,
          z ∈ admin_users bot'
          <-> 0 <= z
              /\ exists u',
                   users (users_database st') !! PyStr.str_of_int z = Some u'
                   /\ role u' = "admin")
    /\ is_admin st' bot' user_id = bool_decide (new_role = "admin")
    /\ (new_role = "admin" ->
        forall permission, has_permission st' user_id permission = true)
    /\ database bot' = database bot.
Proof.
  intros Hkeys Hu. unfold set_user_role. rewrite Hu.
  set (st' := save_users_database _ _).
  assert (Hus : users (users_database st')
                = <[PyStr.str_of_int user_id := with_role new_role u]>
                    (users (users_database st))) by done.
  assert (Hkeys' : numeral_keys (users (users_database st'))).
  { rewrite Hus. intros k v [[<- _]|[_ Hk]]%lookup_insert_Some.
    - by apply (Hkeys _ u).
    - by apply (Hkeys _ v). }
  destruct (sync_admin_users_cases st' now_saved bot Hkeys')
    as (bot' & Hsync & Hadmins & Hdb & _).
  exists st', bot'. rewrite Hsync.
  assert (Hrole : get_user_role st' user_id = new_role).
  { unfold get_user_role. by rewrite Hus, lookup_insert_eq. }
  split; [done|]. split; [done|]. split; [done|].
  split; [exact Hadmins|]. split; [|split; [|done]].
  - unfold is_admin. rewrite Hrole.
    destruct (decide (new_role = "admin")) as [->|Hne].
    + by rewrite orb_true_r.
    + rewrite (bool_decide_eq_false_2 (new_role = _)) by done.
      rewrite orb_false_r. apply bool_decide_eq_false_2.
      intros (_ & u' & Hu' & Hr)%Hadmins.
      rewrite Hus, lookup_insert_eq in Hu'. by simplify_eq/=.
  - intros -> permission. unfold has_permission. by rewrite Hrole.
Qed.

Lemma set_user_role_resyncs_witness :
  exists st' bot',
    set_user_role one_user_store fresh_bot 42 "user" "t1" "t2"
    = (st', Some bot')
    /\ users (users_database st')
       = <["42" := with_role "user" known_user]>
           (users (users_database one_user_store))
    /\ users_file st' = Some (users_database st')
    /\ (forall z,
          z ∈ admin_users bot'
          <-> 0 <= z
              /\ exists u',
                   users (users_database st') !! PyStr.str_of_int z = Some u'
                   /\ role u' = "admin")
    /\ is_admin st' bot' 42 = bool_decide ("user" = "admin")
    /\ ("user" = "admin" ->
        forall permission, has_permission st' 42 permission = true)
    /\ database bot' = database fresh_bot.
Proof.
  exact (set_user_role_resyncs one_user_store fresh_bot 42 "user" "t1" "t2"
           known_user numeral_keys_one_user eq_refl).
Defined.

Lemma sync_admin_users_exact_witness :
  exists bot',
    _sync_admin_users one_user_store "t1" fresh_bot = Some bot'
    /\ (forall z,
          z ∈ admin_users bot'
          <-> 0 <= z
              /\ exists u,
                   users (users_database one_user_store)
                     !! PyStr.str_of_int z = Some u
                   /\ role u = "admin")
    /\ database bot' = database fresh_bot
    /\ user_states bot' = user_states fresh_bot
    /\ database_file bot'
       = Some {| file_database := database fresh_bot;
                 file_admin_users := admin_users bot';
                 file_last_updated := "t1" |}.
Proof.
  exact (sync_admin_users_exact one_user_store "t1" fresh_bot
           numeral_keys_one_user).
Defined.

(** ** Activity tracking *)

Lemma remember_length (cap : nat) (x : string) (seen : list string) :
  (length seen <= cap)%nat -> (length (remember cap x seen) <= cap)%nat.
Proof.
  intros Hlen. unfold remember. case_bool_decide; [done|].
  destruct (cap <? length (seen ++ [x]))%nat eqn:E.
  - rewrite length_tl, length_app. simpl. lia.
  - by apply Nat.ltb_ge in E.
Qed.

Lemma remember_NoDup (cap : nat) (x : string) (seen : list string) :
  NoDup seen -> NoDup (remember cap x seen).
Proof.
  intros Hnd. unfold remember. case_bool_decide as Hin; [done|].
  assert (NoDup (seen ++ [x])) as Hnd'.
  { apply NoDup_app. split; [done|]. split; [|apply NoDup_singleton].
    intros y Hy ->%list_elem_of_singleton. done. }
  destruct (_ <? _)%nat; [|done].
  destruct (seen ++ [x]) as [|y l]; [done|].
  by apply NoDup_cons in Hnd' as [_ ?].
Qed.

Lemma remember_elem (cap : nat) (x : string) (seen : list string) :
  (0 < cap)%nat -> x ∈ remember cap x seen.
Proof.
  intros Hcap. unfold remember. case_bool_decide as Hin; [done|].
  destruct (cap <? length (seen ++ [x]))%nat eqn:E.
  - apply Nat.ltb_lt in E. rewrite length_app in E. simpl in E.
    destruct seen as [|y l]; simpl in *; [lia|].
    apply elem_of_app. right. apply list_elem_of_here.
  - apply elem_of_app. right. apply list_elem_of_here.
Qed.

Lemma remember_from (cap : nat) (x y : string) (seen : list string) :
  y ∈ remember cap x seen -> y ∈ seen \/ y = x.
Proof.
  unfold remember. case_bool_decide; [by left|].
  assert (y ∈ seen ++ [x] -> y ∈ seen \/ y = x) as Happ.
  { intros [?|?%list_elem_of_singleton]%elem_of_app; auto. }
  destruct (_ <? _)%nat; [|done].
  intros Hy. apply Happ.
  destruct (seen ++ [x]) as [|z l]; [done|]. by apply list_elem_of_further.
Qed.

Lemma bump_lookup (k k' : string) (counters : gmap string Z) :
  bump k counters !! k'
  = if decide (k = k') then Some (default 0 (counters !! k) + 1)
    else counters !! k'.
Proof. unfold bump. by rewrite lookup_insert. Qed.

(** X22. [_track_page_view] keeps the history of a user bounded and free of
    repetitions: for a non-empty page identifier the page is in the history
    afterwards, a history of at most 50 entries stays at most 50 long, a
    history without repetitions stays so, no entry appears that is neither
    old nor the page, the view counter of the page goes up by one (from 0
    when the page is new) and no other counter moves.  Every other field of
    the user's record is as it was: the names, the role, the two dates, the
    number of interactions and the clicked buttons. *)
Theorem track_page_view_bounded (user : User) (an : Analytics)
  (page_id : string) :
  page_id <> EmptyString ->
  let '(user', an') := _track_page_view user an (Some page_id) in
  page_id ∈ pages_visited user'
  /\ ((length (pages_visited user) <= 50)%nat ->
      (length (pages_visited user') <= 50)%nat)
  /\ (NoDup (pages_visited user) -> NoDup (pages_visited user'))
  /\ (forall p, p ∈ pages_visited user' ->
        p ∈ pages_visited user \/ p = page_id)
  /\ page_views an' !! page_id
     = Some (default 0 (page_views an !! page_id) + 1)
  /\ (forall other, other <> page_id ->
        page_views an' !! other = page_views an !! other)
  /\ button_clicks an' = button_clicks an
  /\ username user' = username user
  /\ first_name user' = first_name user
  /\ last_name user' = last_name user
  /\ role user' = role user
  /\ registered_at user' = registered_at user
  /\ last_seen user' = last_seen user
  /\ total_interactions user' = total_interactions user
  /\ buttons_clicked user' = buttons_clicked user.
Proof.
  intros Hne. unfold _track_page_view.
  destruct page_id as [|c r]; [done|].
  cbn [pages_visited with_pages_visited page_views button_clicks role
       buttons_clicked username first_name last_name registered_at
       last_seen total_interactions].
  split; [apply remember_elem; lia|].
  split; [apply remember_length|].
  split; [apply remember_NoDup|].
  split; [intros p; apply remember_from|].
  split; [by rewrite bump_lookup, decide_True|].
  split; [|done].
  intros other Hother. by rewrite bump_lookup, decide_False.
Qed.

Lemma track_page_view_bounded_witness :
  let '(user', an') :=
    _track_page_view known_user sample_analytics (Some "about") in
  "about" ∈ pages_visited user'
  /\ ((length (pages_visited known_user) <= 50)%nat ->
      (length (pages_visited user') <= 50)%nat)
  /\ (NoDup (pages_visited known_user) -> NoDup (pages_visited user'))
  /\ (forall p, p ∈ pages_visited user' ->
        p ∈ pages_visited known_user \/ p = "about")
  /\ page_views an' !! "about"
     = Some (default 0 (page_views sample_analytics !! "about") + 1)
  /\ (forall other, other <> "about" ->
        page_views an' !! other = page_views sample_analytics !! other)
  /\ button_clicks an' = button_clicks sample_analytics
  /\ username user' = username known_user
  /\ first_name user' = first_name known_user
  /\ last_name user' = last_name known_user
  /\ role user' = role known_user
  /\ registered_at user' = registered_at known_user
  /\ last_seen user' = last_seen known_user
  /\ total_interactions user' = total_interactions known_user
  /\ buttons_clicked user' = buttons_clicked known_user.
Proof.
  apply (track_page_view_bounded known_user sample_analytics "about").
  discriminate.
Defined.

(** Without a page identifier, or with an empty one, nothing is tracked. *)
Lemma track_page_view_nothing (user : User) (an : Analytics) :
  _track_page_view user an None = (user, an)
  /\ _track_page_view user an (Some EmptyString) = (user, an).
Proof. done. Qed.

(** X23. [_track_button_click] does the same for the clicked buttons with a
    bound of 100, counting a click without a text under ['unknown']: the
    text is in the history afterwards, the bound and the absence of
    repetitions are kept, no other entry appears, the click counter of the
    text goes up by one and no other counter moves.  Every other field of
    the user's record is as it was: the names, the role, the two dates, the
    number of interactions and the visited pages. *)
Theorem track_button_click_bounded (user : User) (an : Analytics)
  (button_text : option string) :
  button_text <> Some EmptyString ->
  let text := default "unknown" button_text in
  let '(user', an') := _track_button_click user an button_text in
  text ∈ buttons_clicked user'
  /\ ((length (buttons_clicked user) <= 100)%nat ->
      (length (buttons_clicked user') <= 100)%nat)
  /\ (NoDup (buttons_clicked user) -> NoDup (buttons_clicked user'))
  /\ (forall t, t ∈ buttons_clicked user' ->
        t ∈ buttons_clicked user \/ t = text)
  /\ button_clicks an' !! text
     = Some (default 0 (button_clicks an !! text) + 1)
  /\ (forall other, other <> text ->
        button_clicks an' !! other = button_clicks an !! other)
  /\ page_views an' = page_views an
  /\ username user' = username user
  /\ first_name user' = first_name user
  /\ last_name user' = last_name user
  /\ role user' = role user
  /\ registered_at user' = registered_at user
  /\ last_seen user' = last_seen user
  /\ total_interactions user' = total_interactions user
  /\ pages_visited user' = pages_visited user.
Proof.
  intros Hne text. unfold _track_button_click. fold text.
  assert (text <> EmptyString) as Htext.
  { subst text. destruct button_text as [[|]|]; done. }
  destruct text as [|c r] eqn:E; [done|].
  cbn [pages_visited with_buttons_clicked page_views button_clicks role
       buttons_clicked username first_name last_name registered_at
       last_seen total_interactions].
  split; [apply remember_elem; lia|].
  split; [apply remember_length|].
  split; [apply remember_NoDup|].
  split; [intros p; apply remember_from|].
  split; [by rewrite bump_lookup, decide_True|].
  split; [|done].
  intros other Hother. by rewrite bump_lookup, decide_False.
Qed.

Lemma track_button_click_bounded_witness :
  let '(user', an') :=
    _track_button_click known_user sample_analytics None in
  "unknown" ∈ buttons_clicked user'
  /\ ((length (buttons_clicked known_user) <= 100)%nat ->
      (length (buttons_clicked user') <= 100)%nat)
  /\ (NoDup (buttons_clicked known_user) -> NoDup (buttons_clicked user'))
  /\ (forall t, t ∈ buttons_clicked user' ->
        t ∈ buttons_clicked known_user \/ t = "unknown")
  /\ button_clicks an' !! "unknown"
     = Some (default 0 (button_clicks sample_analytics !! "unknown") + 1)
  /\ (forall other, other <> "unknown" ->
        button_clicks an' !! other
        = button_clicks sample_analytics !! other)
  /\ page_views an' = page_views sample_analytics
  /\ username user' = username known_user
  /\ first_name user' = first_name known_user
  /\ last_name user' = last_name known_user
  /\ role user' = role known_user
  /\ registered_at user' = registered_at known_user
  /\ last_seen user' = last_seen known_user
  /\ total_interactions user' = total_interactions known_user
  /\ pages_visited user' = pages_visited known_user.
Proof.
  apply (track_button_click_bounded known_user sample_analytics None).
  discriminate.
Defined.

(** ** Editing pages, buttons and actions *)

Lemma split_two (first rest : string) :
  PyStr.str_in "|" first = false ->
  PyStr.split "|" 1 (first +:+ "|" +:+ rest) = [first; rest].
Proof.
  intros H.
  change ("|" +:+ rest) with (String "|" rest).
  rewrite (split_field "|" 0 first rest H). by rewrite split_zero.
Qed.

(** X24. [edit_page_from_text] on [TITLE|CONTENT], for a page named in the
    per-user context and present in the graph, stores the two trimmed fields
    and the time of the change without validating or sanitising them, keeps
    the buttons and the creation time of the page, leaves every other page
    and the order of the pages as they were, drops the context key and
    clears the session of the user. *)
Theorem edit_page_effect (bot : Bot) (ctx : gmap string PyVal)
  (update : Update) (title content now_updated now_saved : string)
  (page_id : string) (page : Page.t) :
  PyStr.str_in "|" title = false ->
  ctx !! ("editing_page_" +:+ PyStr.str_of_int (effective_user update))
    = Some (PStr page_id) ->
  page_id <> EmptyString ->
  Dict.get page_id (get_pages (database bot)) = Some page ->
  let '(bot', ctx', out) :=
    edit_page_from_text bot ctx update (title +:+ "|" +:+ content)
      now_updated now_saved in
  Dict.get page_id (get_pages (database bot'))
    = Some {| Page.title := PyStr.strip title;
              Page.content := PyStr.strip content;
              Page.buttons := Page.buttons page;
              Page.created_at := Page.created_at page;
              Page.updated_at := Some now_updated |}
  /\ (forall q, q <> page_id ->
        Dict.get q (get_pages (database bot'))
        = Dict.get q (get_pages (database bot)))
  /\ (get_pages (database bot')).*1 = (get_pages (database bot)).*1
  /\ actions (database bot') = actions (database bot)
  /\ settings (database bot') = settings (database bot)
  /\ file_database <$> database_file bot' = Some (database bot')
  /\ user_states bot' !! effective_user update = None
  /\ ctx'
     = delete
         ("editing_page_" +:+ PyStr.str_of_int (effective_user update)) ctx
  /\ out = [reply_text
              ("✅ Pagina '" +:+ title +:+ "' aggiornata con successo!")
              None (Some MARKDOWN)].
Proof.
  intros Htitle Hctx Hne Hpage. unfold edit_page_from_text.
  rewrite (split_two _ _ Htitle), Hctx.
  assert (truthy (PStr page_id) = true) as -> by by destruct page_id.
  unfold get_pages in Hpage.
  destruct (pages (database bot)) as [ps|] eqn:Hps; [|done].
  simpl in Hpage. rewrite Hpage.
  cbn [database with_database save_database _clear_user_state with_sessions
       get_pages with_pages pages actions settings database_file
       user_states fmap option_fmap option_map file_database default].
  unfold get_pages. rewrite Hps. simpl.
  split; [apply dict_get_set_eq|].
  split; [intros q Hq; by apply dict_get_set_ne|].
  split; [by apply (dict_set_keys _ _ page)|].
  repeat (split; [done|]).
  split; [apply lookup_delete_eq|done].
Qed.

Lemma edit_page_effect_witness :
  let '(bot', ctx', out) :=
    edit_page_from_text roundtrip_bot editing_ctx text_message
      ("Titolo " +:+ "|" +:+ EmptyString) "t1" "t2" in
  Dict.get "about" (get_pages (database bot'))
    = Some {| Page.title := PyStr.strip "Titolo ";
              Page.content := PyStr.strip EmptyString;
              Page.buttons := Page.buttons roundtrip_page;
              Page.created_at := Page.created_at roundtrip_page;
              Page.updated_at := Some "t1" |}
  /\ (forall q, q <> "about" ->
        Dict.get q (get_pages (database bot'))
        = Dict.get q (get_pages (database roundtrip_bot)))
  /\ (get_pages (database bot')).*1
     = (get_pages (database roundtrip_bot)).*1
  /\ actions (database bot') = actions (database roundtrip_bot)
  /\ settings (database bot') = settings (database roundtrip_bot)
  /\ file_database <$> database_file bot' = Some (database bot')
  /\ user_states bot' !! effective_user text_message = None
  /\ ctx'
     = delete
         ("editing_page_"
          +:+ PyStr.str_of_int (effective_user text_message)) editing_ctx
  /\ out = [reply_text
              ("✅ Pagina '" +:+ "Titolo "
               +:+ "' aggiornata con successo!")
              None (Some MARKDOWN)].
Proof.
  apply (edit_page_effect roundtrip_bot editing_ctx text_message
           "Titolo " EmptyString "t1" "t2" "about" roundtrip_page).
  - reflexivity.
  - vm_compute. reflexivity.
  - discriminate.
  - reflexivity.
Defined.

(** Editing stores what creating refuses: an empty content. *)
Example edit_page_stores_empty_content :
  Page.content
    <$> Dict.get "about"
          (get_pages (database
             (edit_page_from_text roundtrip_bot editing_ctx text_message
                "Titolo |" "t1" "t2").1.1))
  = Some EmptyString
  /\ (_validate_content EmptyString 4096).1 = false.
Proof. vm_compute. done. Qed.

Section alter.
Variable f : Button.t -> Button.t.
Hypothesis f_id : forall b, Button.id (f b) = Button.id b.

Lemma find_button_alter (bid : string) (bs : list Button.t) (b : Button.t) :
  find_button bid bs = Some b ->
  find_button bid (alter_button bid f bs) = Some (f b).
Proof.
  induction bs as [|x r IH]; simpl; [done|].
  destruct (decide (Button.id x = Some bid)) as [Hx|Hx].
  - intros [= ->]. simpl. by rewrite decide_True by by rewrite f_id.
  - intros H. simpl. rewrite decide_False by done. auto.
Qed.

Lemma find_button_alter_none (bid : string) (bs : list Button.t) :
  find_button bid bs = None -> alter_button bid f bs = bs.
Proof.
  induction bs as [|x r IH]; simpl; [done|].
  destruct (decide (Button.id x = Some bid)); [done|].
  intros H. by rewrite IH.
Qed.

Lemma find_button_alter_ne (bid bid' : string) (bs : list Button.t) :
  bid' <> bid ->
  find_button bid' (alter_button bid f bs) = find_button bid' bs.
Proof.
  intros Hne. induction bs as [|x r IH]; simpl; [done|].
  destruct (decide (Button.id x = Some bid)) as [Hx|Hx]; simpl.
  - rewrite f_id, Hx.
    rewrite !decide_False by congruence. done.
  - destruct (decide (Button.id x = Some bid')); [done|exact IH].
Qed.

Lemma alter_button_ids (bid : string) (bs : list Button.t) :
  Button.id <$> alter_button bid f bs = Button.id <$> bs.
Proof.
  induction bs as [|x r IH]; simpl; [done|].
  destruct (decide (Button.id x = Some bid)); rewrite !fmap_cons.
  - by rewrite f_id.
  - by rewrite IH.
Qed.

Lemma find_in_pages_alter (bid page_id : string)
  (ps : list (string * Page.t)) (b : Button.t) :
  find_button_in_pages bid ps = Some (page_id, b) ->
  find_button_in_pages bid (alter_button_in_pages bid f ps)
  = Some (page_id, f b).
Proof.
  induction ps as [|[k p] r IH]; simpl; [done|].
  destruct (find_button bid (Page.buttons p)) as [x|] eqn:E.
  - intros [= -> ->]. simpl. by rewrite (find_button_alter _ _ _ E).
  - intros H. simpl. rewrite E. auto.
Qed.

Lemma find_in_pages_alter_ne (bid bid' : string)
  (ps : list (string * Page.t)) :
  bid' <> bid ->
  find_button_in_pages bid' (alter_button_in_pages bid f ps)
  = find_button_in_pages bid' ps.
Proof.
  intros Hne. induction ps as [|[k p] r IH]; simpl; [done|].
  destruct (find_button bid (Page.buttons p)) as [x|] eqn:E; simpl.
  - by rewrite find_button_alter_ne.
  - by rewrite IH.
Qed.

Lemma alter_in_pages_shape (bid : string) (ps : list (string * Page.t)) :
  (fun kp => (kp.1, Page.title kp.2, Page.content kp.2,
              Button.id <$> Page.buttons kp.2))
    <$> alter_button_in_pages bid f ps
  = (fun kp => (kp.1, Page.title kp.2, Page.content kp.2,
                Button.id <$> Page.buttons kp.2)) <$> ps.
Proof.
  induction ps as [|[k p] r IH]; simpl; [done|].
  destruct (find_button bid (Page.buttons p)) as [x|] eqn:E;
    rewrite !fmap_cons; simpl.
  - by rewrite alter_button_ids.
  - by rewrite IH.
Qed.

End alter.

Lemma with_text_action_id (text action updated : string) (b : Button.t) :
  Button.id (with_text_action text action updated b) = Button.id b.
Proof. done. Qed.

(** X25. [edit_button_from_text] on [TEXT|ACTION], for a button named in
    the per-user context and found in the graph, changes that button where
    it stands: looked up again by its identifier it is found in the same
    page with the two trimmed fields and the time of the change, its
    identifier and creation time kept; the fields are stored without the
    checks that creating a button applies.  Every other identifier resolves
    as before, and the pages keep their keys, titles, contents and the
    identifiers of their buttons in order. *)
Theorem edit_button_effect (bot : Bot) (ctx : gmap string PyVal)
  (update : Update) (button_text action now_updated now_saved : string)
  (bid page_id : string) (b : Button.t) :
  PyStr.str_in "|" button_text = false ->
  ctx !! ("editing_button_" +:+ PyStr.str_of_int (effective_user update))
    = Some (PStr bid) ->
  bid <> EmptyString ->
  _find_button_by_id bot bid = Some (page_id, b) ->
  let '(bot', ctx', out) :=
    edit_button_from_text bot ctx update (button_text +:+ "|" +:+ action)
      now_updated now_saved in
  _find_button_by_id bot' bid
    = Some (page_id,
            {| Button.id := Button.id b;
               Button.text := PyStr.strip button_text;
               Button.action := PyStr.strip action;
               Button.created_at := Button.created_at b;
               Button.updated_at := Some now_updated |})
  /\ (forall bid', bid' <> bid ->
        _find_button_by_id bot' bid' = _find_button_by_id bot bid')
  /\ (fun kp => (kp.1, Page.title kp.2, Page.content kp.2,
                 Button.id <$> Page.buttons kp.2))
       <$> get_pages (database bot')
     = (fun kp => (kp.1, Page.title kp.2, Page.content kp.2,
                   Button.id <$> Page.buttons kp.2))
       <$> get_pages (database bot)
  /\ button_counter bot' = button_counter bot
  /\ user_states bot' !! effective_user update = None
  /\ ctx'
     = delete
         ("editing_button_" +:+ PyStr.str_of_int (effective_user update))
         ctx
  /\ out = [reply_text "✅ Pulsante aggiornato con successo!"
              None (Some MARKDOWN)].
Proof.
  intros Htext Hctx Hne Hfind. unfold edit_button_from_text.
  rewrite (split_two _ _ Htext), Hctx.
  assert (truthy (PStr bid) = true) as -> by by destruct bid.
  rewrite Hfind. simpl fmap. cbv iota beta.
  unfold _find_button_by_id in *.
  cbn [database with_database save_database _clear_user_state with_sessions
       get_pages with_pages pages button_counter user_states default id].
  split.
  { by rewrite (find_in_pages_alter _ (with_text_action_id _ _ _) _ _ _ _
                  Hfind). }
  split.
  { intros bid' Hbid'.
    by apply find_in_pages_alter_ne; [apply with_text_action_id|]. }
  split; [apply alter_in_pages_shape, with_text_action_id|].
  split; [done|].
  split; [apply lookup_delete_eq|done].
Qed.

Lemma edit_button_effect_witness :
  let '(bot', ctx', out) :=
    edit_button_from_text two_page_bot editing_ctx text_message
      ("Nuovo" +:+ "|" +:+ "nowhere") "t1" "t2" in
  _find_button_by_id bot' "btn_3"
    = Some ("about",
            {| Button.id := Button.id (stored_button 3);
               Button.text := PyStr.strip "Nuovo";
               Button.action := PyStr.strip "nowhere";
               Button.created_at := Button.created_at (stored_button 3);
               Button.updated_at := Some "t1" |})
  /\ (forall bid', bid' <> "btn_3" ->
        _find_button_by_id bot' bid' = _find_button_by_id two_page_bot bid')
  /\ (fun kp => (kp.1, Page.title kp.2, Page.content kp.2,
                 Button.id <$> Page.buttons kp.2))
       <$> get_pages (database bot')
     = (fun kp => (kp.1, Page.title kp.2, Page.content kp.2,
                   Button.id <$> Page.buttons kp.2))
       <$> get_pages (database two_page_bot)
  /\ button_counter bot' = button_counter two_page_bot
  /\ user_states bot' !! effective_user text_message = None
  /\ ctx'
     = delete
         ("editing_button_"
          +:+ PyStr.str_of_int (effective_user text_message)) editing_ctx
  /\ out = [reply_text "✅ Pulsante aggiornato con successo!"
              None (Some MARKDOWN)].
Proof.
  apply (edit_button_effect two_page_bot editing_ctx text_message
           "Nuovo" "nowhere" "t1" "t2" "btn_3" "about" (stored_button 3)).
  - reflexivity.
  - vm_compute. reflexivity.
  - discriminate.
  - reflexivity.
Defined.

(** Editing stores what creating refuses: an empty action. *)
Example edit_button_stores_empty_action :
  (fun found => Button.action found.2)
    <$> _find_button_by_id
          (edit_button_from_text two_page_bot editing_ctx text_message
             "Nuovo|" "t1" "t2").1.1 "btn_3"
  = Some EmptyString
  /\ (_validate_action EmptyString).1 = false.
Proof. vm_compute. done. Qed.

Lemma action_type_plain (action_type : string) :
  action_type ∈ action_types ->
  PyStr.strip action_type = action_type
  /\ PyStr.str_in "|" action_type = false.
Proof.
  unfold action_types. rewrite !elem_of_cons, elem_of_nil.
  intros [->|[->|[->|[->|[]]]]]; by vm_compute.
Qed.

(** X26. [create_action_from_text] either changes nothing, or the text
    split into [ID|TYPE|CONTENT] with a type among [message], [page], [url]
    and [command], and the bot differs only in that the action built from
    the fields stands in the actions table under the trimmed identifier.
    The built action has the type as given, the trimmed content, and the
    content as its link exactly when the type is [url].  Pages, settings
    and the counter of button identifiers are untouched. *)
Theorem create_action_outcome (bot : Bot) (update : Update)
  (text now_created now_saved : string) :
  let '(bot', out) :=
    create_action_from_text bot update text now_created now_saved in
  bot' = bot
  \/ exists action_id action_type content acts,
       PyStr.split "|" 2 text = [action_id; action_type; content]
       /\ action_type ∈ action_types
       /\ actions (database bot) = Some acts
       /\ get_actions (database bot')
          = Dict.set (PyStr.strip action_id)
              (built_action action_type content now_created) acts
       /\ pages (database bot') = pages (database bot)
       /\ settings (database bot') = settings (database bot)
       /\ button_counter bot' = button_counter bot.
Proof.
  unfold create_action_from_text.
  destruct (PyStr.split "|" 2 text) as [|action_id [|action_type [|content
    [|? ?]]]] eqn:Hsplit; try by left.
  case_bool_decide as Htype; simpl negb; cbv iota; [|by left].
  destruct (actions (database bot)) as [acts|] eqn:Hacts; [|by left].
  right. exists action_id, action_type, content, acts.
  destruct (action_type_plain _ Htype) as [Hstrip _].
  rewrite Hstrip. done.
Qed.

(** X27. An action created through the editor can be run: after
    [create_action_from_text] accepted [ID|TYPE|CONTENT], also over an
    identifier that was already in use, the action built from the fields is
    what the table holds under the trimmed identifier, every other action is
    unchanged, and [_execute_standard_action] on it returns without raising,
    whatever the context and the clock. *)
Theorem created_action_executes (bot : Bot) (update upd : Update)
  (action_id action_type content now_created now_saved : string)
  (ctx : gmap string PyVal) (now : DateTime)
  (now_created' now_saved' : string) :
  PyStr.str_in "|" action_id = false ->
  action_type ∈ action_types ->
  is_Some (actions (database bot)) ->
  let bot' :=
    (create_action_from_text bot update
       (action_id +:+ "|" +:+ action_type +:+ "|" +:+ content)
       now_created now_saved).1 in
  Dict.get (PyStr.strip action_id) (get_actions (database bot'))
    = Some (built_action action_type content now_created)
  /\ (forall k, k <> PyStr.strip action_id ->
        Dict.get k (get_actions (database bot'))
        = Dict.get k (get_actions (database bot)))
  /\ exists r,
       _execute_standard_action bot' ctx upd (PyStr.strip action_id) now
         now_created' now_saved' = inr r.
Proof.
  intros Hid Htype [acts Hacts].
  destruct (action_type_plain _ Htype) as [Hstrip Hbar].
  unfold create_action_from_text.
  rewrite (split_page_form _ _ _ Hid Hbar).
  rewrite bool_decide_eq_true_2 by done. simpl negb. cbv iota.
  rewrite Hacts, Hstrip.
  cbn [fst database with_database save_database _clear_user_state
       with_sessions get_actions with_actions actions default].
  unfold get_actions. rewrite Hacts. simpl.
  fold (built_action action_type content now_created).
  split; [apply dict_get_set_eq|].
  split; [intros k Hk; by apply dict_get_set_ne|].
  unfold _execute_standard_action.
  cbn [database with_database save_database _clear_user_state
       with_sessions get_actions with_actions actions default id].
  rewrite dict_get_set_eq.
  cbn [built_action Action.type Action.content Action.url default id].
  unfold action_types in Htype.
  rewrite !elem_of_cons, elem_of_nil in Htype.
  destruct Htype as [->|[->|[->|[->|[]]]]].
  - rewrite decide_True by done. eauto.
  - rewrite decide_False, decide_True by done. eauto.
  - rewrite !decide_False, decide_True by done. eauto.
  - rewrite !decide_False by done. rewrite decide_True by done.
    repeat case_decide; eauto.
Qed.

Lemma created_action_executes_witness :
  let bot' :=
    (create_action_from_text contact_bot text_message
       ("contact" +:+ "|" +:+ "url" +:+ "|" +:+ " https://example.org ")
       "t1" "t2").1 in
  Dict.get (PyStr.strip "contact") (get_actions (database bot'))
    = Some (built_action "url" " https://example.org " "t1")
  /\ (forall k, k <> PyStr.strip "contact" ->
        Dict.get k (get_actions (database bot'))
        = Dict.get k (get_actions (database contact_bot)))
  /\ exists r,
       _execute_standard_action bot' ∅ button_press (PyStr.strip "contact")
         noon "t3" "t4" = inr r.
Proof.
  apply (created_action_executes contact_bot text_message button_press
           "contact" "url" " https://example.org " "t1" "t2" ∅ noon
           "t3" "t4").
  - reflexivity.
  - unfold action_types. apply (bool_decide_unpack _). reflexivity.
  - by eexists.
Defined.

(** The type is checked before it is trimmed: a padded type is refused. *)
Example create_action_padded_type :
  create_action_from_text contact_bot text_message "a| url|x" "t1" "t2"
  = (contact_bot,
     [reply_text "❌ Tipo non valido. Usa: message, page, url, o command"
        None (Some MARKDOWN)]).
Proof. vm_compute. done. Qed.

Lemma dict_get_del_eq {V : Type} (k : string) (d : list (string * V)) :
  Dict.wf d -> Dict.get k (dict_del k d) = None.
Proof.
  unfold Dict.wf. induction d as [|[k' v] r IH]; simpl; [done|].
  intros [Hk Hr]%NoDup_cons.
  destruct (decide (k = k')) as [->|Hne]; simpl.
  - destruct (Dict.get k' r) as [v'|] eqn:E; [|done].
    by apply dict_get_some_key in E.
  - rewrite decide_False by done. auto.
Qed.

Lemma dict_get_del_ne {V : Type} (k k' : string) (d : list (string * V)) :
  k' <> k -> Dict.get k' (dict_del k d) = Dict.get k' d.
Proof.
  intros Hne. induction d as [|[k0 v] r IH]; simpl; [done|].
  destruct (decide (k = k0)) as [->|]; simpl.
  - by rewrite decide_False.
  - destruct (decide (k' = k0)); [done|exact IH].
Qed.

(** X28. After [delete_action] the identifier names no action, whether it
    did before or not; every other action is unchanged, and so are the
    pages: buttons that invoke the deleted action stay in place. *)
Theorem delete_action_frame (bot : Bot) (action_id now_saved : string) :
  Dict.wf (get_actions (database bot)) ->
  let bot' := (delete_action bot action_id now_saved).1 in
  Dict.get action_id (get_actions (database bot')) = None
  /\ (forall k, k <> action_id ->
        Dict.get k (get_actions (database bot'))
        = Dict.get k (get_actions (database bot)))
  /\ pages (database bot') = pages (database bot)
  /\ settings (database bot') = settings (database bot).
Proof.
  intros Hwf. unfold delete_action.
  destruct (Dict.mem action_id _) eqn:Hmem; simpl.
  - split; [by apply dict_get_del_eq|].
    split; [|done]. intros k Hk. by apply dict_get_del_ne.
  - by apply dict_mem_false in Hmem.
Qed.

Lemma delete_action_frame_witness :
  let bot' := (delete_action contact_bot "contact" "t1").1 in
  Dict.get "contact" (get_actions (database bot')) = None
  /\ (forall k, k <> "contact" ->
        Dict.get k (get_actions (database bot'))
        = Dict.get k (get_actions (database contact_bot)))
  /\ pages (database bot') = pages (database contact_bot)
  /\ settings (database bot') = settings (database contact_bot).
Proof.
  apply (delete_action_frame contact_bot "contact" "t1").
  unfold Dict.wf. simpl. apply (bool_decide_unpack _). reflexivity.
Defined.
